(** * DhruvDentalDepotBackend: session-based authentication and order recording

    A shallow embedding of [src/server.js].  The file holds two variants of the
    same HTTP API: one that keeps users, sessions and orders in a JSON file
    (module [JsonFile]) and one that keeps them in SQLite tables (module
    [Sqlite]).  Request handlers are functions from the request and the store
    to the new store and the HTTP response; everything the handlers draw from
    their surroundings (random identifiers, the clock, bcrypt) is collected in
    an [Env] that is passed in. *)

From Stdlib Require Import ZArith List String Ascii Bool Lia.
From Stdlib Require Import DecimalString DecimalZ Sorted Permutation OrdersEx.
From stdpp Require Import base option gmap strings.
Import ListNotations.

Open Scope string_scope.
Open Scope Z_scope.

(** ** The JavaScript values the handlers see *)

Module Js.

(** A request body after [express.json()]: what [JSON.parse] produces, plus
    [undefined] for what reading a missing property gives.  Numbers are the
    integers that print in plain decimal digits; strings are sequences of code
    units below 256. *)
#[warnings="-register-all"]
Inductive json : Type :=
| JUndefined
| JNull
| JBool (b : bool)
| JNum (z : Z)
| JStr (s : string)
| JArr (elems : list json)
| JObj (props : list (string * json)).

(** A JavaScript number as far as the handlers need it: an integer, NaN, or
    some other value (a fraction, an infinity), named by the literal it was
    read from. *)
Inductive jsnum : Type :=
| NInt (z : Z)
| NNaN
| NOther (lit : string).

Definition jsnum_eqb (a b : jsnum) : bool :=
  match a, b with
  | NInt x, NInt y => x =? y
  | NNaN, NNaN => true
  | NOther x, NOther y => String.eqb x y
  | _, _ => false
  end.

(** ToBoolean. *)
Definition truthy (v : json) : bool :=
  match v with
  | JUndefined | JNull => false
  | JBool b => b
  | JNum z => negb (z =? 0)
  | JStr s => negb (String.eqb s "")
  | JArr _ | JObj _ => true
  end.

(** [a || b]. *)
Definition orElse (a b : json) : json := if truthy a then a else b.

(** The own properties of a parsed object, first match. *)
Fixpoint ownProp (props : list (string * json)) (k : string) : option json :=
  match props with
  | [] => None
  | (k', v) :: rest => if String.eqb k' k then Some v else ownProp rest k
  end.

(** [v.k] for the property names the handlers read ([name], [qty], ...), none
    of which is inherited from a prototype: [None] is the TypeError of reading
    a property of [null] or [undefined]. *)
Definition getProp (v : json) (k : string) : option json :=
  match v with
  | JUndefined | JNull => None
  | JObj props => Some (default JUndefined (ownProp props k))
  | _ => Some JUndefined
  end.

(** [v?.k]. *)
Definition optChain (v : json) (k : string) : json :=
  default JUndefined (getProp v k).

Definition isArray (v : json) : bool :=
  match v with JArr _ => true | _ => false end.

(** Decimal digits of an integer, as [String(n)] and a template literal print
    it. *)
Definition decimal (z : Z) : string := NilZero.string_of_int (Z.to_int z).

(** [String(v)].  An array is its elements joined by commas, [null] and
    [undefined] elements printing as nothing.  An object prints as
    [[object Object]], unless the parsed object has an own [toString] property:
    that one is not callable, and the conversion throws ([None]). *)
Fixpoint toStr (v : json) : option string :=
  match v with
  | JUndefined => Some "undefined"
  | JNull => Some "null"
  | JBool b => Some (if b then "true" else "false")
  | JNum z => Some (decimal z)
  | JStr s => Some s
  | JArr elems =>
      let elemStr (x : json) : option string :=
        match x with
        | JUndefined | JNull => Some ""
        | _ => toStr x
        end in
      (fix join (l : list json) : option string :=
         match l with
         | [] => Some ""
         | x :: rest =>
             match elemStr x, rest with
             | None, _ => None
             | Some sx, [] => Some sx
             | Some sx, _ :: _ =>
                 match join rest with
                 | Some sr => Some (sx ++ "," ++ sr)
                 | None => None
                 end
             end
         end) elems
  | JObj props =>
      match ownProp props "toString" with
      | Some _ => None
      | None => Some "[object Object]"
      end
  end.

(** [Number(v)], given the runtime's reading of a string as a number. *)
Definition toNumber (StringToNumber : string -> jsnum) (v : json) : option jsnum :=
  match v with
  | JUndefined => Some NNaN
  | JNull => Some (NInt 0)
  | JBool b => Some (NInt (if b then 1 else 0))
  | JNum z => Some (NInt z)
  | JStr s => Some (StringToNumber s)
  | JArr _ | JObj _ => option_map StringToNumber (toStr v)
  end.

(** White space of [String.prototype.trim] among the code units below 256. *)
Definition isWhite (c : ascii) : bool :=
  let n := nat_of_ascii c in
  ((9 <=? n)%nat && (n <=? 13)%nat) || (n =? 32)%nat || (n =? 160)%nat.

Fixpoint trimStart (s : string) : string :=
  match s with
  | EmptyString => EmptyString
  | String c rest => if isWhite c then trimStart rest else s
  end.

Fixpoint trimEnd (s : string) : string :=
  match s with
  | EmptyString => EmptyString
  | String c rest =>
      let rest' := trimEnd rest in
      if isWhite c && String.eqb rest' "" then EmptyString else String c rest'
  end.

Definition trim (s : string) : string := trimEnd (trimStart s).

Definition lowerChar (c : ascii) : ascii :=
  let n := nat_of_ascii c in
  if ((65 <=? n)%nat && (n <=? 90)%nat)
     || ((192 <=? n)%nat && (n <=? 222)%nat && negb (n =? 215)%nat)
  then ascii_of_nat (n + 32) else c.

Fixpoint toLowerCase (s : string) : string :=
  match s with
  | EmptyString => EmptyString
  | String c rest => String (lowerChar c) (toLowerCase rest)
  end.

End Js.
Import Js.

(** ** What a handler takes from its surroundings

    One request draws at most two random identifiers and two time stamps. *)
Record Env : Type := {
  randomUUID_1 : string;              (* first crypto.randomUUID() *)
  randomUUID_2 : string;              (* second crypto.randomUUID() *)
  Date_now : Z;                       (* Date.now() *)
  toISOString_1 : string;             (* first new Date().toISOString() *)
  toISOString_2 : string;             (* second new Date().toISOString() *)
  bcrypt_hash : string -> string;     (* bcrypt.hash(_, 12), salt drawn *)
  bcrypt_compare : string -> string -> bool;
  StringToNumber : string -> jsnum
}.

(** ** Requests and responses *)

Record Request : Type := {
  cookie : option string;             (* req.cookies[COOKIE_NAME] *)
  body : json                         (* req.body *)
}.

Record SanitizedUser : Type := {
  su_id : string; su_name : string; su_email : string; su_createdAt : string
}.

Record Customer : Type := {
  name : string; phone : string; email : string; address : string;
  city : string; state : string; pinCode : string; note : string
}.

(** An item of an order.  [JSON.stringify] writes a NaN quantity as [null],
    in the file as in a response: there [NNaN] stands for that [null]. *)
Record Item : Type := {
  item_id : string; title : string; category : string; qty : jsnum
}.

(** An order as a response shows it. *)
Record OrderView : Type := {
  ov_id : string; ov_createdAt : string; ov_customer : Customer;
  ov_items : list Item
}.

Inductive Body : Type :=
| BError (msg : string)
| BOk
| BUser (u : SanitizedUser)
| BOrder (o : OrderView)
| BOrders (l : list OrderView).

Inductive CookieAction : Type :=
| CookieUntouched
| SetSessionCookie (sessionId : string)
| ClearSessionCookie.

Record Response : Type := {
  status : Z; resp_body : Body; resp_cookie : CookieAction
}.

Definition respond (st : Z) (b : Body) : Response :=
  {| status := st; resp_body := b; resp_cookie := CookieUntouched |}.

Definition internalError : Response := respond 500 (BError "internal server error").
Definition notAuthenticated : Response := respond 401 (BError "not authenticated").
Definition invalidCredentials : Response := respond 401 (BError "invalid credentials").

(** [!sessionId]: no cookie, or an empty one. *)
Definition cookieSid (req : Request) : option string :=
  match cookie req with
  | Some sid => if String.eqb sid "" then None else Some sid
  | None => None
  end.

(** The fields both variants read from the request, as the source converts
    them. *)
Definition strField (v : json) (k : string) : option string :=
  match getProp v k with
  | Some f => toStr (orElse f (JStr ""))
  | None => None
  end.

Definition trimmedField (v : json) (k : string) : option string :=
  option_map trim (strField v k).

(** The customer snapshot: eight trimmed strings. *)
Definition customerOf (customer : json) : option Customer :=
  n ← trimmedField customer "name";
  p ← trimmedField customer "phone";
  e ← trimmedField customer "email";
  a ← trimmedField customer "address";
  c ← trimmedField customer "city";
  s ← trimmedField customer "state";
  z ← trimmedField customer "pinCode";
  t ← trimmedField customer "note";
  Some {| name := n; phone := p; email := e; address := a;
          city := c; state := s; pinCode := z; note := t |}.

(** [Number(item.qty || 0)]. *)
Definition quantityOf (env : Env) (item : json) : option jsnum :=
  q0 ← getProp item "qty";
  toNumber (StringToNumber env) (orElse q0 (JNum 0)).

(** One item: [{ id: String(item.id || ""), ..., qty: Number(item.qty || 0) }]. *)
Definition itemOf (env : Env) (item : json) : option Item :=
  i ← strField item "id";
  t ← strField item "title";
  c ← strField item "category";
  q ← quantityOf env item;
  Some {| item_id := i; title := t; category := c; qty := q |}.

(** [items.map(...)]: the first exception ends the map. *)
Fixpoint itemsOf (env : Env) (items : list json) : option (list Item) :=
  match items with
  | [] => Some []
  | x :: rest =>
      i ← itemOf env x;
      r ← itemsOf env rest;
      Some (i :: r)
  end.

(** [req.body?.customer || {}] and
    [Array.isArray(req.body?.items) ? req.body.items : []]. *)
Definition reqCustomer (req : Request) : json :=
  orElse (optChain (body req) "customer") (JObj []).

Definition reqItems (req : Request) : list json :=
  match optChain (body req) "items" with
  | JArr l => l
  | _ => []
  end.

(** [!customer.name || !customer.phone || !customer.address]; the customer is
    truthy, so the reads cannot throw. *)
Definition customerMissing (customer : json) : bool :=
  negb (truthy (optChain customer "name"))
  || negb (truthy (optChain customer "phone"))
  || negb (truthy (optChain customer "address")).

Definition orderIdOf (env : Env) : string := "DDD-" ++ decimal (Date_now env).

(** [String(req.body?.k || "")]. *)
Definition rawField (req : Request) (k : string) : option string :=
  toStr (orElse (optChain (body req) k) (JStr "")).

(** The three fields of a registration: the name trimmed, the e-mail trimmed
    and lower-cased, the password as it comes. *)
Definition reqName (req : Request) : option string :=
  option_map trim (rawField req "name").

Definition reqEmail (req : Request) : option string :=
  option_map (fun s => toLowerCase (trim s)) (rawField req "email").

Definition reqPassword (req : Request) : option string :=
  rawField req "password".

Definition isEmpty (s : string) : bool := String.eqb s "".

Definition setCookie (st : Z) (b : Body) (sessionId : string) : Response :=
  {| status := st; resp_body := b; resp_cookie := SetSessionCookie sessionId |}.

Definition loggedOut : Response :=
  {| status := 200; resp_body := BOk; resp_cookie := ClearSessionCookie |}.

(** ** The JSON-file variant (lines 1-289) *)

Module JsonFile.

Record User : Type := {
  user_id : string; user_name : string; user_email : string;
  user_passwordHash : string; user_createdAt : string
}.

Record Session : Type := { userId : string; session_createdAt : string }.

Record Order : Type := {
  order_id : string; order_createdAt : string; order_userId : string;
  order_customer : Customer; order_items : list Item
}.

(** The contents of [auth-db.json]: [{ users: [], sessions: {}, orders: [] }]. *)
Record Db : Type := {
  users : list User;
  sessions : gmap string Session;
  orders : list Order
}.

Definition initial : Db := {| users := []; sessions := ∅; orders := [] |}.

Definition sanitizeUser (u : User) : SanitizedUser :=
  {| su_id := user_id u; su_name := user_name u; su_email := user_email u;
     su_createdAt := user_createdAt u |}.

Definition sanitizeOrder (o : Order) : OrderView :=
  {| ov_id := order_id o; ov_createdAt := order_createdAt o;
     ov_customer := order_customer o; ov_items := order_items o |}.

(** [db.sessions[sessionId]] reads a plain object: besides the sessions stored
    under their identifiers it finds what every object inherits from
    [Object.prototype], all of it truthy and none of it with a [userId]. *)
Definition objectPrototypeKeys : list string :=
  ["constructor"; "__proto__"; "hasOwnProperty"; "isPrototypeOf";
   "propertyIsEnumerable"; "toLocaleString"; "toString"; "valueOf";
   "__defineGetter__"; "__defineSetter__"; "__lookupGetter__";
   "__lookupSetter__"].

Inductive Slot : Type :=
| Own (s : Session)
| Inherited
| Missing.

Definition sessionSlot (db : Db) (sessionId : string) : Slot :=
  match sessions db !! sessionId with
  | Some s => Own s
  | None =>
      if existsb (String.eqb sessionId) objectPrototypeKeys
      then Inherited else Missing
  end.

(** [session.userId]: [None] is [undefined]. *)
Definition slotUserId (sl : Slot) : option string :=
  match sl with
  | Own s => Some (userId s)
  | Inherited | Missing => None
  end.

(** [db.users.find((user) => user.id === userId)]. *)
Definition findUserById (db : Db) (uid : option string) : option User :=
  match uid with
  | Some i => List.find (fun u => String.eqb (user_id u) i) (users db)
  | None => None
  end.

Definition findUserByEmail (db : Db) (e : string) : option User :=
  List.find (fun u => String.eqb (user_email u) e) (users db).

Definition getUserFromSession (req : Request) (db : Db) : option User :=
  match cookieSid req with
  | None => None
  | Some sessionId =>
      match sessionSlot db sessionId with
      | Missing => None
      | sl => findUserById db (slotUserId sl)
      end
  end.

Definition addSession (db : Db) (sessionId uid createdAt : string) : Db :=
  {| users := users db;
     sessions := <[sessionId := {| userId := uid; session_createdAt := createdAt |}]>
                   (sessions db);
     orders := orders db |}.

(** A handler runs inside [try { ... } catch { 500 }]; the file is written by
    the last statement before the response, so an exception leaves it as it
    was. *)
Definition catch500 (db : Db) (r : option (Db * Response)) : Db * Response :=
  default (db, internalError) r.

Definition register_try (env : Env) (req : Request) (db : Db)
  : option (Db * Response) :=
  name ← reqName req;
  email ← reqEmail req;
  password ← reqPassword req;
  if isEmpty name || isEmpty email || isEmpty password then
    Some (db, respond 400 (BError "name, email, and password are required"))
  else if existsb (fun u => String.eqb (user_email u) email) (users db) then
    Some (db, respond 409 (BError "email already registered"))
  else
    let user := {| user_id := randomUUID_1 env; user_name := name;
                   user_email := email;
                   user_passwordHash := bcrypt_hash env password;
                   user_createdAt := toISOString_1 env |} in
    let db1 := {| users := users db ++ [user]; sessions := sessions db;
                  orders := orders db |} in
    let sessionId := randomUUID_2 env in
    let db2 := addSession db1 sessionId (user_id user) (toISOString_2 env) in
    Some (db2, setCookie 201 (BUser (sanitizeUser user)) sessionId).

Definition register (env : Env) (req : Request) (db : Db) : Db * Response :=
  catch500 db (register_try env req db).

Definition login_try (env : Env) (req : Request) (db : Db)
  : option (Db * Response) :=
  email ← reqEmail req;
  password ← reqPassword req;
  if isEmpty email || isEmpty password then
    Some (db, respond 400 (BError "email and password are required"))
  else
    match findUserByEmail db email with
    | None => Some (db, invalidCredentials)
    | Some user =>
        if negb (bcrypt_compare env password (user_passwordHash user)) then
          Some (db, invalidCredentials)
        else
          let sessionId := randomUUID_1 env in
          let db1 := addSession db sessionId (user_id user) (toISOString_1 env) in
          Some (db1, setCookie 200 (BUser (sanitizeUser user)) sessionId)
    end.

Definition login (env : Env) (req : Request) (db : Db) : Db * Response :=
  catch500 db (login_try env req db).

Definition logout (req : Request) (db : Db) : Db * Response :=
  match cookieSid req with
  | None => (db, loggedOut)
  | Some sessionId =>
      ({| users := users db; sessions := delete sessionId (sessions db);
          orders := orders db |}, loggedOut)
  end.

Definition currentUser (req : Request) (db : Db) : Db * Response :=
  match getUserFromSession req db with
  | None => (db, notAuthenticated)
  | Some user => (db, respond 200 (BUser (sanitizeUser user)))
  end.

Definition placeOrder_try (env : Env) (req : Request) (db : Db)
  : option (Db * Response) :=
  match cookieSid req with
  | None => Some (db, notAuthenticated)
  | Some sessionId =>
      match sessionSlot db sessionId with
      | Missing => Some (db, notAuthenticated)
      | session =>
          match findUserById db (slotUserId session) with
          | None => Some (db, notAuthenticated)
          | Some user =>
              let customer := reqCustomer req in
              let items := reqItems req in
              if customerMissing customer then
                Some (db, respond 400
                        (BError "customer name, phone, and address are required"))
              else if (length items =? 0)%nat then
                Some (db, respond 400
                        (BError "at least one order item is required"))
              else
                c ← customerOf customer;
                its ← itemsOf env items;
                let order := {| order_id := orderIdOf env;
                                order_createdAt := toISOString_1 env;
                                order_userId := user_id user;
                                order_customer := c;
                                order_items := its |} in
                Some ({| users := users db; sessions := sessions db;
                         orders := orders db ++ [order] |},
                      respond 201 (BOrder (sanitizeOrder order)))
          end
      end
  end.

Definition placeOrder (env : Env) (req : Request) (db : Db) : Db * Response :=
  catch500 db (placeOrder_try env req db).

(** [order.userId === session.userId]: never true when the right side is
    [undefined]. *)
Definition ownedBy (uid : option string) (o : Order) : bool :=
  match uid with
  | Some i => String.eqb (order_userId o) i
  | None => false
  end.

Definition listMyOrders (req : Request) (db : Db) : Db * Response :=
  match cookieSid req with
  | None => (db, notAuthenticated)
  | Some sessionId =>
      match sessionSlot db sessionId with
      | Missing => (db, notAuthenticated)
      | session =>
          let userOrders :=
            List.map sanitizeOrder
              (List.filter (ownedBy (slotUserId session)) (orders db)) in
          (db, respond 200 (BOrders userOrders))
      end
  end.

End JsonFile.

(** ** The SQLite variant (lines 290-742) *)

Module Sqlite.

(** The four tables of [initDb], rows in rowid order. *)
Record UserRow : Type := {
  u_id : string; u_name : string; u_email : string;
  u_password_hash : string; u_created_at : string
}.

Record SessionRow : Type := {
  s_id : string; s_user_id : string; s_created_at : string
}.

(** [o_customer] stands for the eight [customer_*] columns. *)
Record OrderRow : Type := {
  o_id : string; o_user_id : string; o_created_at : string;
  o_customer : Customer
}.

Record ItemRow : Type := {
  oi_id : Z; oi_order_id : string; oi_product_id : string;
  oi_title : string; oi_category : string; oi_qty : jsnum
}.

Record Tables : Type := {
  users : list UserRow;
  sessions : list SessionRow;
  orders : list OrderRow;
  order_items : list ItemRow;
  order_items_seq : Z         (* sqlite_sequence: largest order_items.id so far *)
}.

(** The database: its tables and, while a transaction is open, the tables as
    they were at BEGIN. *)
Record Db : Type := { tables : Tables; journal : option Tables }.

Definition emptyTables : Tables :=
  {| users := []; sessions := []; orders := []; order_items := [];
     order_items_seq := 0 |}.

Definition initial : Db := {| tables := emptyTables; journal := None |}.

(** *** Statements: [None] is a constraint violation *)

(** users: [id] PRIMARY KEY, [email] UNIQUE. *)
Definition insertUser (r : UserRow) (t : Tables) : option Tables :=
  if existsb (fun u => String.eqb (u_id u) (u_id r)) (users t)
     || existsb (fun u => String.eqb (u_email u) (u_email r)) (users t)
  then None
  else Some {| users := users t ++ [r]; sessions := sessions t;
               orders := orders t; order_items := order_items t;
               order_items_seq := order_items_seq t |}.

(** sessions: [id] PRIMARY KEY, [user_id] REFERENCES users. *)
Definition insertSession (r : SessionRow) (t : Tables) : option Tables :=
  if existsb (fun s => String.eqb (s_id s) (s_id r)) (sessions t)
     || negb (existsb (fun u => String.eqb (u_id u) (s_user_id r)) (users t))
  then None
  else Some {| users := users t; sessions := sessions t ++ [r];
               orders := orders t; order_items := order_items t;
               order_items_seq := order_items_seq t |}.

Definition deleteSession (sessionId : string) (t : Tables) : option Tables :=
  Some {| users := users t;
          sessions := List.filter (fun s => negb (String.eqb (s_id s) sessionId))
                        (sessions t);
          orders := orders t; order_items := order_items t;
          order_items_seq := order_items_seq t |}.

(** orders: [id] PRIMARY KEY, [user_id] REFERENCES users. *)
Definition insertOrder (r : OrderRow) (t : Tables) : option Tables :=
  if existsb (fun o => String.eqb (o_id o) (o_id r)) (orders t)
     || negb (existsb (fun u => String.eqb (u_id u) (o_user_id r)) (users t))
  then None
  else Some {| users := users t; sessions := sessions t;
               orders := orders t ++ [r]; order_items := order_items t;
               order_items_seq := order_items_seq t |}.

(** order_items: [id] AUTOINCREMENT, [order_id] REFERENCES orders,
    [qty] NOT NULL; the driver binds NaN as NULL. *)
Definition appendItem (orderId : string) (it : Item) (t : Tables) : Tables :=
  let rowid := order_items_seq t + 1 in
  {| users := users t; sessions := sessions t; orders := orders t;
     order_items := order_items t ++
       [{| oi_id := rowid; oi_order_id := orderId;
           oi_product_id := item_id it; oi_title := title it;
           oi_category := category it; oi_qty := qty it |}];
     order_items_seq := rowid |}.

Definition insertOrderItem (orderId : string) (it : Item) (t : Tables)
  : option Tables :=
  if negb (existsb (fun o => String.eqb (o_id o) orderId) (orders t))
     || jsnum_eqb (qty it) NNaN
  then None
  else Some (appendItem orderId it t).

(** *** Asynchronous code over the database

    A computation takes the database and returns it with a result, or with
    [None] for a rejected promise or a thrown exception; what was written
    before the exception stays written. *)
Definition Sql (A : Type) : Type := Db -> Db * option A.

Definition ret {A} (a : A) : Sql A := fun db => (db, Some a).
Definition throw {A} : Sql A := fun db => (db, None).

Definition bind {A B} (m : Sql A) (k : A -> Sql B) : Sql B :=
  fun db =>
    match m db with
    | (db', Some a) => k a db'
    | (db', None) => (db', None)
    end.

Notation "'do' x <- m ; k" := (bind m (fun x => k))
  (at level 10, x name, m at level 100, k at level 200).
Notation "'await' m ; k" := (bind m (fun _ => k))
  (at level 10, m at level 100, k at level 200).

(** An expression that may throw. *)
Definition eval {A} (o : option A) : Sql A := fun db => (db, o).

(** [try { body } catch (error) { handler }]. *)
Definition tryCatch {A} (body handler : Sql A) : Sql A :=
  fun db =>
    match body db with
    | (db', Some a) => (db', Some a)
    | (db', None) => handler db'
    end.

(** [runAsync(sql, params)] for a statement that changes the tables. *)
Definition runAsync (stmt : Tables -> option Tables) : Sql unit :=
  fun db =>
    match stmt (tables db) with
    | Some t => ({| tables := t; journal := journal db |}, Some tt)
    | None => (db, None)
    end.

(** [getAsync] and [allAsync]. *)
Definition query {A} (q : Tables -> A) : Sql A :=
  fun db => (db, Some (q (tables db))).

Definition beginTransaction : Sql unit :=
  fun db =>
    match journal db with
    | None => ({| tables := tables db; journal := Some (tables db) |}, Some tt)
    | Some _ => (db, None)
    end.

Definition commit : Sql unit :=
  fun db =>
    match journal db with
    | Some _ => ({| tables := tables db; journal := None |}, Some tt)
    | None => (db, None)
    end.

Definition rollback : Sql unit :=
  fun db =>
    match journal db with
    | Some t0 => ({| tables := t0; journal := None |}, Some tt)
    | None => (db, None)
    end.

(** [for (const x of l) { await f(x) }]. *)
Fixpoint forEach {A} (f : A -> Sql unit) (l : list A) : Sql unit :=
  match l with
  | [] => ret tt
  | x :: rest => await f x; forEach f rest
  end.

(** The outer [try { ... } catch { 500 }] of a handler. *)
Definition catch500 (m : Sql Response) (db : Db) : Db * Response :=
  match m db with
  | (db', Some r) => (db', r)
  | (db', None) => (db', internalError)
  end.

(** *** Queries *)

Definition sanitizeUser (u : UserRow) : SanitizedUser :=
  {| su_id := u_id u; su_name := u_name u; su_email := u_email u;
     su_createdAt := u_created_at u |}.

(** [SELECT u.* FROM sessions s INNER JOIN users u ON u.id = s.user_id
    WHERE s.id = ? LIMIT 1]. *)
Definition selectSessionUser (sessionId : string) (t : Tables) : option UserRow :=
  head (flat_map
          (fun s => List.filter (fun u => String.eqb (u_id u) (s_user_id s)) (users t))
          (List.filter (fun s => String.eqb (s_id s) sessionId) (sessions t))).

(** [SELECT ... FROM users WHERE email = ? LIMIT 1]. *)
Definition selectUserByEmail (e : string) (t : Tables) : option UserRow :=
  head (List.filter (fun u => String.eqb (u_email u) e) (users t)).

Definition getUserFromSession (req : Request) : Sql (option UserRow) :=
  match cookieSid req with
  | None => ret None
  | Some sessionId => query (selectSessionUser sessionId)
  end.

(** The user [getUserFromSession] resolves to, as a function of the tables. *)
Definition sessionUser (req : Request) (t : Tables) : option UserRow :=
  match cookieSid req with
  | None => None
  | Some sessionId => selectSessionUser sessionId t
  end.

(** A row of [orders o LEFT JOIN order_items oi]. *)
Record JoinedRow : Type := { jr_order : OrderRow; jr_item : option ItemRow }.

Definition leftJoin (uid : string) (t : Tables) : list JoinedRow :=
  flat_map
    (fun o =>
       match List.filter (fun i => String.eqb (oi_order_id i) (o_id o))
               (order_items t) with
       | [] => [{| jr_order := o; jr_item := None |}]
       | its => List.map (fun i => {| jr_order := o; jr_item := Some i |}) its
       end)
    (List.filter (fun o => String.eqb (o_user_id o) uid) (orders t)).

(** [ORDER BY o.created_at DESC, oi.id ASC]: text compares code unit by code
    unit, NULL sorts first. *)
Definition itemKeyLe (a b : option ItemRow) : bool :=
  match a, b with
  | None, _ => true
  | Some _, None => false
  | Some x, Some y => oi_id x <=? oi_id y
  end.

Definition rowLe (a b : JoinedRow) : bool :=
  match String_as_OT.compare (o_created_at (jr_order a))
          (o_created_at (jr_order b)) with
  | Gt => true
  | Lt => false
  | Eq => itemKeyLe (jr_item a) (jr_item b)
  end.

Fixpoint insertRow (r : JoinedRow) (l : list JoinedRow) : list JoinedRow :=
  match l with
  | [] => [r]
  | x :: rest => if rowLe r x then r :: l else x :: insertRow r rest
  end.

Definition orderBy (l : list JoinedRow) : list JoinedRow :=
  fold_right insertRow [] l.

Definition selectOrders (uid : string) (t : Tables) : list JoinedRow :=
  orderBy (leftJoin uid t).

(** *** Reassembly: the [Map] from order id to order, in insertion order *)

Definition mapHas (m : list OrderView) (k : string) : bool :=
  existsb (fun o => String.eqb (ov_id o) k) m.

Definition viewOfRow (row : JoinedRow) : OrderView :=
  {| ov_id := o_id (jr_order row); ov_createdAt := o_created_at (jr_order row);
     ov_customer := o_customer (jr_order row); ov_items := [] |}.

Definition itemOfRow (i : ItemRow) : Item :=
  {| item_id := oi_product_id i; title := oi_title i;
     category := oi_category i; qty := oi_qty i |}.

(** [orderMap.get(k).items.push(it)]. *)
Definition pushItem (m : list OrderView) (k : string) (it : Item) : list OrderView :=
  List.map (fun o =>
              if String.eqb (ov_id o) k
              then {| ov_id := ov_id o; ov_createdAt := ov_createdAt o;
                      ov_customer := ov_customer o;
                      ov_items := ov_items o ++ [it] |}
              else o) m.

Definition addRow (m : list OrderView) (row : JoinedRow) : list OrderView :=
  let k := o_id (jr_order row) in
  let m1 := if mapHas m k then m else (m ++ [viewOfRow row])%list in
  match jr_item row with
  | Some i =>
      if negb (String.eqb (oi_product_id i) "")   (* if (row.product_id) *)
      then pushItem m1 k (itemOfRow i) else m1
  | None => m1
  end.

Definition reassemble (rows : list JoinedRow) : list OrderView :=
  fold_left addRow rows [].

(** The tables after the rows of an order's items have been appended. *)
Fixpoint appendItems (orderId : string) (its : list Item) (t : Tables) : Tables :=
  match its with
  | [] => t
  | it :: rest => appendItems orderId rest (appendItem orderId it t)
  end.

(** *** Handlers *)

Definition register_try (env : Env) (req : Request) : Sql Response :=
  do name <- eval (reqName req);
  do email <- eval (reqEmail req);
  do password <- eval (reqPassword req);
  if isEmpty name || isEmpty email || isEmpty password then
    ret (respond 400 (BError "name, email, and password are required"))
  else
    do existing <- query (selectUserByEmail email);
    match existing with
    | Some _ => ret (respond 409 (BError "email already registered"))
    | None =>
        let user := {| u_id := randomUUID_1 env; u_name := name;
                       u_email := email;
                       u_password_hash := bcrypt_hash env password;
                       u_created_at := toISOString_1 env |} in
        await runAsync (insertUser user);
        let sessionId := randomUUID_2 env in
        await runAsync (insertSession {| s_id := sessionId; s_user_id := u_id user;
                                         s_created_at := toISOString_2 env |});
        ret (setCookie 201 (BUser (sanitizeUser user)) sessionId)
    end.

Definition register (env : Env) (req : Request) : Db -> Db * Response :=
  catch500 (register_try env req).

Definition login_try (env : Env) (req : Request) : Sql Response :=
  do email <- eval (reqEmail req);
  do password <- eval (reqPassword req);
  if isEmpty email || isEmpty password then
    ret (respond 400 (BError "email and password are required"))
  else
    do found <- query (selectUserByEmail email);
    match found with
    | None => ret invalidCredentials
    | Some user =>
        if negb (bcrypt_compare env password (u_password_hash user)) then
          ret invalidCredentials
        else
          let sessionId := randomUUID_1 env in
          await runAsync (insertSession {| s_id := sessionId; s_user_id := u_id user;
                                           s_created_at := toISOString_1 env |});
          ret (setCookie 200 (BUser (sanitizeUser user)) sessionId)
    end.

Definition login (env : Env) (req : Request) : Db -> Db * Response :=
  catch500 (login_try env req).

Definition logout_try (req : Request) : Sql Response :=
  await match cookieSid req with
        | Some sessionId => runAsync (deleteSession sessionId)
        | None => ret tt
        end;
  ret loggedOut.

Definition logout (req : Request) : Db -> Db * Response :=
  catch500 (logout_try req).

Definition currentUser_try (req : Request) : Sql Response :=
  do found <- getUserFromSession req;
  match found with
  | None => ret notAuthenticated
  | Some user => ret (respond 200 (BUser (sanitizeUser user)))
  end.

Definition currentUser (req : Request) : Db -> Db * Response :=
  catch500 (currentUser_try req).

(** The body of the item loop, and the statements between BEGIN and the end
    of the [try] block. *)
Definition insertItem (env : Env) (orderId : string) (item : json) : Sql unit :=
  do it <- eval (itemOf env item);
  runAsync (insertOrderItem orderId it).

Definition orderStatements (env : Env) (user : UserRow) (customer : json)
    (items : list json) : Sql unit :=
  do c <- eval (customerOf customer);
  await runAsync (insertOrder {| o_id := orderIdOf env; o_user_id := u_id user;
                                 o_created_at := toISOString_1 env;
                                 o_customer := c |});
  await forEach (insertItem env (orderIdOf env)) items;
  commit.

Definition placeOrder_try (env : Env) (req : Request) : Sql Response :=
  do found <- getUserFromSession req;
  match found with
  | None => ret notAuthenticated
  | Some user =>
      let customer := reqCustomer req in
      let items := reqItems req in
      if customerMissing customer then
        ret (respond 400 (BError "customer name, phone, and address are required"))
      else if (length items =? 0)%nat then
        ret (respond 400 (BError "at least one order item is required"))
      else
        let orderId := orderIdOf env in
        let createdAt := toISOString_1 env in
        await beginTransaction;
        await tryCatch (orderStatements env user customer items)
                       (await rollback; throw);
        do c <- eval (customerOf customer);
        do its <- eval (itemsOf env items);
        ret (respond 201
               (BOrder {| ov_id := orderId; ov_createdAt := createdAt;
                          ov_customer := c; ov_items := its |}))
  end.

Definition placeOrder (env : Env) (req : Request) : Db -> Db * Response :=
  catch500 (placeOrder_try env req).

Definition listMyOrders_try (req : Request) : Sql Response :=
  do found <- getUserFromSession req;
  match found with
  | None => ret notAuthenticated
  | Some user =>
      do rows <- query (selectOrders (u_id user));
      ret (respond 200 (BOrders (reassemble rows)))
  end.

Definition listMyOrders (req : Request) : Db -> Db * Response :=
  catch500 (listMyOrders_try req).

End Sqlite.

(** ** What a listing is measured against *)

(** [a] may stand before [b] in a newest-first list: its time stamp is not
    the smaller one. *)
Definition newestFirst (a b : OrderView) : Prop :=
  String_as_OT.compare (ov_createdAt a) (ov_createdAt b) <> Lt.

Module Listing.
Import Sqlite.

(** The orders of a user, in the order they were inserted. *)
Definition userOrders (uid : string) (t : Tables) : list OrderRow :=
  List.filter (fun o => String.eqb (o_user_id o) uid) (orders t).

Definition itemsOfOrder (t : Tables) (orderId : string) : list ItemRow :=
  List.filter (fun i => String.eqb (oi_order_id i) orderId) (order_items t).

(** An order row with the rows of its items, in the order they were
    inserted. *)
Definition viewOfOrder (t : Tables) (o : OrderRow) : OrderView :=
  {| ov_id := o_id o; ov_createdAt := o_created_at o;
     ov_customer := o_customer o;
     ov_items := List.map itemOfRow (itemsOfOrder t (o_id o)) |}.

(** What the constraints of the schema maintain: order ids are a primary key;
    item rows carry increasing AUTOINCREMENT ids, none above the counter, and
    each refers to an order. *)
Record wellFormed (t : Tables) : Prop := {
  wf_order_ids : List.NoDup (List.map o_id (orders t));
  wf_item_ids : StronglySorted Z.lt (List.map oi_id (order_items t));
  wf_item_seq : Forall (fun i => oi_id i <= order_items_seq t) (order_items t);
  wf_item_orders :
    Forall (fun i => In (oi_order_id i) (List.map o_id (orders t))) (order_items t)
}.

(** Two states of the tables with the same orders and items. *)
Definition sameOrders (t t' : Tables) : Prop :=
  orders t' = orders t
  /\ order_items t' = order_items t
  /\ order_items_seq t' = order_items_seq t.

(** A computation that touches neither the orders nor the journal. *)
Definition keepsOrders {A} (m : Sql A) : Prop :=
  forall db db' r,
    m db = (db', r) ->
    sameOrders (tables db) (tables db') /\ journal db' = journal db.

(** [a] may stand before [b] in the result of the query. *)
Definition rowLeP (a b : JoinedRow) : Prop := rowLe a b = true.

(** The reassembled listing in closed form: one order for each first
    occurrence of an order id among the rows, with the items of all rows of
    that id that pass [if (row.product_id)]. *)
Definition key (r : JoinedRow) : string := o_id (jr_order r).

Definition mkView (r : JoinedRow) (its : list Item) : OrderView :=
  {| ov_id := key r; ov_createdAt := o_created_at (jr_order r);
     ov_customer := o_customer (jr_order r); ov_items := its |}.

Definition keepItem (r : JoinedRow) : list Item :=
  match jr_item r with
  | Some i => if negb (String.eqb (oi_product_id i) "") then [itemOfRow i] else []
  | None => []
  end.

Definition itemsFor (k : string) (rows : list JoinedRow) : list Item :=
  flat_map (fun r => if String.eqb (key r) k then keepItem r else []) rows.

Fixpoint firsts (seen : list string) (rows : list JoinedRow) : list JoinedRow :=
  match rows with
  | [] => []
  | r :: rest =>
      if existsb (String.eqb (key r)) seen then firsts seen rest
      else r :: firsts (key r :: seen) rest
  end.

(** Appending to the items of the order [k]; [pushItem] appends one. *)
Definition push (m : list OrderView) (k : string) (its : list Item) : list OrderView :=
  List.map (fun o =>
              if String.eqb (ov_id o) k
              then {| ov_id := ov_id o; ov_createdAt := ov_createdAt o;
                      ov_customer := ov_customer o;
                      ov_items := ov_items o ++ its |}
              else o) m.

Definition listing (rows : list JoinedRow) : list OrderView :=
  List.map (fun r => mkView r (itemsFor (key r) rows)) (firsts [] rows).

End Listing.

(** ** A concrete environment for examples

    The stand-in for bcrypt prefixes the password; the stand-in for the
    runtime's string-to-number conversion reads optionally signed decimal
    integers and reports every other string as NaN. *)

Definition readDecimal (s : string) : jsnum :=
  let t := trim s in
  if isEmpty t then NInt 0
  else match NilZero.int_of_string t with
       | Some d => NInt (Z.of_int d)
       | None => NNaN
       end.

Definition demoEnv (uuid1 uuid2 : string) (now : Z) (iso : string) : Env :=
  {| randomUUID_1 := uuid1; randomUUID_2 := uuid2; Date_now := now;
     toISOString_1 := iso; toISOString_2 := iso;
     bcrypt_hash := fun p => "$2a$12$" ++ p;
     bcrypt_compare := fun p h => String.eqb h ("$2a$12$" ++ p);
     StringToNumber := readDecimal |}.

Definition jsonRequest (sid : option string) (b : list (string * json)) : Request :=
  {| cookie := sid; body := JObj b |}.

Definition registerShiva : Request :=
  jsonRequest None
    [("name", JStr "Shiva"); ("email", JStr "shiva@example.com");
     ("password", JStr "StrongPassword123")].

Definition customerShiva : json :=
  JObj [("name", JStr "Shiva"); ("phone", JStr "9999999999");
        ("email", JStr "shiva@example.com"); ("address", JStr "Varanasi");
        ("city", JStr "Varanasi"); ("state", JStr "UP");
        ("pinCode", JStr "221001"); ("note", JStr "")].

Definition itemPrd1 : json :=
  JObj [("id", JStr "prd-1"); ("title", JStr "Instrument 01");
        ("category", JStr "Accessories"); ("qty", JNum 1)].

Definition orderRequest (sid : string) (customer : json) (items : list json)
  : Request :=
  jsonRequest (Some sid) [("customer", customer); ("items", JArr items)].


Definition registerNoName : Request :=
  jsonRequest None
    [("name", JStr "   "); ("email", JStr "shiva@example.com");
     ("password", JStr "StrongPassword123")].

Definition registerBlankPassword : Request :=
  jsonRequest None
    [("name", JStr "Shiva"); ("email", JStr "shiva@example.com");
     ("password", JStr "   ")].

(** One registered user, in either store. *)
Definition envRegister : Env :=
  demoEnv "u-1" "s-1" 1700000000000 "2023-11-14T22:13:20.000Z".

Definition jsonShiva : JsonFile.Db :=
  fst (JsonFile.register envRegister registerShiva JsonFile.initial).

Definition sqliteShiva : Sqlite.Db :=
  fst (Sqlite.register envRegister registerShiva Sqlite.initial).

Definition jsonUserShiva : JsonFile.User :=
  {| JsonFile.user_id := "u-1"; JsonFile.user_name := "Shiva";
     JsonFile.user_email := "shiva@example.com";
     JsonFile.user_passwordHash := "$2a$12$StrongPassword123";
     JsonFile.user_createdAt := "2023-11-14T22:13:20.000Z" |}.

Definition sqliteUserShiva : Sqlite.UserRow :=
  {| Sqlite.u_id := "u-1"; Sqlite.u_name := "Shiva";
     Sqlite.u_email := "shiva@example.com";
     Sqlite.u_password_hash := "$2a$12$StrongPassword123";
     Sqlite.u_created_at := "2023-11-14T22:13:20.000Z" |}.

Definition envLater : Env :=
  demoEnv "u-2" "s-2" 1700000000001 "2023-11-14T22:13:20.001Z".

Definition registerShivaAgain : Request :=
  jsonRequest None
    [("name", JStr "Someone else"); ("email", JStr "  SHIVA@Example.COM ");
     ("password", JStr "another")].

Definition loginRequest (e p : string) : Request :=
  jsonRequest None [("email", JStr e); ("password", JStr p)].

(** A login request with both fields present: [e] is the e-mail trimmed and
    lower-cased, [p] the password. *)
Definition loginFields (req : Request) (e p : string) : Prop :=
  reqEmail req = Some e /\ reqPassword req = Some p /\ e <> "" /\ p <> "".

Definition envLogin : Env :=
  demoEnv "s-9" "" 1700000000009 "2023-11-14T22:13:20.009Z".

(** Requests of the registered user, whose session is ["s-1"]. *)
Definition customerBlankName : json :=
  JObj [("name", JStr "   "); ("phone", JStr "9999999999");
        ("address", JStr "Varanasi")].

Definition itemNoId : json :=
  JObj [("title", JStr "Mirror"); ("category", JStr "Accessories");
        ("qty", JNum 2)].

Definition itemNegative : json :=
  JObj [("id", JStr "prd-2"); ("title", JStr "Probe");
        ("category", JStr "Accessories"); ("qty", JNum (-5))].

Definition itemWordQty : json :=
  JObj [("id", JStr "prd-3"); ("title", JStr "Tray");
        ("category", JStr "Accessories"); ("qty", JStr "abc")].

Definition envEvenLater : Env :=
  demoEnv "u-3" "s-3" 1700000000002 "2023-11-14T22:13:20.002Z".

Definition myOrders (sid : string) : Request := jsonRequest (Some sid) [].

(** A store whose only session belongs to a user that is not there. *)
Definition jsonOrphan : JsonFile.Db :=
  {| JsonFile.users := [];
     JsonFile.sessions :=
       {[ "s-1" := {| JsonFile.userId := "u-1";
                      JsonFile.session_createdAt := "2023-11-14T22:13:20.000Z" |} ]};
     JsonFile.orders :=
       [{| JsonFile.order_id := "DDD-1700000000001";
           JsonFile.order_createdAt := "2023-11-14T22:13:20.001Z";
           JsonFile.order_userId := "u-1";
           JsonFile.order_customer :=
             {| name := "Shiva"; phone := "9999999999"; email := "";
                address := "Varanasi"; city := ""; state := ""; pinCode := "";
                note := "" |};
           JsonFile.order_items := [] |}] |}.

(** The rows the LEFT JOIN gives for one order. *)
Definition rowsOfOrder (t : Sqlite.Tables) (o : Sqlite.OrderRow)
  : list Sqlite.JoinedRow :=
  match Listing.itemsOfOrder t (Sqlite.o_id o) with
  | [] => [{| Sqlite.jr_order := o; Sqlite.jr_item := None |}]
  | its => List.map (fun i => {| Sqlite.jr_order := o; Sqlite.jr_item := Some i |}) its
  end.

(** Both stores after the registered user has placed two orders. *)
Definition jsonTwoOrders : JsonFile.Db :=
  fst (JsonFile.placeOrder envEvenLater
         (orderRequest "s-1" customerShiva [itemPrd1; itemNegative])
         (fst (JsonFile.placeOrder envLater
                 (orderRequest "s-1" customerShiva [itemPrd1]) jsonShiva))).

Definition sqliteTwoOrders : Sqlite.Db :=
  fst (Sqlite.placeOrder envEvenLater
         (orderRequest "s-1" customerShiva [itemPrd1; itemNegative])
         (fst (Sqlite.placeOrder envLater
                 (orderRequest "s-1" customerShiva [itemPrd1]) sqliteShiva))).

(** ** Sequences of requests *)

Inductive Call : Type :=
| Register (env : Env) (req : Request)
| Login (env : Env) (req : Request)
| Logout (req : Request)
| CurrentUser (req : Request)
| PlaceOrder (env : Env) (req : Request)
| ListMyOrders (req : Request).

Definition sqliteHandle (c : Call) : Sqlite.Db -> Sqlite.Db * Response :=
  match c with
  | Register env req => Sqlite.register env req
  | Login env req => Sqlite.login env req
  | Logout req => Sqlite.logout req
  | CurrentUser req => Sqlite.currentUser req
  | PlaceOrder env req => Sqlite.placeOrder env req
  | ListMyOrders req => Sqlite.listMyOrders req
  end.

Definition jsonHandle (c : Call) : JsonFile.Db -> JsonFile.Db * Response :=
  match c with
  | Register env req => JsonFile.register env req
  | Login env req => JsonFile.login env req
  | Logout req => JsonFile.logout req
  | CurrentUser req => JsonFile.currentUser req
  | PlaceOrder env req => JsonFile.placeOrder env req
  | ListMyOrders req => JsonFile.listMyOrders req
  end.

(** The store after a sequence of requests, handled one after the other. *)
Definition sqliteRun (calls : list Call) (db : Sqlite.Db) : Sqlite.Db :=
  fold_left (fun d c => fst (sqliteHandle c d)) calls db.

Definition jsonRun (calls : list Call) (db : JsonFile.Db) : JsonFile.Db :=
  fold_left (fun d c => fst (jsonHandle c d)) calls db.

(** ** Strings in normal form *)

(** A string that does not begin with white space. *)
Definition startsClean (s : string) : Prop :=
  match s with
  | EmptyString => True
  | String c _ => isWhite c = false
  end.

(** An e-mail as the handlers look it up: not empty, and unchanged by
    trimming and lower-casing. *)
Definition normalEmail (e : string) : Prop :=
  e <> "" /\ toLowerCase (trim e) = e.

(** A customer whose eight fields are unchanged by trimming. *)
Definition trimmedCustomer (c : Customer) : Prop :=
  trim (name c) = name c /\ trim (phone c) = phone c
  /\ trim (email c) = email c /\ trim (address c) = address c
  /\ trim (city c) = city c /\ trim (state c) = state c
  /\ trim (pinCode c) = pinCode c /\ trim (note c) = note c.

(** ** The shapes of a response *)

(** An error answer: one of the four error codes, a message, no cookie. *)
Definition isError (r : Response) : Prop :=
  (status r = 400 \/ status r = 401 \/ status r = 409 \/ status r = 500)
  /\ resp_cookie r = CookieUntouched
  /\ exists msg, resp_body r = BError msg.

(** The answer of a handler that did what was asked. *)
Definition isSuccess (c : Call) (r : Response) : Prop :=
  match c with
  | Register _ _ =>
      status r = 201
      /\ exists u sid, resp_body r = BUser u /\ resp_cookie r = SetSessionCookie sid
  | Login _ _ =>
      status r = 200
      /\ exists u sid, resp_body r = BUser u /\ resp_cookie r = SetSessionCookie sid
  | Logout _ => r = loggedOut
  | CurrentUser _ =>
      status r = 200 /\ resp_cookie r = CookieUntouched
      /\ exists u, resp_body r = BUser u
  | PlaceOrder _ _ =>
      status r = 201 /\ resp_cookie r = CookieUntouched
      /\ exists o, resp_body r = BOrder o
  | ListMyOrders _ =>
      status r = 200 /\ resp_cookie r = CookieUntouched
      /\ exists l, resp_body r = BOrders l
  end.

Definition isRegister (c : Call) : bool :=
  match c with Register _ _ => true | _ => false end.

(** The user a successful registration stores, in either variant. *)
Definition newJsonUser (env : Env) (n e p : string) : JsonFile.User :=
  {| JsonFile.user_id := randomUUID_1 env; JsonFile.user_name := n;
     JsonFile.user_email := e;
     JsonFile.user_passwordHash := bcrypt_hash env p;
     JsonFile.user_createdAt := toISOString_1 env |}.

Definition newSqliteUser (env : Env) (n e p : string) : Sqlite.UserRow :=
  {| Sqlite.u_id := randomUUID_1 env; Sqlite.u_name := n;
     Sqlite.u_email := e;
     Sqlite.u_password_hash := bcrypt_hash env p;
     Sqlite.u_created_at := toISOString_1 env |}.

(** ** More requests of the examples *)

Definition logoutRequest (sid : string) : Request := jsonRequest (Some sid) [].

(** Both stores after the registered user has logged in a second time, with
    the session ["s-9"]. *)
Definition jsonTwoSessions : JsonFile.Db :=
  fst (JsonFile.login envLogin
         (loginRequest "shiva@example.com" "StrongPassword123") jsonShiva).

Definition sqliteTwoSessions : Sqlite.Db :=
  fst (Sqlite.login envLogin
         (loginRequest "shiva@example.com" "StrongPassword123") sqliteShiva).

(** What a registration answers with: the new user without the hash. *)
Definition registered (env : Env) (n e : string) : SanitizedUser :=
  {| su_id := randomUUID_1 env; su_name := n; su_email := e;
     su_createdAt := toISOString_1 env |}.

Definition registerAsha : Request :=
  jsonRequest None
    [("name", JStr " Asha "); ("email", JStr " Asha@Example.com");
     ("password", JStr "pass word")].

Definition envAsha : Env :=
  demoEnv "u-7" "s-7" 1700000000007 "2023-11-14T22:13:20.007Z".

Definition envAshaLogin : Env :=
  demoEnv "s-8" "" 1700000000008 "2023-11-14T22:13:20.008Z".

(** ** What the stores keep true of users and sessions *)

Record jsonSound (db : JsonFile.Db) : Prop := {
  js_emails : List.NoDup (List.map JsonFile.user_email (JsonFile.users db));
  js_normal :
    Forall (fun u => normalEmail (JsonFile.user_email u)) (JsonFile.users db);
  js_sessions :
    forall sid s,
      JsonFile.sessions db !! sid = Some s ->
      In (JsonFile.userId s) (List.map JsonFile.user_id (JsonFile.users db));
  js_orders :
    Forall (fun o => In (JsonFile.order_userId o)
                       (List.map JsonFile.user_id (JsonFile.users db)))
      (JsonFile.orders db)
}.

Record sqliteSound (t : Sqlite.Tables) : Prop := {
  ss_ids : List.NoDup (List.map Sqlite.u_id (Sqlite.users t));
  ss_emails : List.NoDup (List.map Sqlite.u_email (Sqlite.users t));
  ss_normal : Forall (fun u => normalEmail (Sqlite.u_email u)) (Sqlite.users t);
  ss_session_ids : List.NoDup (List.map Sqlite.s_id (Sqlite.sessions t));
  ss_sessions :
    Forall (fun s => In (Sqlite.s_user_id s) (List.map Sqlite.u_id (Sqlite.users t)))
      (Sqlite.sessions t);
  ss_orders :
    Forall (fun o => In (Sqlite.o_user_id o) (List.map Sqlite.u_id (Sqlite.users t)))
      (Sqlite.orders t)
}.

(** A registration whose session id is already in use. *)
Definition envAshaClash : Env :=
  demoEnv "u-7" "s-1" 1700000000007 "2023-11-14T22:13:20.007Z".

(** ** The two variants side by side *)

(** A user and a session of the JSON file as rows of the SQLite tables. *)
Definition userRow (u : JsonFile.User) : Sqlite.UserRow :=
  {| Sqlite.u_id := JsonFile.user_id u; Sqlite.u_name := JsonFile.user_name u;
     Sqlite.u_email := JsonFile.user_email u;
     Sqlite.u_password_hash := JsonFile.user_passwordHash u;
     Sqlite.u_created_at := JsonFile.user_createdAt u |}.

Definition sessionRow (sid : string) (s : JsonFile.Session) : Sqlite.SessionRow :=
  {| Sqlite.s_id := sid; Sqlite.s_user_id := JsonFile.userId s;
     Sqlite.s_created_at := JsonFile.session_createdAt s |}.

(** The file and the tables hold the same users, in the same order, and the
    same sessions. *)
Record sameAccounts (jdb : JsonFile.Db) (t : Sqlite.Tables) : Prop := {
  sa_users : Sqlite.users t = List.map userRow (JsonFile.users jdb);
  sa_sessions :
    forall sid s,
      JsonFile.sessions jdb !! sid = Some s
      <-> In (sessionRow sid s) (Sqlite.sessions t);
  sa_session_ids : List.NoDup (List.map Sqlite.s_id (Sqlite.sessions t))
}.

(** The four routes of [/auth]. *)
Definition isAuth (c : Call) : bool :=
  match c with
  | Register _ _ | Login _ _ | Logout _ | CurrentUser _ => true
  | PlaceOrder _ _ | ListMyOrders _ => false
  end.

(** The identifiers [crypto.randomUUID()] gives to a call are not in use. *)
Definition freshIds (c : Call) (jdb : JsonFile.Db) : Prop :=
  match c with
  | Register env _ =>
      ~ In (randomUUID_1 env) (List.map JsonFile.user_id (JsonFile.users jdb))
      /\ JsonFile.sessions jdb !! randomUUID_2 env = None
  | Login env _ => JsonFile.sessions jdb !! randomUUID_1 env = None
  | _ => True
  end.

(** What the registered user is shown after the two orders. *)
Definition jsonTwoOrdersViews : list OrderView :=
  match resp_body (snd (JsonFile.listMyOrders (myOrders "s-1") jsonTwoOrders)) with
  | BOrders l => l
  | _ => []
  end.

(** ** Requests that carry no session *)

(** The cookie is absent or empty, or names no session of the file (nor a
    property every JavaScript object inherits). *)
Definition noJsonSession (req : Request) (db : JsonFile.Db) : Prop :=
  match cookieSid req with
  | None => True
  | Some sid =>
      JsonFile.sessions db !! sid = None
      /\ ~ In sid JsonFile.objectPrototypeKeys
  end.

(** The cookie is absent or empty, or is no row of the sessions table. *)
Definition noSqliteSession (req : Request) (t : Sqlite.Tables) : Prop :=
  match cookieSid req with
  | None => True
  | Some sid => ~ In sid (List.map Sqlite.s_id (Sqlite.sessions t))
  end.

(** ** What the SQLite listing shows of an order *)

(** The item rows of an order that pass [if (row.product_id)], in the order
    they were inserted. *)
Definition shownItems (t : Sqlite.Tables) (orderId : string) : list Item :=
  List.map Sqlite.itemOfRow
    (List.filter (fun i => negb (String.eqb (Sqlite.oi_product_id i) ""))
       (Listing.itemsOfOrder t orderId)).

Definition shownOrder (t : Sqlite.Tables) (o : Sqlite.OrderRow) : OrderView :=
  {| ov_id := Sqlite.o_id o; ov_createdAt := Sqlite.o_created_at o;
     ov_customer := Sqlite.o_customer o;
     ov_items := shownItems t (Sqlite.o_id o) |}.

(** The registered user's two orders, the second with an item that has no
    id. *)
Definition sqliteOrderCalls : list Call :=
  [Register envRegister registerShiva;
   PlaceOrder envLater (orderRequest "s-1" customerShiva [itemPrd1]);
   PlaceOrder envEvenLater (orderRequest "s-1" customerShiva [itemNoId; itemNegative])].
(** ** Running a computation step by step *)

Module SqlFacts.
Import Sqlite.

Lemma bind_ok {A B} (m : Sql A) (k : A -> Sql B) db db' a :
  m db = (db', Some a) -> bind m k db = k a db'.
Proof. intros H. unfold bind. now rewrite H. Qed.

Lemma bind_throw {A B} (m : Sql A) (k : A -> Sql B) db db' :
  m db = (db', None) -> bind m k db = (db', None).
Proof. intros H. unfold bind. now rewrite H. Qed.

Lemma bind_eval {A B} (o : option A) (k : A -> Sql B) db :
  bind (eval o) k db = match o with Some a => k a db | None => (db, None) end.
Proof. unfold bind, eval. now destruct o. Qed.

Lemma bind_query {A B} (q : Tables -> A) (k : A -> Sql B) db :
  bind (query q) k db = k (q (tables db)) db.
Proof. reflexivity. Qed.

Lemma bind_ret {A B} (a : A) (k : A -> Sql B) db : bind (ret a) k db = k a db.
Proof. reflexivity. Qed.

End SqlFacts.

(** ** Registration: the field checks come first (C4) *)

Section Register.
Variables (env : Env) (req : Request).
Variables (n e p : string).
Hypothesis Hname : reqName req = Some n.
Hypothesis Hemail : reqEmail req = Some e.
Hypothesis Hpassword : reqPassword req = Some p.

Lemma json_register_steps (db : JsonFile.Db) :
  JsonFile.register env req db =
    if isEmpty n || isEmpty e || isEmpty p then
      (db, respond 400 (BError "name, email, and password are required"))
    else if existsb (fun u => String.eqb (JsonFile.user_email u) e) (JsonFile.users db)
    then (db, respond 409 (BError "email already registered"))
    else
      let user := {| JsonFile.user_id := randomUUID_1 env;
                     JsonFile.user_name := n; JsonFile.user_email := e;
                     JsonFile.user_passwordHash := bcrypt_hash env p;
                     JsonFile.user_createdAt := toISOString_1 env |} in
      (JsonFile.addSession
         {| JsonFile.users := JsonFile.users db ++ [user];
            JsonFile.sessions := JsonFile.sessions db;
            JsonFile.orders := JsonFile.orders db |}
         (randomUUID_2 env) (randomUUID_1 env) (toISOString_2 env),
       setCookie 201 (BUser (JsonFile.sanitizeUser user)) (randomUUID_2 env)).
Proof.
  unfold JsonFile.register, JsonFile.register_try.
  rewrite Hname, Hemail, Hpassword. cbn [mbind option_bind].
  destruct (isEmpty n || isEmpty e || isEmpty p); [reflexivity|].
  destruct (existsb _ _); reflexivity.
Qed.

(** In the SQLite variant the two INSERTs are two statements: when the
    second fails, the first stays. *)
Lemma sqlite_register_steps (db : Sqlite.Db) :
  Sqlite.register env req db =
    if isEmpty n || isEmpty e || isEmpty p then
      (db, respond 400 (BError "name, email, and password are required"))
    else match Sqlite.selectUserByEmail e (Sqlite.tables db) with
         | Some _ => (db, respond 409 (BError "email already registered"))
         | None =>
             let user := {| Sqlite.u_id := randomUUID_1 env;
                            Sqlite.u_name := n; Sqlite.u_email := e;
                            Sqlite.u_password_hash := bcrypt_hash env p;
                            Sqlite.u_created_at := toISOString_1 env |} in
             match Sqlite.insertUser user (Sqlite.tables db) with
             | None => (db, internalError)
             | Some t1 =>
                 match Sqlite.insertSession
                         {| Sqlite.s_id := randomUUID_2 env;
                            Sqlite.s_user_id := randomUUID_1 env;
                            Sqlite.s_created_at := toISOString_2 env |} t1 with
                 | None =>
                     ({| Sqlite.tables := t1;
                         Sqlite.journal := Sqlite.journal db |}, internalError)
                 | Some t2 =>
                     ({| Sqlite.tables := t2;
                         Sqlite.journal := Sqlite.journal db |},
                      setCookie 201 (BUser (Sqlite.sanitizeUser user))
                        (randomUUID_2 env))
                 end
             end
         end.
Proof.
  unfold Sqlite.register, Sqlite.catch500, Sqlite.register_try.
  rewrite Hname, Hemail, Hpassword. rewrite !SqlFacts.bind_eval.
  destruct (isEmpty n || isEmpty e || isEmpty p); [reflexivity|].
  rewrite SqlFacts.bind_query.
  destruct (Sqlite.selectUserByEmail e (Sqlite.tables db)); [reflexivity|].
  cbv zeta. unfold Sqlite.bind, Sqlite.runAsync. cbn [Sqlite.u_id].
  destruct (Sqlite.insertUser _ _) as [t1|]; [|reflexivity].
  cbn [Sqlite.tables Sqlite.journal].
  destruct (Sqlite.insertSession _ t1); reflexivity.
Qed.

End Register.

(** ** Facts about strings *)

Lemma isEmpty_true (s : string) : isEmpty s = true <-> s = "".
Proof. unfold isEmpty. apply String.eqb_eq. Qed.

Lemma isEmpty_false (s : string) : isEmpty s = false <-> s <> "".
Proof. unfold isEmpty. apply String.eqb_neq. Qed.

Lemma toLowerCase_empty (s : string) : toLowerCase s = "" <-> s = "".
Proof. destruct s; simpl; split; intros H; try reflexivity; discriminate. Qed.

Lemma isEmpty_toLowerCase (s : string) : isEmpty (toLowerCase s) = isEmpty s.
Proof. destruct s; reflexivity. Qed.

Section RegisterRaw.
Variables (env : Env) (req : Request).
Variables (rn re p : string).
Hypothesis Hname : rawField req "name" = Some rn.
Hypothesis Hemail : rawField req "email" = Some re.
Hypothesis Hpassword : rawField req "password" = Some p.

Lemma reqName_raw : reqName req = Some (trim rn).
Proof using Hname. unfold reqName. now rewrite Hname. Qed.

Lemma reqEmail_raw : reqEmail req = Some (toLowerCase (trim re)).
Proof using Hemail. unfold reqEmail. now rewrite Hemail. Qed.

Lemma fields_missing :
  trim rn = "" \/ trim re = "" \/ p = "" ->
  isEmpty (trim rn) || isEmpty (toLowerCase (trim re)) || isEmpty p = true.
Proof.
  rewrite isEmpty_toLowerCase.
  intros [H | [H | H]]; rewrite H; simpl;
    rewrite ?orb_true_r; reflexivity.
Qed.

End RegisterRaw.

(** C4 (amended): a registration whose name or e-mail is empty after trimming,
    or whose password is empty as sent, is answered 400 in both variants,
    whatever the store holds: no look-up for the e-mail decides it, the store
    is returned as it was and no cookie is set. *)
Theorem register_missing_field_is_400
    (env : Env) (req : Request) (rn re p : string)
    (jdb : JsonFile.Db) (sdb : Sqlite.Db) :
  rawField req "name" = Some rn ->
  rawField req "email" = Some re ->
  rawField req "password" = Some p ->
  trim rn = "" \/ trim re = "" \/ p = "" ->
  JsonFile.register env req jdb =
    (jdb, respond 400 (BError "name, email, and password are required"))
  /\ Sqlite.register env req sdb =
    (sdb, respond 400 (BError "name, email, and password are required")).
Proof.
  intros Hn He Hp Hmiss.
  pose proof (fields_missing rn re p Hmiss) as Hv.
  split.
  - rewrite (json_register_steps env req _ _ _
               (reqName_raw req rn Hn) (reqEmail_raw req re He) Hp).
    now rewrite Hv.
  - rewrite (sqlite_register_steps env req _ _ _
               (reqName_raw req rn Hn) (reqEmail_raw req re He) Hp).
    now rewrite Hv.
Qed.

Lemma register_missing_field_is_400_witness :
  JsonFile.register (demoEnv "u-1" "s-1" 0 "t") registerNoName JsonFile.initial =
    (JsonFile.initial, respond 400 (BError "name, email, and password are required"))
  /\ Sqlite.register (demoEnv "u-1" "s-1" 0 "t") registerNoName Sqlite.initial =
    (Sqlite.initial, respond 400 (BError "name, email, and password are required")).
Proof.
  apply (register_missing_field_is_400 _ registerNoName "   " "shiva@example.com"
           "StrongPassword123"); try reflexivity.
  left. reflexivity.
Defined.

(** C4 as stated fails: a password of three spaces is empty after trimming,
    and both variants register the user (201) and set the session cookie. *)
Lemma register_accepts_blank_password :
  rawField registerBlankPassword "password" = Some "   "
  /\ trim "   " = ""
  /\ snd (JsonFile.register (demoEnv "u-1" "s-1" 0 "t") registerBlankPassword
            JsonFile.initial)
     = setCookie 201 (BUser {| su_id := "u-1"; su_name := "Shiva";
                               su_email := "shiva@example.com";
                               su_createdAt := "t" |}) "s-1"
  /\ snd (Sqlite.register (demoEnv "u-1" "s-1" 0 "t") registerBlankPassword
            Sqlite.initial)
     = setCookie 201 (BUser {| su_id := "u-1"; su_name := "Shiva";
                               su_email := "shiva@example.com";
                               su_createdAt := "t" |}) "s-1".
Proof. repeat split; vm_compute; reflexivity. Qed.

(** ** Registration: one user per e-mail (C6) *)

Lemma json_email_taken (db : JsonFile.Db) (u : JsonFile.User) (e : string) :
  In u (JsonFile.users db) -> JsonFile.user_email u = e ->
  existsb (fun u => String.eqb (JsonFile.user_email u) e) (JsonFile.users db) = true.
Proof.
  intros Hin He. apply existsb_exists. exists u. split; [exact Hin|].
  now apply String.eqb_eq.
Qed.

Lemma filter_head_some {A} (f : A -> bool) (l : list A) (x : A) :
  In x l -> f x = true -> exists y, head (List.filter f l) = Some y.
Proof.
  intros Hin Hf.
  assert (Hx : In x (List.filter f l)) by (apply filter_In; now split).
  destruct (List.filter f l) as [|y l']; [contradiction|]. now exists y.
Qed.

Lemma sqlite_email_taken (t : Sqlite.Tables) (u : Sqlite.UserRow) (e : string) :
  In u (Sqlite.users t) -> Sqlite.u_email u = e ->
  exists u', Sqlite.selectUserByEmail e t = Some u'.
Proof.
  intros Hin He. unfold Sqlite.selectUserByEmail.
  apply filter_head_some with (x := u); [exact Hin|]. now apply String.eqb_eq.
Qed.

(** C6: when a user with the trimmed, lower-cased e-mail of the request is in
    the store, registration fails and returns the store as it was, without a
    session cookie, in both variants.  The answer is 409 "email already
    registered" for every request whose three fields are present; a request
    with a missing field has already been answered 400 by the check before. *)
Theorem register_existing_email_is_conflict
    (env : Env) (req : Request) (rn re p : string)
    (jdb : JsonFile.Db) (ju : JsonFile.User)
    (sdb : Sqlite.Db) (su : Sqlite.UserRow) :
  rawField req "name" = Some rn ->
  rawField req "email" = Some re ->
  rawField req "password" = Some p ->
  In ju (JsonFile.users jdb) ->
  JsonFile.user_email ju = toLowerCase (trim re) ->
  In su (Sqlite.users (Sqlite.tables sdb)) ->
  Sqlite.u_email su = toLowerCase (trim re) ->
  let answer :=
    if isEmpty (trim rn) || isEmpty (trim re) || isEmpty p
    then respond 400 (BError "name, email, and password are required")
    else respond 409 (BError "email already registered") in
  JsonFile.register env req jdb = (jdb, answer)
  /\ Sqlite.register env req sdb = (sdb, answer).
Proof.
  intros Hn He Hp Hju Hje Hsu Hse answer. subst answer.
  rewrite <- (isEmpty_toLowerCase (trim re)).
  split.
  - rewrite (json_register_steps env req _ _ _
               (reqName_raw req rn Hn) (reqEmail_raw req re He) Hp).
    destruct (_ || _); [reflexivity|].
    now rewrite (json_email_taken jdb ju _ Hju Hje).
  - rewrite (sqlite_register_steps env req _ _ _
               (reqName_raw req rn Hn) (reqEmail_raw req re He) Hp).
    destruct (_ || _); [reflexivity|].
    destruct (sqlite_email_taken _ su _ Hsu Hse) as [u' Hu']. now rewrite Hu'.
Qed.

Lemma register_existing_email_is_conflict_witness :
  JsonFile.register envLater registerShivaAgain jsonShiva
    = (jsonShiva, respond 409 (BError "email already registered"))
  /\ Sqlite.register envLater registerShivaAgain sqliteShiva
    = (sqliteShiva, respond 409 (BError "email already registered")).
Proof.
  apply (register_existing_email_is_conflict envLater registerShivaAgain
           "Someone else" "  SHIVA@Example.COM " "another"
           jsonShiva jsonUserShiva sqliteShiva sqliteUserShiva);
    try reflexivity; vm_compute; left; reflexivity.
Defined.

(** ** Login (C5) *)

Section LoginSteps.
Variables (env : Env) (req : Request) (e p : string).
Hypothesis Hfields : loginFields req e p.

Lemma json_login_steps (db : JsonFile.Db) :
  JsonFile.login env req db =
    match JsonFile.findUserByEmail db e with
    | None => (db, invalidCredentials)
    | Some user =>
        if bcrypt_compare env p (JsonFile.user_passwordHash user) then
          (JsonFile.addSession db (randomUUID_1 env) (JsonFile.user_id user)
             (toISOString_1 env),
           setCookie 200 (BUser (JsonFile.sanitizeUser user)) (randomUUID_1 env))
        else (db, invalidCredentials)
    end.
Proof.
  destruct Hfields as (He & Hp & Hne & Hnp).
  apply isEmpty_false in Hne, Hnp.
  unfold JsonFile.login, JsonFile.login_try.
  rewrite He, Hp. cbn [mbind option_bind]. rewrite Hne, Hnp. cbn [orb].
  destruct (JsonFile.findUserByEmail db e) as [user|]; [|reflexivity].
  destruct (bcrypt_compare env p _); reflexivity.
Qed.

Lemma sqlite_login_steps (db : Sqlite.Db) :
  Sqlite.login env req db =
    match Sqlite.selectUserByEmail e (Sqlite.tables db) with
    | None => (db, invalidCredentials)
    | Some user =>
        if bcrypt_compare env p (Sqlite.u_password_hash user) then
          match Sqlite.insertSession
                  {| Sqlite.s_id := randomUUID_1 env;
                     Sqlite.s_user_id := Sqlite.u_id user;
                     Sqlite.s_created_at := toISOString_1 env |}
                  (Sqlite.tables db) with
          | Some t =>
              ({| Sqlite.tables := t; Sqlite.journal := Sqlite.journal db |},
               setCookie 200 (BUser (Sqlite.sanitizeUser user)) (randomUUID_1 env))
          | None => (db, internalError)
          end
        else (db, invalidCredentials)
    end.
Proof.
  destruct Hfields as (He & Hp & Hne & Hnp).
  apply isEmpty_false in Hne, Hnp.
  unfold Sqlite.login, Sqlite.catch500, Sqlite.login_try.
  rewrite He, Hp, !SqlFacts.bind_eval, Hne, Hnp. cbn [orb].
  rewrite SqlFacts.bind_query.
  destruct (Sqlite.selectUserByEmail e (Sqlite.tables db)) as [user|]; [|reflexivity].
  destruct (bcrypt_compare env p _); [|reflexivity].
  cbn [negb]. unfold Sqlite.bind, Sqlite.runAsync.
  destruct (Sqlite.insertSession _ _); reflexivity.
Qed.

End LoginSteps.

Lemma head_filter_In {A} (f : A -> bool) (l : list A) (x : A) :
  head (List.filter f l) = Some x -> In x l /\ f x = true.
Proof.
  intros H. apply filter_In.
  destruct (List.filter f l) as [|y l']; [discriminate|].
  injection H as ->. now left.
Qed.




(** ** What the handlers do on particular requests *)

(** C3: the customer check reads the fields before they are trimmed.  A name
    of three spaces passes it, and both variants answer 201 and store the order
    with the empty name that trimming leaves. *)
Theorem placeOrder_stores_blank_name :
  let req := orderRequest "s-1" customerBlankName [itemPrd1] in
  option_map name (customerOf (reqCustomer req)) = Some ""
  /\ status (snd (JsonFile.placeOrder envLater req jsonShiva)) = 201
  /\ List.map (fun o => name (JsonFile.order_customer o))
       (JsonFile.orders (fst (JsonFile.placeOrder envLater req jsonShiva))) = [""]
  /\ status (snd (Sqlite.placeOrder envLater req sqliteShiva)) = 201
  /\ List.map (fun o => name (Sqlite.o_customer o))
       (Sqlite.orders (Sqlite.tables
          (fst (Sqlite.placeOrder envLater req sqliteShiva)))) = [""].
Proof. repeat split; vm_compute; reflexivity. Qed.

(** C7: [GET /orders/me] of the JSON-file variant looks the session up and
    never the user.  With a session whose user is not in the store it answers
    200 with the orders filed under that user id; with the cookie
    ["constructor"], which is no stored session but a property every object
    inherits, it answers 200 with no orders.  [GET /auth/me] answers 401 on the
    same requests. *)
Theorem json_listMyOrders_skips_user_check :
  JsonFile.findUserById jsonOrphan (Some "u-1") = None
  /\ status (snd (JsonFile.currentUser (myOrders "s-1") jsonOrphan)) = 401
  /\ (exists o, JsonFile.listMyOrders (myOrders "s-1") jsonOrphan
                = (jsonOrphan, respond 200 (BOrders [o])))
  /\ JsonFile.sessions jsonShiva !! "constructor" = None
  /\ status (snd (JsonFile.currentUser (myOrders "constructor") jsonShiva)) = 401
  /\ JsonFile.listMyOrders (myOrders "constructor") jsonShiva
     = (jsonShiva, respond 200 (BOrders [])).
Proof.
  repeat split; try (vm_compute; reflexivity).
  eexists. vm_compute. reflexivity.
Qed.

(** C9: the JSON-file variant names an order after [Date.now()] and appends
    it.  After a registration and two orders placed in the same millisecond,
    both answered 201, the store holds two different orders under one
    identifier.  The SQLite variant answers the second 500 and holds one. *)
Theorem json_same_tick_same_order_id :
  let first := orderRequest "s-1" customerShiva [itemPrd1] in
  let second := orderRequest "s-1" customerShiva [itemNegative] in
  let calls := [Register envRegister registerShiva;
                PlaceOrder envLater first; PlaceOrder envLater second] in
  let db1 := fst (JsonFile.placeOrder envLater first jsonShiva) in
  let db2 := jsonRun calls JsonFile.initial in
  status (snd (JsonFile.placeOrder envLater first jsonShiva)) = 201
  /\ status (snd (JsonFile.placeOrder envLater second db1)) = 201
  /\ List.map JsonFile.order_id (JsonFile.orders db2)
     = ["DDD-1700000000001"; "DDD-1700000000001"]
  /\ List.map (fun o => List.map item_id (JsonFile.order_items o))
       (JsonFile.orders db2) = [["prd-1"]; ["prd-2"]]
  /\ List.map Sqlite.o_id
       (Sqlite.orders (Sqlite.tables (sqliteRun calls Sqlite.initial)))
     = ["DDD-1700000000001"].
Proof. repeat split; vm_compute; reflexivity. Qed.

(** C2: the SQLite variant answers an order whose item has no [id] with that
    item under the empty product id, stores it so, and leaves it out when the
    orders are listed: [if (row.product_id)] takes the empty string for the
    NULL of an order without items. *)
Theorem sqlite_listing_drops_item_without_id :
  let req := orderRequest "s-1" customerShiva [itemNoId] in
  let placed := Sqlite.placeOrder envLater req sqliteShiva in
  let item := {| item_id := ""; title := "Mirror"; category := "Accessories";
                 qty := NInt 2 |} in
  let shiva := {| name := "Shiva"; phone := "9999999999";
                  email := "shiva@example.com"; address := "Varanasi";
                  city := "Varanasi"; state := "UP"; pinCode := "221001";
                  note := "" |} in
  snd placed
    = respond 201 (BOrder {| ov_id := "DDD-1700000000001";
                             ov_createdAt := "2023-11-14T22:13:20.001Z";
                             ov_customer := shiva; ov_items := [item] |})
  /\ List.map Sqlite.itemOfRow (Sqlite.order_items (Sqlite.tables (fst placed)))
     = [item]
  /\ snd (Sqlite.listMyOrders (myOrders "s-1") (fst placed))
     = respond 200 (BOrders [{| ov_id := "DDD-1700000000001";
                                ov_createdAt := "2023-11-14T22:13:20.001Z";
                                ov_customer := shiva; ov_items := [] |}]).
Proof. repeat split; vm_compute; reflexivity. Qed.

(** C1: the JSON-file listing is not newest first.  After one user has
    placed two orders, a millisecond apart, [GET /orders/me] of the JSON-file
    variant answers 200 with the older order before the newer one, the order
    in which they were stored; the SQLite variant, given the same requests,
    answers with the same two orders, the newer one first. *)
Theorem json_lists_oldest_first :
  let req := orderRequest "s-1" customerShiva [itemPrd1] in
  let db1 := fst (JsonFile.placeOrder envLater req jsonShiva) in
  let db2 := fst (JsonFile.placeOrder envEvenLater req db1) in
  let sdb1 := fst (Sqlite.placeOrder envLater req sqliteShiva) in
  let sdb2 := fst (Sqlite.placeOrder envEvenLater req sdb1) in
  exists older newer,
    snd (JsonFile.listMyOrders (myOrders "s-1") db2)
      = respond 200 (BOrders [older; newer])
    /\ ov_createdAt older = "2023-11-14T22:13:20.001Z"
    /\ ov_createdAt newer = "2023-11-14T22:13:20.002Z"
    /\ ~ newestFirst older newer
    /\ ~ StronglySorted newestFirst [older; newer]
    /\ snd (Sqlite.listMyOrders (myOrders "s-1") sdb2)
       = respond 200 (BOrders [newer; older]).
Proof.
  assert (Hlt : ~ String_as_OT.compare "2023-11-14T22:13:20.001Z"
                    "2023-11-14T22:13:20.002Z" <> Lt).
  { vm_compute. intros H. now apply H. }
  do 2 eexists. split; [vm_compute; reflexivity|].
  split; [reflexivity|]. split; [reflexivity|].
  split; [exact Hlt|]. split; [|vm_compute; reflexivity].
  intros H. inversion H as [|? ? _ Hall]; subst.
  inversion Hall as [|? ? Hnew _]; subst. exact (Hlt Hnew).
Qed.

(** C8 as stated fails: a quantity of -5 is stored as -5 by both variants, and
    the quantity ["abc"] is stored by the JSON-file variant as what the
    runtime reads the string as, here NaN, not 0. *)
Lemma quantity_stored_negative_or_nan :
  let negative := orderRequest "s-1" customerShiva [itemNegative] in
  let word := orderRequest "s-1" customerShiva [itemWordQty] in
  status (snd (JsonFile.placeOrder envLater negative jsonShiva)) = 201
  /\ List.map (fun o => List.map qty (JsonFile.order_items o))
       (JsonFile.orders (fst (JsonFile.placeOrder envLater negative jsonShiva)))
     = [[NInt (-5)]]
  /\ status (snd (Sqlite.placeOrder envLater negative sqliteShiva)) = 201
  /\ List.map Sqlite.oi_qty
       (Sqlite.order_items (Sqlite.tables
          (fst (Sqlite.placeOrder envLater negative sqliteShiva))))
     = [NInt (-5)]
  /\ status (snd (JsonFile.placeOrder envLater word jsonShiva)) = 201
  /\ List.map (fun o => List.map qty (JsonFile.order_items o))
       (JsonFile.orders (fst (JsonFile.placeOrder envLater word jsonShiva)))
     = [[NNaN]].
Proof. repeat split; vm_compute; reflexivity. Qed.

(** ** Placing an order in the SQLite variant, statement by statement *)

Section SqliteOrder.
Import Sqlite.

Lemma appendItems_frame (orderId : string) (its : list Item) :
  forall t,
    users (appendItems orderId its t) = users t
    /\ sessions (appendItems orderId its t) = sessions t
    /\ orders (appendItems orderId its t) = orders t.
Proof.
  induction its as [|it rest IH]; intros t; simpl; [auto|].
  destruct (IH (appendItem orderId it t)) as (Hu & Hs & Ho).
  rewrite Hu, Hs, Ho. auto.
Qed.

Lemma appendItems_rows (orderId : string) (its : list Item) :
  forall t, exists rows,
    order_items (appendItems orderId its t) = (order_items t ++ rows)%list
    /\ List.map itemOfRow rows = its
    /\ Forall (fun r => oi_order_id r = orderId) rows.
Proof.
  induction its as [|it rest IH]; intros t; simpl.
  - exists []. rewrite app_nil_r. auto.
  - destruct (IH (appendItem orderId it t)) as (rows & Hrows & Hmap & Hall).
    eexists (_ :: rows). rewrite Hrows. simpl. rewrite <- app_assoc. simpl.
    split; [reflexivity|]. split.
    + unfold itemOfRow at 1. simpl. rewrite Hmap. now destruct it.
    + constructor; [reflexivity|exact Hall].
Qed.

Lemma jsnum_not_nan (q : jsnum) : jsnum_eqb q NNaN = false <-> q <> NNaN.
Proof. destruct q; simpl; split; intros H; congruence. Qed.

Lemma insertItem_run (env : Env) (orderId : string) (x : json) (db : Db) :
  existsb (fun o => String.eqb (o_id o) orderId) (orders (tables db)) = true ->
  insertItem env orderId x db =
    match itemOf env x with
    | Some it =>
        if jsnum_eqb (qty it) NNaN then (db, None)
        else ({| tables := appendItem orderId it (tables db);
                 journal := journal db |}, Some tt)
    | None => (db, None)
    end.
Proof.
  intros Hex. unfold insertItem. rewrite SqlFacts.bind_eval.
  destruct (itemOf env x) as [it|]; [|reflexivity].
  unfold runAsync, insertOrderItem. rewrite Hex. cbn [negb orb].
  destruct (jsnum_eqb (qty it) NNaN); reflexivity.
Qed.

(** The item loop either inserts every item, none of them with a NaN
    quantity, or stops with an exception; it never touches the journal. *)
Lemma forEach_insertItem (env : Env) (orderId : string) (items : list json) :
  forall db,
    existsb (fun o => String.eqb (o_id o) orderId) (orders (tables db)) = true ->
    (exists its,
        itemsOf env items = Some its
        /\ Forall (fun it => qty it <> NNaN) its
        /\ forEach (insertItem env orderId) items db
           = ({| tables := appendItems orderId its (tables db);
                 journal := journal db |}, Some tt))
    \/ (exists db',
          forEach (insertItem env orderId) items db = (db', None)
          /\ journal db' = journal db).
Proof.
  induction items as [|x rest IH]; intros db Hex.
  - left. exists []. simpl. repeat split; [constructor|].
    unfold ret. now destruct db.
  - cbn [forEach itemsOf].
    pose proof (insertItem_run env orderId x db Hex) as Hx.
    destruct (itemOf env x) as [it|] eqn:Hit.
    2:{ right. exists db. split; [|reflexivity].
        now apply SqlFacts.bind_throw. }
    destruct (jsnum_eqb (qty it) NNaN) eqn:Hq.
    { right. exists db. split; [|reflexivity].
      now apply SqlFacts.bind_throw. }
    rewrite (SqlFacts.bind_ok _ _ _ _ _ Hx).
    set (db1 := {| tables := appendItem orderId it (tables db);
                   journal := journal db |}).
    destruct (IH db1 Hex) as [(its & Hits & Hall & Hrun) | (db' & Hrun & Hj)].
    + left. exists (it :: its). cbn [mbind option_bind]. rewrite Hits. cbn.
      split; [reflexivity|]. split.
      * constructor; [now apply jsnum_not_nan|exact Hall].
      * exact Hrun.
    + right. exists db'. split; [exact Hrun|exact Hj].
Qed.

Lemma insertOrder_exists (r : OrderRow) (t t1 : Tables) :
  insertOrder r t = Some t1 ->
  existsb (fun o => String.eqb (o_id o) (o_id r)) (orders t1) = true
  /\ users t1 = users t /\ sessions t1 = sessions t
  /\ orders t1 = (orders t ++ [r])%list
  /\ order_items t1 = order_items t
  /\ existsb (fun o => String.eqb (o_id o) (o_id r)) (orders t) = false.
Proof.
  unfold insertOrder. intros H.
  destruct (existsb _ (orders t)) eqn:Hdup; [discriminate|].
  destruct (negb _); [discriminate|]. injection H as <-. cbn.
  repeat split; try reflexivity.
  rewrite existsb_app. cbn. rewrite String.eqb_refl. now rewrite !orb_true_r.
Qed.

(** The statements of the [try] block, run with the journal open: either all
    of them succeed and the transaction is committed, or one throws and the
    journal is still open for the ROLLBACK. *)
Lemma orderStatements_cases (env : Env) (user : UserRow) (customer : json)
    (items : list json) (t t0 : Tables) :
  (exists c its t1,
      customerOf customer = Some c
      /\ itemsOf env items = Some its
      /\ Forall (fun it => qty it <> NNaN) its
      /\ insertOrder {| o_id := orderIdOf env; o_user_id := u_id user;
                        o_created_at := toISOString_1 env;
                        o_customer := c |} t = Some t1
      /\ orderStatements env user customer items
           {| tables := t; journal := Some t0 |}
         = ({| tables := appendItems (orderIdOf env) its t1; journal := None |},
            Some tt))
  \/ (exists t',
        orderStatements env user customer items
          {| tables := t; journal := Some t0 |}
        = ({| tables := t'; journal := Some t0 |}, None)).
Proof.
  unfold orderStatements. rewrite SqlFacts.bind_eval.
  destruct (customerOf customer) as [c|] eqn:Hc.
  2:{ right. now exists t. }
  set (row := {| o_id := orderIdOf env; o_user_id := u_id user;
                 o_created_at := toISOString_1 env; o_customer := c |}).
  set (db := {| tables := t; journal := Some t0 |}).
  destruct (insertOrder row t) as [t1|] eqn:Hins.
  2:{ right. exists t. apply SqlFacts.bind_throw.
      unfold runAsync. cbn [tables db]. now rewrite Hins. }
  assert (Hrow : runAsync (insertOrder row) db
                 = ({| tables := t1; journal := Some t0 |}, Some tt)).
  { unfold runAsync. cbn [tables db]. now rewrite Hins. }
  rewrite (SqlFacts.bind_ok _ _ _ _ _ Hrow).
  destruct (insertOrder_exists _ _ _ Hins) as (Hex & _).
  cbn [o_id row] in Hex.
  destruct (forEach_insertItem env (orderIdOf env) items
              {| tables := t1; journal := Some t0 |} Hex)
    as [(its & Hits & Hall & Hrun) | (db' & Hrun & Hj)].
  - left. exists c, its, t1. repeat split; try assumption.
    rewrite (SqlFacts.bind_ok _ _ _ _ _ Hrun). reflexivity.
  - right. exists (tables db').
    rewrite (SqlFacts.bind_throw _ _ _ _ Hrun).
    destruct db' as [t' j']. cbn in Hj. now subst j'.
Qed.

End SqliteOrder.

Section SqlitePlaceOrder.
Import Sqlite.

Lemma getUserFromSession_run (req : Request) (db : Db) :
  getUserFromSession req db = (db, Some (sessionUser req (tables db))).
Proof.
  unfold getUserFromSession, sessionUser. now destruct (cookieSid req).
Qed.

Lemma itemsOf_length (env : Env) (items : list json) :
  forall its, itemsOf env items = Some its -> length its = length items.
Proof.
  induction items as [|x rest IH]; simpl; intros its H.
  - now injection H as <-.
  - destruct (itemOf env x) as [i|]; [|discriminate]. cbn in H.
    destruct (itemsOf env rest) as [r|]; [|discriminate]. cbn in H.
    injection H as <-. simpl. now rewrite (IH r).
Qed.

(** Every run of the handler is one of two kinds: it answers something
    other than 201 and leaves the database as it was, or it answers 201 and
    has appended one order row and the rows of its items. *)
Lemma sqlite_placeOrder_cases (env : Env) (req : Request) (db : Db) :
  (exists r, placeOrder env req db = (db, r) /\ status r <> 201)
  \/ (exists user c its t1,
        journal db = None
        /\ sessionUser req (tables db) = Some user
        /\ customerMissing (reqCustomer req) = false
        /\ customerOf (reqCustomer req) = Some c
        /\ itemsOf env (reqItems req) = Some its
        /\ its <> []
        /\ Forall (fun it => qty it <> NNaN) its
        /\ insertOrder {| o_id := orderIdOf env; o_user_id := u_id user;
                          o_created_at := toISOString_1 env;
                          o_customer := c |} (tables db) = Some t1
        /\ placeOrder env req db
           = ({| tables := appendItems (orderIdOf env) its t1; journal := None |},
              respond 201
                (BOrder {| ov_id := orderIdOf env;
                           ov_createdAt := toISOString_1 env;
                           ov_customer := c; ov_items := its |}))).
Proof.
  unfold placeOrder, catch500, placeOrder_try.
  rewrite (SqlFacts.bind_ok _ _ _ _ _ (getUserFromSession_run req db)).
  destruct (sessionUser req (tables db)) as [user|] eqn:Huser.
  2:{ left. eexists. split; [reflexivity|]. discriminate. }
  destruct (customerMissing (reqCustomer req)) eqn:Hmiss.
  { left. eexists. split; [reflexivity|]. discriminate. }
  destruct (length (reqItems req) =? 0)%nat eqn:Hlen.
  { left. eexists. split; [reflexivity|]. discriminate. }
  destruct db as [t j]. cbn [tables journal] in *.
  destruct j as [t0|].
  { left. eexists. split; [reflexivity|]. discriminate. }
  assert (Hbegin : beginTransaction {| tables := t; journal := None |}
                   = ({| tables := t; journal := Some t |}, Some tt))
    by reflexivity.
  rewrite (SqlFacts.bind_ok _ _ _ _ _ Hbegin).
  destruct (orderStatements_cases env user (reqCustomer req) (reqItems req) t t)
    as [(c & its & t1 & Hc & Hits & Hall & Hins & Hrun) | (t' & Hrun)].
  - right. exists user, c, its, t1.
    assert (Htry : tryCatch (orderStatements env user (reqCustomer req) (reqItems req))
                     (await rollback; throw) {| tables := t; journal := Some t |}
                   = ({| tables := appendItems (orderIdOf env) its t1;
                         journal := None |}, Some tt)).
    { unfold tryCatch. now rewrite Hrun. }
    rewrite (SqlFacts.bind_ok _ _ _ _ _ Htry).
    rewrite !SqlFacts.bind_eval, Hc, Hits.
    repeat split; try assumption.
    intros ->. apply itemsOf_length in Hits. simpl in Hits.
    apply Nat.eqb_neq in Hlen. congruence.
  - left.
    assert (Htry : tryCatch (orderStatements env user (reqCustomer req) (reqItems req))
                     (await rollback; throw) {| tables := t; journal := Some t |}
                   = ({| tables := t; journal := None |}, None)).
    { unfold tryCatch. now rewrite Hrun. }
    rewrite (SqlFacts.bind_throw _ _ _ _ Htry).
    eexists. split; [reflexivity|]. discriminate.
Qed.

End SqlitePlaceOrder.

Section JsonPlaceOrder.
Import JsonFile.

(** The same two kinds of run in the JSON-file variant. *)
Lemma json_placeOrder_cases (env : Env) (req : Request) (db : Db) :
  (exists r, placeOrder env req db = (db, r) /\ status r <> 201)
  \/ (exists user c its,
        getUserFromSession req db = Some user
        /\ customerMissing (reqCustomer req) = false
        /\ customerOf (reqCustomer req) = Some c
        /\ itemsOf env (reqItems req) = Some its
        /\ its <> []
        /\ let order := {| order_id := orderIdOf env;
                           order_createdAt := toISOString_1 env;
                           order_userId := user_id user;
                           order_customer := c; order_items := its |} in
           placeOrder env req db
           = ({| users := users db; sessions := sessions db;
                 orders := orders db ++ [order] |},
              respond 201 (BOrder (sanitizeOrder order)))).
Proof.
  unfold placeOrder, catch500, placeOrder_try, getUserFromSession.
  destruct (cookieSid req) as [sid|].
  2:{ left. eexists. split; [reflexivity|]. discriminate. }
  assert (Hno : exists r, (db, notAuthenticated) = (db, r) /\ status r <> 201).
  { eexists. split; [reflexivity|]. discriminate. }
  destruct (sessionSlot db sid) as [s| |] eqn:Hslot; cbn [slotUserId findUserById];
    try (left; exact Hno).
  destruct (List.find _ (users db)) as [user|] eqn:Huser; [|left; exact Hno].
  destruct (customerMissing (reqCustomer req)) eqn:Hmiss.
  { left. eexists. split; [reflexivity|]. discriminate. }
  destruct (length (reqItems req) =? 0)%nat eqn:Hlen.
  { left. eexists. split; [reflexivity|]. discriminate. }
  destruct (customerOf (reqCustomer req)) as [c|] eqn:Hc.
  2:{ left. eexists. split; [reflexivity|]. discriminate. }
  destruct (itemsOf env (reqItems req)) as [its|] eqn:Hits.
  2:{ left. eexists. split; [reflexivity|]. discriminate. }
  right. exists user, c, its. repeat split.
  intros ->. apply itemsOf_length in Hits. simpl in Hits.
  apply Nat.eqb_neq in Hlen. congruence.
Qed.

End JsonPlaceOrder.

(** ** Placing an order leaves users and sessions alone (C10) *)

(** C10: placing an order changes nothing but the orders.  In both variants
    the users and the sessions after the request are those before it, and the
    stored orders (in the SQLite variant also the stored item rows) are the
    old ones, unchanged and in place, followed by what the request added: one
    order when it is answered 201, nothing otherwise. *)
Theorem placeOrder_changes_only_orders
    (env : Env) (req : Request) (jdb : JsonFile.Db) (sdb : Sqlite.Db) :
  let jrun := JsonFile.placeOrder env req jdb in
  let srun := Sqlite.placeOrder env req sdb in
  let t := Sqlite.tables sdb in
  let t' := Sqlite.tables (fst srun) in
  (JsonFile.users (fst jrun) = JsonFile.users jdb
   /\ JsonFile.sessions (fst jrun) = JsonFile.sessions jdb
   /\ exists new,
        JsonFile.orders (fst jrun) = (JsonFile.orders jdb ++ new)%list
        /\ length new = (if status (snd jrun) =? 201 then 1%nat else 0%nat))
  /\ (Sqlite.users t' = Sqlite.users t
      /\ Sqlite.sessions t' = Sqlite.sessions t
      /\ (exists new,
            Sqlite.orders t' = (Sqlite.orders t ++ new)%list
            /\ length new = (if status (snd srun) =? 201 then 1%nat else 0%nat))
      /\ (exists rows,
            Sqlite.order_items t' = (Sqlite.order_items t ++ rows)%list
            /\ Forall (fun r => Sqlite.oi_order_id r = orderIdOf env) rows)).
Proof.
  intros jrun srun t t'. split.
  - subst jrun.
    destruct (json_placeOrder_cases env req jdb)
      as [(r & -> & Hr) | (user & c & its & _ & _ & _ & _ & _ & ->)]; cbn.
    + repeat split. exists []. rewrite app_nil_r. split; [reflexivity|].
      destruct (status r =? 201) eqn:E; [|reflexivity].
      apply Z.eqb_eq in E. contradiction.
    + repeat split. eexists. split; reflexivity.
  - subst srun t t'.
    destruct (sqlite_placeOrder_cases env req sdb)
      as [(r & -> & Hr)
         | (user & c & its & t1 & _ & _ & _ & _ & _ & _ & _ & Hins & ->)]; cbn.
    + repeat split.
      * exists []. rewrite app_nil_r. split; [reflexivity|].
        destruct (status r =? 201) eqn:E; [|reflexivity].
        apply Z.eqb_eq in E. contradiction.
      * exists []. rewrite app_nil_r. split; [reflexivity|constructor].
    + destruct (insertOrder_exists _ _ _ Hins) as (_ & Hu & Hs & Ho & Hi & _).
      destruct (appendItems_frame (orderIdOf env) its t1) as (Hu' & Hs' & Ho').
      destruct (appendItems_rows (orderIdOf env) its t1) as (rows & Hrows & _ & Hall).
      rewrite Hu', Hs', Ho', Hu, Hs, Ho, Hrows, Hi.
      repeat split.
      * eexists. split; reflexivity.
      * exists rows. split; [reflexivity|exact Hall].
Qed.

(** ** Quantities (C8) *)

Lemma itemOf_quantity (env : Env) (x : json) (it : Item) :
  itemOf env x = Some it -> quantityOf env x = Some (qty it).
Proof.
  unfold itemOf. intros H.
  destruct (strField x "id"); [|discriminate]. cbn in H.
  destruct (strField x "title"); [|discriminate]. cbn in H.
  destruct (strField x "category"); [|discriminate]. cbn in H.
  destruct (quantityOf env x) as [q|]; [|discriminate]. cbn in H.
  now injection H as <-.
Qed.

Lemma itemsOf_quantities (env : Env) (items : list json) :
  forall its,
    itemsOf env items = Some its ->
    Forall2 (fun x it => quantityOf env x = Some (qty it)) items its.
Proof.
  induction items as [|x rest IH]; simpl; intros its H.
  - injection H as <-. constructor.
  - destruct (itemOf env x) as [i|] eqn:Hi; [|discriminate]. cbn in H.
    destruct (itemsOf env rest) as [r|]; [|discriminate]. cbn in H.
    injection H as <-. constructor; [now apply itemOf_quantity|now apply IH].
Qed.

Lemma rows_quantities (env : Env) (items : list json) (rows : list Sqlite.ItemRow) :
  Forall2 (fun x it => quantityOf env x = Some (qty it)) items
    (List.map Sqlite.itemOfRow rows) ->
  Forall2 (fun x r => quantityOf env x = Some (Sqlite.oi_qty r)) items rows.
Proof.
  revert items. induction rows as [|r rows IH]; simpl; intros items H.
  - inversion H. constructor.
  - inversion H as [|x it items' its' Hq Hrest]; subst.
    constructor; [exact Hq|now apply IH].
Qed.

(** C8 (amended): the quantity stored for an item of an order answered 201 is
    [Number(item.qty || 0)], in both variants and item by item, in the order of
    the request.  That is 0 when the quantity is missing or falsy, the number
    itself when it is a number, of either sign, and for a non-empty string
    what the runtime reads the string as. *)
Theorem placeOrder_quantity_is_Number (env : Env) (req : Request) :
  (forall jdb,
      status (snd (JsonFile.placeOrder env req jdb)) = 201 ->
      exists o,
        JsonFile.orders (fst (JsonFile.placeOrder env req jdb))
          = (JsonFile.orders jdb ++ [o])%list
        /\ Forall2 (fun x it => quantityOf env x = Some (qty it))
             (reqItems req) (JsonFile.order_items o))
  /\ (forall sdb,
        status (snd (Sqlite.placeOrder env req sdb)) = 201 ->
        exists rows,
          Sqlite.order_items (Sqlite.tables (fst (Sqlite.placeOrder env req sdb)))
            = (Sqlite.order_items (Sqlite.tables sdb) ++ rows)%list
          /\ Forall2 (fun x r => quantityOf env x = Some (Sqlite.oi_qty r))
               (reqItems req) rows)
  /\ (forall x q0,
        getProp x "qty" = Some q0 -> truthy q0 = false ->
        quantityOf env x = Some (NInt 0))
  /\ (forall x z,
        getProp x "qty" = Some (JNum z) -> quantityOf env x = Some (NInt z))
  /\ (forall x s,
        getProp x "qty" = Some (JStr s) -> s <> "" ->
        quantityOf env x = Some (StringToNumber env s)).
Proof.
  repeat split.
  - intros jdb Hst.
    destruct (json_placeOrder_cases env req jdb)
      as [(r & Hrun & Hr) | (user & c & its & _ & _ & _ & Hits & _ & Hrun)].
    + rewrite Hrun in Hst. contradiction.
    + cbv zeta in Hrun. rewrite Hrun. cbn. eexists. split; [reflexivity|].
      cbn. now apply itemsOf_quantities.
  - intros sdb Hst.
    destruct (sqlite_placeOrder_cases env req sdb)
      as [(r & Hrun & Hr)
         | (user & c & its & t1 & _ & _ & _ & _ & Hits & _ & _ & Hins & Hrun)].
    + rewrite Hrun in Hst. contradiction.
    + rewrite Hrun. cbn.
      destruct (insertOrder_exists _ _ _ Hins) as (_ & _ & _ & _ & Hi & _).
      destruct (appendItems_rows (orderIdOf env) its t1) as (rows & Hrows & Hmap & _).
      exists rows. rewrite Hrows, Hi. split; [reflexivity|].
      apply rows_quantities. rewrite Hmap. now apply itemsOf_quantities.
  - intros x q0 Hq Hf. unfold quantityOf. rewrite Hq. cbn.
    unfold orElse. now rewrite Hf.
  - intros x z Hq. unfold quantityOf. rewrite Hq. cbn.
    unfold orElse. cbn. destruct (z =? 0) eqn:E; cbn; [|reflexivity].
    apply Z.eqb_eq in E. now subst.
  - intros x s Hq Hs. unfold quantityOf. rewrite Hq. cbn.
    unfold orElse. cbn. apply String.eqb_neq in Hs. now rewrite Hs.
Qed.

Lemma placeOrder_quantity_is_Number_witness :
  let req := orderRequest "s-1" customerShiva [itemNegative] in
  (exists o,
      JsonFile.orders (fst (JsonFile.placeOrder envLater req jsonShiva))
        = (JsonFile.orders jsonShiva ++ [o])%list
      /\ Forall2 (fun x it => quantityOf envLater x = Some (qty it))
           (reqItems req) (JsonFile.order_items o))
  /\ (exists rows,
        Sqlite.order_items
          (Sqlite.tables (fst (Sqlite.placeOrder envLater req sqliteShiva)))
          = (Sqlite.order_items (Sqlite.tables sqliteShiva) ++ rows)%list
        /\ Forall2 (fun x r => quantityOf envLater x = Some (Sqlite.oi_qty r))
             (reqItems req) rows)
  /\ quantityOf envLater itemNegative = Some (NInt (-5)).
Proof.
  intros req.
  destruct (placeOrder_quantity_is_Number envLater req)
    as (HJ & HS & _ & Hnum & _).
  split; [apply HJ; vm_compute; reflexivity|].
  split; [apply HS; vm_compute; reflexivity|].
  apply Hnum. vm_compute. reflexivity.
Defined.

(** ** Listing orders (C1) *)

(** *** The order of time stamps *)

Section Timestamps.

Lemma cmp_eq (a b : string) : String_as_OT.compare a b = Eq -> a = b.
Proof.
  intros H. destruct (String_as_OT.compare_spec a b); congruence.
Qed.

Lemma cmp_refl (a : string) : String_as_OT.compare a a = Eq.
Proof.
  destruct (String_as_OT.compare_spec a a) as [_|H|H]; [reflexivity| |];
    exfalso; exact (StrictOrder_Irreflexive a H).
Qed.

Lemma cmp_gt_lt (a b : string) :
  String_as_OT.compare a b = Gt -> String_as_OT.compare b a = Lt.
Proof.
  intros H. destruct (String_as_OT.compare_spec a b); try discriminate.
  assumption.
Qed.

Lemma cmp_lt_gt (a b : string) :
  String_as_OT.compare a b = Lt -> String_as_OT.compare b a = Gt.
Proof.
  intros H. destruct (String_as_OT.compare_spec b a) as [E|L|G].
  - hnf in E. subst b. rewrite cmp_refl in H. discriminate.
  - exfalso. apply (StrictOrder_Irreflexive a).
    exact (StrictOrder_Transitive a b a H L).
  - reflexivity.
Qed.

Lemma cmp_lt_trans (a b c : string) :
  String_as_OT.compare a b = Lt -> String_as_OT.compare b c = Lt ->
  String_as_OT.compare a c = Lt.
Proof. exact (StrictOrder_Transitive a b c). Qed.

Lemma cmp_gt_trans (a b c : string) :
  String_as_OT.compare a b = Gt -> String_as_OT.compare b c = Gt ->
  String_as_OT.compare a c = Gt.
Proof.
  intros H1 H2. apply cmp_lt_gt.
  exact (cmp_lt_trans c b a (cmp_gt_lt _ _ H2) (cmp_gt_lt _ _ H1)).
Qed.

End Timestamps.

(** *** ORDER BY *)

Section OrderBy.
Import Sqlite Listing.

Lemma itemKeyLe_trans (a b c : option ItemRow) :
  itemKeyLe a b = true -> itemKeyLe b c = true -> itemKeyLe a c = true.
Proof.
  destruct a, b, c; simpl; try congruence. intros H1 H2.
  apply Z.leb_le in H1, H2. apply Z.leb_le. lia.
Qed.

Lemma itemKeyLe_total (a b : option ItemRow) :
  itemKeyLe a b = false -> itemKeyLe b a = true.
Proof.
  destruct a, b; simpl; try congruence. intros H.
  apply Z.leb_gt in H. apply Z.leb_le. lia.
Qed.

Lemma rowLe_trans (a b c : JoinedRow) :
  rowLe a b = true -> rowLe b c = true -> rowLe a c = true.
Proof.
  unfold rowLe.
  destruct (String_as_OT.compare (o_created_at (jr_order a))
              (o_created_at (jr_order b))) eqn:Hab; try discriminate;
  destruct (String_as_OT.compare (o_created_at (jr_order b))
              (o_created_at (jr_order c))) eqn:Hbc; try discriminate;
  intros H1 H2.
  - apply cmp_eq in Hab, Hbc. rewrite Hab, Hbc, cmp_refl.
    exact (itemKeyLe_trans _ _ _ H1 H2).
  - apply cmp_eq in Hab. rewrite Hab, Hbc. reflexivity.
  - apply cmp_eq in Hbc. rewrite <- Hbc, Hab. reflexivity.
  - now rewrite (cmp_gt_trans _ _ _ Hab Hbc).
Qed.

Lemma rowLe_total (a b : JoinedRow) : rowLe a b = false -> rowLe b a = true.
Proof.
  unfold rowLe.
  destruct (String_as_OT.compare (o_created_at (jr_order a))
              (o_created_at (jr_order b))) eqn:Hab; intros H.
  - apply cmp_eq in Hab. rewrite Hab, cmp_refl. now apply itemKeyLe_total.
  - now rewrite (cmp_lt_gt _ _ Hab).
  - discriminate.
Qed.

Lemma insertRow_In (r x : JoinedRow) (l : list JoinedRow) :
  In x (insertRow r l) <-> x = r \/ In x l.
Proof.
  induction l as [|y l IH]; simpl.
  - intuition.
  - destruct (rowLe r y); simpl; [intuition|]. rewrite IH. intuition.
Qed.

Lemma insertRow_sorted (r : JoinedRow) (l : list JoinedRow) :
  StronglySorted rowLeP l -> StronglySorted rowLeP (insertRow r l).
Proof.
  induction 1 as [|y l Hl IH Hy]; simpl.
  - constructor; constructor.
  - destruct (rowLe r y) eqn:Hry.
    + constructor; [now constructor|].
      constructor; [exact Hry|].
      eapply List.Forall_impl; [|exact Hy]. intros z Hz.
      exact (rowLe_trans _ _ _ Hry Hz).
    + constructor; [exact IH|].
      apply List.Forall_forall. intros z Hz. apply insertRow_In in Hz as [->|Hz].
      * now apply rowLe_total.
      * rewrite List.Forall_forall in Hy. now apply Hy.
Qed.

Lemma orderBy_sorted (l : list JoinedRow) : StronglySorted rowLeP (orderBy l).
Proof.
  induction l as [|r l IH]; simpl; [constructor|now apply insertRow_sorted].
Qed.

Lemma insertRow_perm (r : JoinedRow) (l : list JoinedRow) :
  Permutation (insertRow r l) (r :: l).
Proof.
  induction l as [|y l IH]; simpl; [reflexivity|].
  destruct (rowLe r y); [reflexivity|].
  rewrite IH. apply perm_swap.
Qed.

Lemma orderBy_perm (l : list JoinedRow) : Permutation (orderBy l) l.
Proof.
  induction l as [|r l IH]; simpl; [reflexivity|].
  rewrite insertRow_perm. now constructor.
Qed.

(** A row that may stand before all of a list is inserted at its head. *)
Lemma insertRow_head (r : JoinedRow) (l : list JoinedRow) :
  Forall (rowLeP r) l -> insertRow r l = r :: l.
Proof.
  intros H. destruct l as [|y l]; [reflexivity|]. simpl.
  inversion H as [|? ? Hy _]; subst. unfold rowLeP in Hy. now rewrite Hy.
Qed.

Lemma orderBy_of_sorted (l : list JoinedRow) :
  StronglySorted rowLeP l -> orderBy l = l.
Proof.
  induction 1 as [|r l Hl IH Hr]; simpl; [reflexivity|].
  rewrite IH. now apply insertRow_head.
Qed.

(** The sort is stable: selecting rows commutes with it. *)
Lemma filter_insertRow (f : JoinedRow -> bool) (r : JoinedRow) (l : list JoinedRow) :
  StronglySorted rowLeP l ->
  List.filter f (insertRow r l)
  = if f r then insertRow r (List.filter f l) else List.filter f l.
Proof.
  induction 1 as [|y l Hl IH Hy]; simpl.
  - destruct (f r); reflexivity.
  - destruct (rowLe r y) eqn:Hry; simpl.
    + destruct (f r) eqn:Hfr; [|reflexivity].
      symmetry. apply insertRow_head.
      assert (Hall : Forall (rowLeP r) (y :: l)).
      { constructor; [exact Hry|].
        eapply List.Forall_impl; [|exact Hy]. intros z Hz.
        exact (rowLe_trans _ _ _ Hry Hz). }
      apply List.Forall_forall. intros z Hz.
      rewrite List.Forall_forall in Hall. apply Hall.
      change (In z (List.filter f (y :: l))) in Hz.
      now apply filter_In in Hz as [Hz _].
    + rewrite IH. destruct (f y), (f r); simpl; rewrite ?Hry; reflexivity.
Qed.

Lemma filter_orderBy (f : JoinedRow -> bool) (l : list JoinedRow) :
  List.filter f (orderBy l) = orderBy (List.filter f l).
Proof.
  induction l as [|r l IH]; simpl; [reflexivity|].
  rewrite filter_insertRow by apply orderBy_sorted.
  rewrite IH. destruct (f r); reflexivity.
Qed.

End OrderBy.

(** *** The reassembly loop computes the closed form *)

Section Reassemble.
Import Sqlite Listing.

Lemma memb_In (k : string) (l : list string) :
  existsb (String.eqb k) l = true <-> In k l.
Proof.
  rewrite existsb_exists. split.
  - intros (x & Hx & E). apply String.eqb_eq in E. now subst.
  - intros H. exists k. split; [exact H|apply String.eqb_refl].
Qed.

Lemma bool_ext (a b : bool) : (a = true <-> b = true) -> a = b.
Proof. destruct a, b; intuition congruence. Qed.

Lemma firsts_snoc (r : JoinedRow) (p : list JoinedRow) :
  forall seen,
    firsts seen (p ++ [r])
    = (firsts seen p
       ++ (if existsb (String.eqb (key r)) (seen ++ List.map key p)
           then [] else [r]))%list.
Proof.
  induction p as [|x p IH]; intros seen; simpl.
  - rewrite app_nil_r. destruct (existsb _ seen); reflexivity.
  - destruct (existsb (String.eqb (key x)) seen) eqn:Hx.
    + rewrite IH. f_equal.
      replace (existsb (String.eqb (key r)) (seen ++ key x :: List.map key p))
        with (existsb (String.eqb (key r)) (seen ++ List.map key p));
        [reflexivity|].
      apply bool_ext. rewrite !memb_In, !in_app_iff. simpl.
      apply memb_In in Hx.
      split; [intros [H|H]; auto|intros [H|[E|H]]; auto].
      left. now rewrite <- E.
    + simpl. rewrite IH. f_equal. f_equal.
      replace (existsb (String.eqb (key r)) (seen ++ key x :: List.map key p))
        with (existsb (String.eqb (key r)) ((key x :: seen) ++ List.map key p));
        [reflexivity|].
      apply bool_ext. rewrite !memb_In, !in_app_iff. simpl. intuition.
Qed.

Lemma firsts_In (x : JoinedRow) (p : list JoinedRow) :
  forall seen, In x (firsts seen p) -> In x p.
Proof.
  induction p as [|y p IH]; intros seen; simpl; [auto|].
  destruct (existsb _ seen); simpl; intros H.
  - right. eapply IH, H.
  - destruct H as [->|H]; [now left|]. right. eapply IH, H.
Qed.

Lemma firsts_keys (k : string) (p : list JoinedRow) :
  forall seen,
    In k seen \/ In k (List.map key (firsts seen p))
    <-> In k seen \/ In k (List.map key p).
Proof.
  induction p as [|y p IH]; intros seen; simpl; [reflexivity|].
  destruct (existsb (String.eqb (key y)) seen) eqn:Hy.
  - rewrite IH. apply memb_In in Hy. intuition (subst; auto).
  - simpl. specialize (IH (key y :: seen)). simpl in IH. intuition.
Qed.

Lemma firsts_nodup (p : list JoinedRow) :
  forall seen,
    List.NoDup (List.map key (firsts seen p))
    /\ (forall k, In k (List.map key (firsts seen p)) -> ~ In k seen).
Proof.
  induction p as [|y p IH]; intros seen; simpl.
  - split; [constructor|intros k []].
  - destruct (existsb (String.eqb (key y)) seen) eqn:Hy; [apply IH|].
    destruct (IH (key y :: seen)) as [Hnd Hfresh]. simpl. split.
    + constructor; [|exact Hnd]. intros Hin. apply (Hfresh _ Hin). now left.
    + intros k [<-|Hk].
      * intros Hin. apply memb_In in Hin. congruence.
      * intros Hin. apply (Hfresh _ Hk). now right.
Qed.

Lemma push_nil (m : list OrderView) (k : string) : push m k [] = m.
Proof.
  unfold push. rewrite <- (map_id m) at 2. apply map_ext. intros o.
  destruct (String.eqb (ov_id o) k); [|reflexivity].
  rewrite app_nil_r. now destruct o.
Qed.

Lemma addRow_push (m : list OrderView) (r : JoinedRow) :
  addRow m r
  = push (if mapHas m (key r) then m else m ++ [viewOfRow r])%list (key r)
      (keepItem r).
Proof.
  unfold addRow, keepItem. fold (key r).
  destruct (jr_item r) as [i|]; [|now rewrite push_nil].
  destruct (negb _); [reflexivity|now rewrite push_nil].
Qed.

Lemma itemsFor_snoc (k : string) (p : list JoinedRow) (r : JoinedRow) :
  itemsFor k (p ++ [r])
  = (itemsFor k p ++ (if String.eqb (key r) k then keepItem r else []))%list.
Proof.
  unfold itemsFor. rewrite flat_map_app. simpl. now rewrite app_nil_r.
Qed.

Lemma itemsFor_absent (k : string) (p : list JoinedRow) :
  ~ In k (List.map key p) -> itemsFor k p = [].
Proof.
  induction p as [|x p IH]; simpl; intros H; [reflexivity|].
  unfold itemsFor in *. simpl.
  destruct (String.eqb (key x) k) eqn:E.
  - apply String.eqb_eq in E. exfalso. apply H. now left.
  - simpl. apply IH. intros Hin. apply H. now right.
Qed.

Lemma mapHas_listing (p : list JoinedRow) (k : string) :
  mapHas (listing p) k = existsb (String.eqb k) (List.map key p).
Proof.
  apply bool_ext. rewrite memb_In. unfold mapHas, listing.
  rewrite existsb_exists. split.
  - intros (o & Ho & E). apply String.eqb_eq in E. subst k.
    apply in_map_iff in Ho as (x & <- & Hx). simpl.
    apply in_map. eapply firsts_In, Hx.
  - intros Hk.
    assert (Hf : In k (List.map key (firsts [] p))).
    { destruct (proj2 (firsts_keys k p [])) as [[]|H]; auto. }
    apply in_map_iff in Hf as (x & <- & Hx).
    exists (mkView x (itemsFor (key x) p)). split; [|apply String.eqb_refl].
    apply in_map_iff. now exists x.
Qed.

Lemma push_listing (p : list JoinedRow) (r : JoinedRow) (its : list Item) :
  push (listing p) (key r) its
  = List.map (fun x => mkView x (itemsFor (key x) p
                                 ++ (if String.eqb (key r) (key x) then its else [])))
      (firsts [] p).
Proof.
  unfold push, listing. rewrite map_map. apply map_ext. intros x. simpl.
  rewrite (String.eqb_sym (key r) (key x)).
  destruct (String.eqb (key x) (key r)); [reflexivity|].
  now rewrite app_nil_r.
Qed.

Lemma addRow_listing (p : list JoinedRow) (r : JoinedRow) :
  addRow (listing p) r = listing (p ++ [r]).
Proof.
  rewrite addRow_push, mapHas_listing.
  unfold listing at 3. rewrite firsts_snoc, app_nil_l, map_app.
  assert (Hold : List.map (fun x => mkView x (itemsFor (key x) (p ++ [r])))
                   (firsts [] p)
                 = push (listing p) (key r) (keepItem r)).
  { rewrite push_listing. apply map_ext. intros x. now rewrite itemsFor_snoc. }
  rewrite Hold.
  destruct (existsb (String.eqb (key r)) (List.map key p)) eqn:Hhas.
  - simpl. now rewrite app_nil_r.
  - unfold push at 1. rewrite map_app. fold (push (listing p) (key r) (keepItem r)).
    f_equal. simpl. unfold viewOfRow. fold (key r). simpl.
    rewrite String.eqb_refl. simpl. unfold mkView. f_equal.
    rewrite itemsFor_snoc, String.eqb_refl, itemsFor_absent; [reflexivity|].
    intros Hin. apply memb_In in Hin. congruence.
Qed.

Lemma fold_addRow (rest : list JoinedRow) :
  forall p, fold_left addRow rest (listing p) = listing (p ++ rest).
Proof.
  induction rest as [|r rest IH]; intros p; simpl.
  - now rewrite app_nil_r.
  - rewrite addRow_listing, IH, <- app_assoc. reflexivity.
Qed.

Lemma reassemble_listing (rows : list JoinedRow) : reassemble rows = listing rows.
Proof. exact (fold_addRow rows []). Qed.

End Reassemble.

(** *** The rows of the join *)

Section Join.
Import Sqlite Listing.

Lemma leftJoin_rows (uid : string) (t : Tables) :
  leftJoin uid t = flat_map (rowsOfOrder t) (userOrders uid t).
Proof. reflexivity. Qed.

Lemma rowsOfOrder_order (t : Tables) (o : OrderRow) (x : JoinedRow) :
  In x (rowsOfOrder t o) -> jr_order x = o.
Proof.
  unfold rowsOfOrder. destruct (itemsOfOrder t (o_id o)) as [|i its].
  - intros [<-|[]]. reflexivity.
  - intros H. apply in_map_iff in H as (j & <- & _). reflexivity.
Qed.

Lemma rowsOfOrder_nonempty (t : Tables) (o : OrderRow) :
  exists x, In x (rowsOfOrder t o).
Proof.
  unfold rowsOfOrder. destruct (itemsOfOrder t (o_id o)) as [|i its].
  - eexists. now left.
  - eexists. now left.
Qed.

Lemma filter_flat_map {A B} (f : B -> bool) (g : A -> list B) (l : list A) :
  List.filter f (flat_map g l) = flat_map (fun a => List.filter f (g a)) l.
Proof.
  induction l as [|a l IH]; simpl; [reflexivity|].
  now rewrite List.filter_app, IH.
Qed.

Lemma filter_all {A} (f : A -> bool) (l : list A) :
  (forall x, In x l -> f x = true) -> List.filter f l = l.
Proof.
  induction l as [|a l IH]; simpl; intros H; [reflexivity|].
  rewrite (H a) by now left. f_equal. apply IH. intros x Hx. apply H. now right.
Qed.

Lemma filter_none {A} (f : A -> bool) (l : list A) :
  (forall x, In x l -> f x = false) -> List.filter f l = [].
Proof.
  induction l as [|a l IH]; simpl; intros H; [reflexivity|].
  rewrite (H a) by now left. apply IH. intros x Hx. apply H. now right.
Qed.

Lemma filter_key_rows (t : Tables) (o : OrderRow) (k : string) :
  List.filter (fun x => String.eqb (key x) k) (rowsOfOrder t o)
  = if String.eqb (o_id o) k then rowsOfOrder t o else [].
Proof.
  destruct (String.eqb (o_id o) k) eqn:E.
  - apply filter_all. intros x Hx. unfold key.
    now rewrite (rowsOfOrder_order _ _ _ Hx).
  - apply filter_none. intros x Hx. unfold key.
    now rewrite (rowsOfOrder_order _ _ _ Hx).
Qed.

(** With order ids a key, the rows of one order id are the rows of one
    order. *)
Lemma filter_key_join (t : Tables) (l : list OrderRow) (o : OrderRow) :
  List.NoDup (List.map o_id l) -> In o l ->
  List.filter (fun x => String.eqb (key x) (o_id o)) (flat_map (rowsOfOrder t) l)
  = rowsOfOrder t o.
Proof.
  rewrite filter_flat_map.
  induction l as [|a l IH]; simpl; intros Hnd Hin; [contradiction|].
  inversion Hnd as [|? ? Hfresh Hnd']; subst.
  rewrite filter_key_rows. destruct Hin as [->|Hin].
  - rewrite String.eqb_refl.
    assert (Hrest : flat_map (fun a => List.filter (fun x => String.eqb (key x) (o_id o))
                                         (rowsOfOrder t a)) l = []).
    { clear IH Hnd Hnd'. induction l as [|b l IHl]; simpl; [reflexivity|].
      rewrite filter_key_rows.
      destruct (String.eqb (o_id b) (o_id o)) eqn:E.
      - apply String.eqb_eq in E. exfalso. apply Hfresh. simpl. now left.
      - simpl. apply IHl. intros H. apply Hfresh. simpl. now right. }
    rewrite Hrest. apply app_nil_r.
  - destruct (String.eqb (o_id a) (o_id o)) eqn:E.
    + apply String.eqb_eq in E. exfalso. apply Hfresh. rewrite E.
      now apply in_map.
    + simpl. now apply IH.
Qed.

Lemma NoDup_map_filter {A B} (f : A -> B) (p : A -> bool) (l : list A) :
  List.NoDup (List.map f l) -> List.NoDup (List.map f (List.filter p l)).
Proof.
  induction l as [|a l IH]; simpl; intros H; [constructor|].
  inversion H as [|? ? Hfresh Hnd]; subst.
  destruct (p a); simpl; [|now apply IH].
  constructor; [|now apply IH].
  intros Hin. apply Hfresh. apply in_map_iff in Hin as (x & E & Hx).
  apply filter_In in Hx as [Hx _]. rewrite <- E. now apply in_map.
Qed.

Lemma StronglySorted_filter {A} (R : A -> A -> Prop) (p : A -> bool) (l : list A) :
  StronglySorted R l -> StronglySorted R (List.filter p l).
Proof.
  induction 1 as [|a l Hl IH Ha]; simpl; [constructor|].
  destruct (p a); [|exact IH]. constructor; [exact IH|].
  apply List.Forall_forall. intros x Hx. apply filter_In in Hx as [Hx _].
  rewrite List.Forall_forall in Ha. now apply Ha.
Qed.

Lemma StronglySorted_map {A B} (R : B -> B -> Prop) (f : A -> B) (l : list A) :
  StronglySorted (fun a b => R (f a) (f b)) l -> StronglySorted R (List.map f l).
Proof.
  induction 1 as [|a l Hl IH Ha]; simpl; constructor; [exact IH|].
  apply List.Forall_forall. intros y Hy. apply in_map_iff in Hy as (x & <- & Hx).
  rewrite List.Forall_forall in Ha. now apply Ha.
Qed.

(** The rows of one order are already in ORDER BY order. *)
Lemma rowsOfOrder_sorted (t : Tables) (o : OrderRow) :
  StronglySorted Z.lt (List.map oi_id (order_items t)) ->
  StronglySorted rowLeP (rowsOfOrder t o).
Proof.
  intros Hids. unfold rowsOfOrder.
  assert (Hits : StronglySorted (fun a b => oi_id a <= oi_id b)
                   (itemsOfOrder t (o_id o))).
  { unfold itemsOfOrder. apply StronglySorted_filter.
    induction (order_items t) as [|a l IH]; [constructor|].
    simpl in Hids. inversion Hids as [|? ? Hl Ha]; subst.
    constructor; [now apply IH|].
    apply List.Forall_forall. intros x Hx.
    rewrite List.Forall_forall in Ha.
    assert (oi_id a < oi_id x) by (apply Ha; now apply in_map). lia. }
  destruct (itemsOfOrder t (o_id o)) as [|i its] eqn:E.
  - constructor; constructor.
  - rewrite <- E in *. clear E.
    apply StronglySorted_map.
    eapply StronglySorted_ind with (P := StronglySorted _); [..|exact Hits].
    + constructor.
    + intros a l _ IH Ha. constructor; [exact IH|].
      eapply List.Forall_impl; [|exact Ha]. intros b Hb.
      unfold rowLeP, rowLe. simpl. rewrite cmp_refl. now apply Z.leb_le.
Qed.

Lemma itemsFor_filter (k : string) (rows : list JoinedRow) :
  itemsFor k rows
  = flat_map keepItem (List.filter (fun x => String.eqb (key x) k) rows).
Proof.
  unfold itemsFor. induction rows as [|r rows IH]; simpl; [reflexivity|].
  destruct (String.eqb (key r) k); simpl; now rewrite IH.
Qed.

(** Rows whose items all have a product id show every one of them. *)
Lemma keepItem_rows (t : Tables) (o : OrderRow) :
  Forall (fun i => oi_product_id i <> "") (order_items t) ->
  flat_map keepItem (rowsOfOrder t o)
  = List.map itemOfRow (itemsOfOrder t (o_id o)).
Proof.
  intros Hpid. unfold rowsOfOrder.
  assert (Hits : Forall (fun i => oi_product_id i <> "") (itemsOfOrder t (o_id o))).
  { apply List.Forall_forall. intros i Hi. apply filter_In in Hi as [Hi _].
    rewrite List.Forall_forall in Hpid. now apply Hpid. }
  destruct (itemsOfOrder t (o_id o)) as [|i its] eqn:E; [reflexivity|].
  rewrite <- E in *. clear E.
  induction Hits as [|a l Ha Hl IH]; simpl; [reflexivity|].
  unfold keepItem at 1. simpl.
  apply String.eqb_neq in Ha. rewrite Ha. simpl. now rewrite IH.
Qed.

(** The items listed under an order are its item rows, in table order. *)
Lemma items_of_listing (uid : string) (t : Tables) (o : OrderRow) :
  wellFormed t ->
  Forall (fun i => oi_product_id i <> "") (order_items t) ->
  In o (userOrders uid t) ->
  itemsFor (o_id o) (selectOrders uid t)
  = List.map itemOfRow (itemsOfOrder t (o_id o)).
Proof.
  intros [Hnd Hids _ _] Hpid Hin.
  unfold selectOrders. rewrite itemsFor_filter, filter_orderBy, leftJoin_rows.
  rewrite filter_key_join; [|now apply NoDup_map_filter|exact Hin].
  rewrite orderBy_of_sorted by now apply rowsOfOrder_sorted.
  now apply keepItem_rows.
Qed.

End Join.

(** *** The listing *)

Section ListMyOrders.
Import Sqlite Listing.

Lemma firsts_sorted (R : JoinedRow -> JoinedRow -> Prop) (l : list JoinedRow) :
  StronglySorted R l -> forall seen, StronglySorted R (firsts seen l).
Proof.
  induction 1 as [|a l Hl IH Ha]; intros seen; simpl; [constructor|].
  destruct (existsb _ seen); [apply IH|].
  constructor; [apply IH|].
  apply List.Forall_forall. intros x Hx. apply firsts_In in Hx.
  rewrite List.Forall_forall in Ha. now apply Ha.
Qed.

Lemma rowLe_newest (a b : JoinedRow) (ia ib : list Item) :
  rowLeP a b -> newestFirst (mkView a ia) (mkView b ib).
Proof.
  unfold rowLeP, rowLe, newestFirst. simpl.
  destruct (String_as_OT.compare _ _); congruence.
Qed.

Lemma listing_sorted (rows : list JoinedRow) :
  StronglySorted rowLeP rows -> StronglySorted newestFirst (listing rows).
Proof.
  intros H. unfold listing. apply StronglySorted_map.
  apply firsts_sorted with (seen := []) in H.
  induction H as [|a l Hl IH Ha]; constructor; [exact IH|].
  eapply List.Forall_impl; [|exact Ha]. intros b Hb. now apply rowLe_newest.
Qed.

Lemma selectOrders_In (uid : string) (t : Tables) (x : JoinedRow) :
  In x (selectOrders uid t)
  <-> exists o, In o (userOrders uid t) /\ In x (rowsOfOrder t o).
Proof.
  unfold selectOrders. rewrite leftJoin_rows. split.
  - intros H. apply (Permutation_in _ (orderBy_perm _)) in H.
    now apply in_flat_map in H.
  - intros H. apply (Permutation_in _ (Permutation_sym (orderBy_perm _))).
    now apply in_flat_map.
Qed.

Lemma listing_views (uid : string) (t : Tables) :
  wellFormed t ->
  Forall (fun i => oi_product_id i <> "") (order_items t) ->
  listing (selectOrders uid t)
  = List.map (viewOfOrder t)
      (List.map jr_order (firsts [] (selectOrders uid t))).
Proof.
  intros Hwf Hpid. unfold listing. rewrite map_map.
  apply map_ext_in. intros x Hx. apply firsts_In in Hx.
  apply selectOrders_In in Hx as (o & Ho & Hx).
  apply rowsOfOrder_order in Hx. unfold mkView, viewOfOrder, key.
  rewrite Hx. f_equal. now apply items_of_listing.
Qed.

Lemma o_id_injective (l : list OrderRow) (a b : OrderRow) :
  List.NoDup (List.map o_id l) -> In a l -> In b l -> o_id a = o_id b -> a = b.
Proof.
  induction l as [|x l IH]; simpl; intros Hnd Ha Hb E; [contradiction|].
  inversion Hnd as [|? ? Hfresh Hnd']; subst.
  destruct Ha as [->|Ha], Hb as [->|Hb]; auto.
  - exfalso. apply Hfresh. rewrite E. now apply in_map.
  - exfalso. apply Hfresh. rewrite <- E. now apply in_map.
Qed.

Lemma listed_orders_perm (uid : string) (t : Tables) :
  wellFormed t ->
  Permutation (List.map jr_order (firsts [] (selectOrders uid t)))
    (userOrders uid t).
Proof.
  intros [Hnd _ _ _].
  assert (HndU : List.NoDup (List.map o_id (userOrders uid t)))
    by now apply NoDup_map_filter.
  apply Permutation.NoDup_Permutation.
  - apply (List.NoDup_map_inv o_id). rewrite map_map.
    exact (proj1 (firsts_nodup (selectOrders uid t) [])).
  - exact (List.NoDup_map_inv _ _ HndU).
  - intros o. split.
    + intros H. apply in_map_iff in H as (x & <- & Hx). apply firsts_In in Hx.
      apply selectOrders_In in Hx as (o & Ho & Hx).
      now rewrite (rowsOfOrder_order _ _ _ Hx).
    + intros Ho.
      destruct (rowsOfOrder_nonempty t o) as (x & Hx).
      assert (Hsel : In x (selectOrders uid t))
        by (apply selectOrders_In; now exists o).
      assert (Hk : In (key x) (List.map key (firsts [] (selectOrders uid t)))).
      { destruct (proj2 (firsts_keys (key x) (selectOrders uid t) [])) as [[]|H];
          [|exact H]. right. now apply in_map. }
      apply in_map_iff in Hk as (y & Hy & Hin).
      apply in_map_iff. exists y. split; [|exact Hin].
      apply firsts_In in Hin.
      apply selectOrders_In in Hin as (o' & Ho' & Hy').
      apply rowsOfOrder_order in Hy', Hx. unfold key in Hy.
      rewrite Hy', Hx in Hy. rewrite Hy'.
      exact (o_id_injective _ _ _ HndU Ho' Ho Hy).
Qed.

Lemma sqlite_listMyOrders_run (req : Request) (db : Db) :
  listMyOrders req db
  = (db, match sessionUser req (tables db) with
         | None => notAuthenticated
         | Some user =>
             respond 200 (BOrders (reassemble (selectOrders (u_id user) (tables db))))
         end).
Proof.
  unfold listMyOrders, catch500, listMyOrders_try.
  rewrite (SqlFacts.bind_ok _ _ _ _ _ (getUserFromSession_run req db)).
  destruct (sessionUser req (tables db)); reflexivity.
Qed.

End ListMyOrders.

(** The SQLite listing: every order of the user once, with its item rows,
    newest first. *)
Lemma sqlite_listing (req : Request) (sdb : Sqlite.Db) (su : Sqlite.UserRow) :
  Sqlite.sessionUser req (Sqlite.tables sdb) = Some su ->
  Listing.wellFormed (Sqlite.tables sdb) ->
  Forall (fun i => Sqlite.oi_product_id i <> "")
    (Sqlite.order_items (Sqlite.tables sdb)) ->
  exists views,
    Sqlite.listMyOrders req sdb = (sdb, respond 200 (BOrders views))
    /\ Permutation views
         (List.map (Listing.viewOfOrder (Sqlite.tables sdb))
            (Listing.userOrders (Sqlite.u_id su) (Sqlite.tables sdb)))
    /\ StronglySorted newestFirst views.
Proof.
  intros Hsu Hwf Hpid.
  exists (Sqlite.reassemble
            (Sqlite.selectOrders (Sqlite.u_id su) (Sqlite.tables sdb))).
  rewrite sqlite_listMyOrders_run, Hsu, reassemble_listing.
  split; [reflexivity|]. split.
  - rewrite listing_views by assumption.
    apply Permutation_map. now apply listed_orders_perm.
  - apply listing_sorted. apply orderBy_sorted.
Qed.

Lemma json_session_of_user (req : Request) (db : JsonFile.Db) (u : JsonFile.User) :
  JsonFile.getUserFromSession req db = Some u ->
  exists sid s,
    cookieSid req = Some sid
    /\ JsonFile.sessionSlot db sid = JsonFile.Own s
    /\ JsonFile.userId s = JsonFile.user_id u.
Proof.
  unfold JsonFile.getUserFromSession.
  destruct (cookieSid req) as [sid|]; [|discriminate].
  destruct (JsonFile.sessionSlot db sid) as [s| |] eqn:Hslot; try discriminate.
  cbn. intros H. apply find_some in H as [_ E]. apply String.eqb_eq in E.
  now exists sid, s.
Qed.

(** ** What the SQLite schema maintains *)

Section SqliteInvariant.
Import Sqlite Listing.

Lemma sameOrders_refl (t : Tables) : sameOrders t t.
Proof. repeat split. Qed.

Lemma sameOrders_trans (a b c : Tables) :
  sameOrders a b -> sameOrders b c -> sameOrders a c.
Proof. unfold sameOrders. intuition congruence. Qed.

Lemma wellFormed_same (t t' : Tables) :
  sameOrders t t' -> wellFormed t -> wellFormed t'.
Proof.
  intros (Ho & Hi & Hs) [H1 H2 H3 H4].
  constructor; rewrite ?Ho, ?Hi, ?Hs; assumption.
Qed.

Lemma keeps_ret {A} (a : A) : keepsOrders (ret a).
Proof. intros db db' r H. injection H as <- _. split; [apply sameOrders_refl|reflexivity]. Qed.

Lemma keeps_throw {A} : keepsOrders (@throw A).
Proof. intros db db' r H. injection H as <- _. split; [apply sameOrders_refl|reflexivity]. Qed.

Lemma keeps_eval {A} (o : option A) : keepsOrders (eval o).
Proof. intros db db' r H. injection H as <- _. split; [apply sameOrders_refl|reflexivity]. Qed.

Lemma keeps_query {A} (q : Tables -> A) : keepsOrders (query q).
Proof. intros db db' r H. injection H as <- _. split; [apply sameOrders_refl|reflexivity]. Qed.

Lemma keeps_bind {A B} (m : Sql A) (k : A -> Sql B) :
  keepsOrders m -> (forall a, keepsOrders (k a)) -> keepsOrders (bind m k).
Proof.
  intros Hm Hk db db' r. unfold bind.
  destruct (m db) as [db1 [a|]] eqn:E; intros H.
  - destruct (Hm _ _ _ E) as [Hs Hj]. destruct (Hk a _ _ _ H) as [Hs' Hj'].
    split; [exact (sameOrders_trans _ _ _ Hs Hs')|congruence].
  - injection H as <- _. exact (Hm _ _ _ E).
Qed.

Lemma keeps_runAsync (stmt : Tables -> option Tables) :
  (forall t t', stmt t = Some t' -> sameOrders t t') -> keepsOrders (runAsync stmt).
Proof.
  intros Hstmt db db' r. unfold runAsync.
  destruct (stmt (tables db)) as [t'|] eqn:E; intros H; injection H as <- _.
  - split; [exact (Hstmt _ _ E)|reflexivity].
  - split; [apply sameOrders_refl|reflexivity].
Qed.

Lemma insertUser_same (r : UserRow) (t t' : Tables) :
  insertUser r t = Some t' -> sameOrders t t'.
Proof.
  unfold insertUser. destruct (_ || _); [discriminate|].
  intros H. injection H as <-. repeat split.
Qed.

Lemma insertSession_same (r : SessionRow) (t t' : Tables) :
  insertSession r t = Some t' -> sameOrders t t'.
Proof.
  unfold insertSession. destruct (_ || _); [discriminate|].
  intros H. injection H as <-. repeat split.
Qed.

Lemma deleteSession_same (sid : string) (t t' : Tables) :
  deleteSession sid t = Some t' -> sameOrders t t'.
Proof. unfold deleteSession. intros H. injection H as <-. repeat split. Qed.

Ltac keeps :=
  repeat first
    [ apply keeps_ret | apply keeps_throw | apply keeps_eval | apply keeps_query
    | apply keeps_runAsync; first [ apply insertUser_same
                                  | apply insertSession_same
                                  | apply deleteSession_same ]
    | apply keeps_bind; [|intros ?]
    | match goal with
      | |- keepsOrders (if ?b then _ else _) => destruct b
      | |- keepsOrders (match ?o with Some _ => _ | None => _ end) => destruct o
      end ].

Lemma keeps_register (env : Env) (req : Request) : keepsOrders (register_try env req).
Proof. unfold register_try. keeps. Qed.

Lemma keeps_login (env : Env) (req : Request) : keepsOrders (login_try env req).
Proof. unfold login_try. keeps. Qed.

Lemma keeps_logout (req : Request) : keepsOrders (logout_try req).
Proof. unfold logout_try. keeps. Qed.

Lemma keeps_getUser (req : Request) : keepsOrders (getUserFromSession req).
Proof. unfold getUserFromSession. keeps. Qed.

Lemma keeps_currentUser (req : Request) : keepsOrders (currentUser_try req).
Proof. unfold currentUser_try. apply keeps_bind; [apply keeps_getUser|intros ?]. keeps. Qed.

Lemma keeps_listMyOrders (req : Request) : keepsOrders (listMyOrders_try req).
Proof.
  unfold listMyOrders_try. apply keeps_bind; [apply keeps_getUser|intros ?]. keeps.
Qed.

Lemma catch500_keeps (m : Sql Response) (db : Db) :
  keepsOrders m ->
  sameOrders (tables db) (tables (fst (catch500 m db)))
  /\ journal (fst (catch500 m db)) = journal db.
Proof.
  intros Hm. unfold catch500. destruct (m db) as [db' [r|]] eqn:E;
    exact (Hm _ _ _ E).
Qed.

Lemma StronglySorted_snoc (l : list Z) (z : Z) :
  StronglySorted Z.lt l -> Forall (fun x => x < z) l ->
  StronglySorted Z.lt (l ++ [z]).
Proof.
  induction 1 as [|a l Hl IH Ha]; simpl; intros Hz.
  - constructor; constructor.
  - inversion Hz as [|? ? Haz Hlz]; subst.
    constructor; [now apply IH|].
    apply Forall_app. split; [exact Ha|]. constructor; [exact Haz|constructor].
Qed.

Lemma appendItem_wf (orderId : string) (it : Item) (t : Tables) :
  In orderId (List.map o_id (orders t)) ->
  wellFormed t -> wellFormed (appendItem orderId it t).
Proof.
  intros Hin [H1 H2 H3 H4]. constructor; simpl.
  - exact H1.
  - rewrite map_app. simpl. apply StronglySorted_snoc; [exact H2|].
    apply List.Forall_forall. intros x Hx. apply in_map_iff in Hx as (i & <- & Hi).
    rewrite List.Forall_forall in H3. specialize (H3 _ Hi). lia.
  - apply Forall_app. split.
    + eapply List.Forall_impl; [|exact H3]. simpl. intros i Hi. lia.
    + constructor; [simpl; lia|constructor].
  - apply Forall_app. split; [exact H4|].
    constructor; [exact Hin|constructor].
Qed.

Lemma appendItems_wf (orderId : string) (its : list Item) :
  forall t,
    In orderId (List.map o_id (orders t)) ->
    wellFormed t -> wellFormed (appendItems orderId its t).
Proof.
  induction its as [|it rest IH]; intros t Hin Hwf; simpl; [exact Hwf|].
  apply IH; [exact Hin|now apply appendItem_wf].
Qed.

Lemma existsb_id_false (l : list OrderRow) (k : string) :
  existsb (fun o => String.eqb (o_id o) k) l = false ->
  ~ In k (List.map o_id l).
Proof.
  intros H Hin. apply in_map_iff in Hin as (o & E & Ho).
  assert (existsb (fun o => String.eqb (o_id o) k) l = true).
  { apply existsb_exists. exists o. split; [exact Ho|]. now apply String.eqb_eq. }
  congruence.
Qed.

Lemma insertOrder_wf (r : OrderRow) (t t1 : Tables) :
  insertOrder r t = Some t1 -> wellFormed t ->
  wellFormed t1 /\ In (o_id r) (List.map o_id (orders t1)).
Proof.
  intros Hins [H1 H2 H3 H4].
  pose proof (insertOrder_exists _ _ _ Hins) as (_ & _ & _ & Ho & Hi & Hfresh).
  assert (Hseq : order_items_seq t1 = order_items_seq t).
  { unfold insertOrder in Hins. destruct (_ || _); [discriminate|].
    now injection Hins as <-. }
  apply existsb_id_false in Hfresh.
  split.
  - constructor; rewrite ?Ho, ?Hi, ?Hseq; try assumption.
    + rewrite map_app. simpl.
      apply List.NoDup_app; [exact H1| |].
      * constructor; [intros []|constructor].
      * intros x Hx [<-|[]]. contradiction.
    + eapply List.Forall_impl; [|exact H4]. simpl. intros i Hi'.
      rewrite map_app, in_app_iff. now left.
  - rewrite Ho, map_app, in_app_iff. right. now left.
Qed.

(** Placing an order keeps the tables well formed and the journal closed. *)
Lemma placeOrder_wf (env : Env) (req : Request) (db : Db) :
  wellFormed (tables db) -> journal db = None ->
  wellFormed (tables (fst (placeOrder env req db)))
  /\ journal (fst (placeOrder env req db)) = None.
Proof.
  intros Hwf Hj.
  destruct (sqlite_placeOrder_cases env req db)
    as [(r & -> & _)
       | (user & c & its & t1 & _ & _ & _ & _ & _ & _ & _ & Hins & ->)]; cbn.
  - now split.
  - destruct (insertOrder_wf _ _ _ Hins Hwf) as [Hwf1 Hin].
    split; [|reflexivity]. now apply appendItems_wf.
Qed.

Lemma wellFormed_initial : wellFormed (tables Sqlite.initial).
Proof. constructor; simpl; constructor. Qed.

Lemma sqliteHandle_wf (c : Call) (db : Db) :
  wellFormed (tables db) -> journal db = None ->
  wellFormed (tables (fst (sqliteHandle c db)))
  /\ journal (fst (sqliteHandle c db)) = None.
Proof.
  intros Hwf Hj.
  assert (Hkeep : forall m, keepsOrders m ->
            wellFormed (tables (fst (catch500 m db)))
            /\ journal (fst (catch500 m db)) = None).
  { intros m Hm. destruct (catch500_keeps m db Hm) as [Hs Hj'].
    split; [exact (wellFormed_same _ _ Hs Hwf)|congruence]. }
  destruct c; simpl.
  - apply Hkeep, keeps_register.
  - apply Hkeep, keeps_login.
  - apply Hkeep, keeps_logout.
  - apply Hkeep, keeps_currentUser.
  - now apply placeOrder_wf.
  - apply Hkeep, keeps_listMyOrders.
Qed.

(** In every state the SQLite variant reaches from the empty database, order
    ids are pairwise distinct, item rows are in rowid order and belong to an
    order, and no transaction is open. *)
Theorem sqlite_reachable_wellFormed (calls : list Call) :
  wellFormed (tables (sqliteRun calls Sqlite.initial))
  /\ journal (sqliteRun calls Sqlite.initial) = None.
Proof.
  unfold sqliteRun.
  assert (H : forall db, wellFormed (tables db) -> journal db = None ->
            wellFormed (tables (fold_left (fun d c => fst (sqliteHandle c d)) calls db))
            /\ journal (fold_left (fun d c => fst (sqliteHandle c d)) calls db) = None).
  { induction calls as [|c calls IH]; intros db Hwf Hj; simpl; [now split|].
    destruct (sqliteHandle_wf c db Hwf Hj) as [Hwf' Hj']. now apply IH. }
  apply H; [apply wellFormed_initial|reflexivity].
Qed.

End SqliteInvariant.

(** ** Requests without a valid session *)

Section Unauthenticated.

(** In the SQLite variant the three protected handlers answer 401 and leave
    the database alone whenever the join of session and user finds no row. *)
Lemma sqlite_unauthenticated (env : Env) (req : Request) (db : Sqlite.Db) :
  Sqlite.sessionUser req (Sqlite.tables db) = None ->
  Sqlite.currentUser req db = (db, notAuthenticated)
  /\ Sqlite.placeOrder env req db = (db, notAuthenticated)
  /\ Sqlite.listMyOrders req db = (db, notAuthenticated).
Proof.
  intros H. repeat split.
  - unfold Sqlite.currentUser, Sqlite.catch500, Sqlite.currentUser_try.
    rewrite (SqlFacts.bind_ok _ _ _ _ _ (getUserFromSession_run req db)).
    now rewrite H.
  - unfold Sqlite.placeOrder, Sqlite.catch500, Sqlite.placeOrder_try.
    rewrite (SqlFacts.bind_ok _ _ _ _ _ (getUserFromSession_run req db)).
    now rewrite H.
  - rewrite sqlite_listMyOrders_run. now rewrite H.
Qed.

(** No cookie, no session row under the cookie, or no user row for the
    session: the join is empty. *)
Lemma sqlite_no_session_user (req : Request) (t : Sqlite.Tables) :
  cookieSid req = None
  \/ (exists sid,
        cookieSid req = Some sid
        /\ forall s, In s (Sqlite.sessions t) -> Sqlite.s_id s = sid ->
             forall u, In u (Sqlite.users t) ->
               Sqlite.u_id u <> Sqlite.s_user_id s) ->
  Sqlite.sessionUser req t = None.
Proof.
  unfold Sqlite.sessionUser. intros [->|(sid & -> & H)]; [reflexivity|].
  unfold Sqlite.selectSessionUser.
  destruct (flat_map _ _) as [|u l] eqn:E; [reflexivity|].
  assert (Hu : In u (u :: l)) by now left. rewrite <- E in Hu.
  apply in_flat_map in Hu as (s & Hs & Hu).
  apply filter_In in Hs as [Hs Es]. apply String.eqb_eq in Es.
  apply filter_In in Hu as [Hu Eu]. apply String.eqb_eq in Eu.
  exfalso. exact (H s Hs Es u Hu Eu).
Qed.

(** In the JSON-file variant [GET /auth/me] and [POST /orders] do the same. *)
Lemma json_unauthenticated (env : Env) (req : Request) (db : JsonFile.Db) :
  JsonFile.getUserFromSession req db = None ->
  JsonFile.currentUser req db = (db, notAuthenticated)
  /\ JsonFile.placeOrder env req db = (db, notAuthenticated).
Proof.
  intros H. split.
  - unfold JsonFile.currentUser. now rewrite H.
  - unfold JsonFile.placeOrder, JsonFile.placeOrder_try.
    unfold JsonFile.getUserFromSession in H.
    destruct (cookieSid req) as [sid|]; [|reflexivity].
    destruct (JsonFile.sessionSlot db sid); try reflexivity; now rewrite H.
Qed.

(** [GET /orders/me] of the JSON-file variant answers 401 only when the
    session look-up itself finds nothing. *)
Lemma json_listMyOrders_401 (req : Request) (db : JsonFile.Db) :
  JsonFile.listMyOrders req db = (db, notAuthenticated)
  <-> cookieSid req = None
      \/ exists sid, cookieSid req = Some sid
                     /\ JsonFile.sessionSlot db sid = JsonFile.Missing.
Proof.
  unfold JsonFile.listMyOrders.
  destruct (cookieSid req) as [sid|]; [|intuition].
  destruct (JsonFile.sessionSlot db sid) eqn:E; split; intros H;
    try discriminate; try reflexivity.
  - destruct H as [H|(sid' & H & H')]; [discriminate|].
    injection H as <-. congruence.
  - destruct H as [H|(sid' & H & H')]; [discriminate|].
    injection H as <-. congruence.
  - right. now exists sid.
Qed.

End Unauthenticated.

(** ** The customer and item checks of an order *)

(** For an authenticated request, a customer without a truthy [name],
    [phone] or [address], or an empty list of items, is answered 400 and
    nothing is stored, in both variants. *)
Lemma placeOrder_missing_field_is_400
    (env : Env) (req : Request)
    (jdb : JsonFile.Db) (ju : JsonFile.User)
    (sdb : Sqlite.Db) (su : Sqlite.UserRow) :
  JsonFile.getUserFromSession req jdb = Some ju ->
  Sqlite.sessionUser req (Sqlite.tables sdb) = Some su ->
  customerMissing (reqCustomer req) = true \/ reqItems req = [] ->
  (exists msg, JsonFile.placeOrder env req jdb = (jdb, respond 400 (BError msg)))
  /\ (exists msg, Sqlite.placeOrder env req sdb = (sdb, respond 400 (BError msg))).
Proof.
  intros Hju Hsu Hbad. split.
  - unfold JsonFile.placeOrder, JsonFile.placeOrder_try.
    unfold JsonFile.getUserFromSession in Hju.
    destruct (cookieSid req) as [sid|]; [|discriminate].
    destruct (JsonFile.sessionSlot jdb sid) eqn:E; cbn in Hju |- *.
    all: try discriminate.
    all: rewrite Hju.
    all: destruct (customerMissing (reqCustomer req)); [eexists; reflexivity|].
    all: destruct Hbad as [Hbad|Hbad]; [discriminate|].
    all: rewrite Hbad; eexists; reflexivity.
  - unfold Sqlite.placeOrder, Sqlite.catch500, Sqlite.placeOrder_try.
    rewrite (SqlFacts.bind_ok _ _ _ _ _ (getUserFromSession_run req sdb)), Hsu.
    destruct (customerMissing (reqCustomer req)); [eexists; reflexivity|].
    destruct Hbad as [Hbad|Hbad]; [discriminate|].
    rewrite Hbad. eexists. reflexivity.
Qed.

(** ** An order placed is an order listed *)

Section RoundTrip.

(** In the JSON-file variant the order of a 201 answer is among the orders
    the same session lists afterwards, as it was answered. *)
Lemma json_placed_is_listed (env : Env) (req : Request) (db : JsonFile.Db) :
  status (snd (JsonFile.placeOrder env req db)) = 201 ->
  exists v views,
    snd (JsonFile.placeOrder env req db) = respond 201 (BOrder v)
    /\ JsonFile.listMyOrders req (fst (JsonFile.placeOrder env req db))
       = (fst (JsonFile.placeOrder env req db), respond 200 (BOrders views))
    /\ In v views.
Proof.
  intros Hst.
  destruct (json_placeOrder_cases env req db)
    as [(r & Hrun & Hr) | (user & c & its & Huser & _ & _ & _ & _ & Hrun)].
  { rewrite Hrun in Hst. contradiction. }
  cbv zeta in Hrun. rewrite Hrun. cbn [fst snd].
  destruct (json_session_of_user _ _ _ Huser) as (sid & s & Hsid & Hslot & Hid).
  eexists. eexists. split; [reflexivity|].
  unfold JsonFile.listMyOrders. rewrite Hsid.
  unfold JsonFile.sessionSlot in *. cbn [JsonFile.sessions].
  destruct (JsonFile.sessions db !! sid) as [s'|]; [|destruct (existsb _ _); discriminate].
  injection Hslot as ->. cbn [JsonFile.slotUserId JsonFile.orders].
  split; [reflexivity|].
  apply in_map. apply filter_In. split.
  - apply in_app_iff. right. now left.
  - cbn. rewrite Hid. apply String.eqb_refl.
Qed.

Import Sqlite Listing.

Lemma sessionUser_same (req : Request) (t t' : Tables) :
  users t' = users t -> sessions t' = sessions t ->
  sessionUser req t' = sessionUser req t.
Proof.
  intros Hu Hs. unfold sessionUser, selectSessionUser. now rewrite Hu, Hs.
Qed.

Lemma sessionUser_In (req : Request) (t : Tables) (u : UserRow) :
  sessionUser req t = Some u -> In u (users t).
Proof.
  unfold sessionUser, selectSessionUser.
  destruct (cookieSid req); [|discriminate].
  destruct (flat_map _ _) as [|u' l] eqn:E; [discriminate|].
  intros H. injection H as ->.
  assert (Hu : In u (u :: l)) by now left. rewrite <- E in Hu.
  apply in_flat_map in Hu as (row & _ & Hu). now apply filter_In in Hu as [Hu _].
Qed.

(** In the SQLite variant the same holds when every item has a product id. *)
Lemma sqlite_placed_is_listed (env : Env) (req : Request) (db : Db) :
  wellFormed (tables db) ->
  Forall (fun i => oi_product_id i <> "") (order_items (tables db)) ->
  status (snd (placeOrder env req db)) = 201 ->
  exists v,
    snd (placeOrder env req db) = respond 201 (BOrder v)
    /\ (Forall (fun it => item_id it <> "") (ov_items v) ->
        exists views,
          listMyOrders req (fst (placeOrder env req db))
            = (fst (placeOrder env req db), respond 200 (BOrders views))
          /\ In v views).
Proof.
  intros Hwf Hpid Hst.
  destruct (sqlite_placeOrder_cases env req db)
    as [(r & Hrun & Hr)
       | (user & c & its & t1 & _ & Huser & _ & _ & _ & _ & _ & Hins & Hrun)].
  { rewrite Hrun in Hst. contradiction. }
  rewrite Hrun. cbn [fst snd].
  set (t' := appendItems (orderIdOf env) its t1).
  set (o := {| o_id := orderIdOf env; o_user_id := u_id user;
               o_created_at := toISOString_1 env; o_customer := c |}) in *.
  destruct (insertOrder_exists _ _ _ Hins) as (_ & Hu & Hs & Ho & Hi & Hfresh).
  destruct (insertOrder_wf _ _ _ Hins Hwf) as [Hwf1 Hin1].
  destruct (appendItems_frame (orderIdOf env) its t1) as (Hu' & Hs' & Ho').
  destruct (appendItems_rows (orderIdOf env) its t1) as (rows & Hrows & Hmap & Hall).
  fold t' in Hu', Hs', Ho', Hrows.
  assert (Hwf' : wellFormed t') by now apply appendItems_wf.
  assert (Huser' : sessionUser req t' = Some user).
  { rewrite <- Huser. apply sessionUser_same; congruence. }
  assert (Hitems : itemsOfOrder t' (orderIdOf env) = rows).
  { unfold itemsOfOrder. rewrite Hrows, Hi, List.filter_app.
    rewrite filter_none, filter_all; [reflexivity| |].
    - intros x Hx. rewrite List.Forall_forall in Hall.
      rewrite (Hall x Hx). apply String.eqb_refl.
    - intros x Hx. apply String.eqb_neq. intros E.
      destruct Hwf as [_ _ _ Hfk]. rewrite List.Forall_forall in Hfk.
      specialize (Hfk x Hx). rewrite E in Hfk.
      exact (existsb_id_false _ _ Hfresh Hfk). }
  eexists. split; [reflexivity|]. cbn [ov_items]. intros Hids.
  assert (Hpid' : Forall (fun i => oi_product_id i <> "") (order_items t')).
  { rewrite Hrows, Hi. apply Forall_app. split; [exact Hpid|].
    rewrite <- Hmap in Hids. clear -Hids.
    induction rows as [|r rows IH]; [constructor|].
    simpl in Hids. inversion Hids; subst. constructor; [assumption|now apply IH]. }
  destruct (sqlite_listing req {| tables := t'; journal := None |} user
              Huser' Hwf' Hpid') as (views & Hlist & Hperm & _).
  exists views. split; [exact Hlist|].
  apply (Permutation_in _ (Permutation_sym Hperm)).
  apply in_map_iff. exists o. split.
  - unfold viewOfOrder. cbn [o_id o_created_at o_customer o tables].
    rewrite Hitems, Hmap. reflexivity.
  - unfold userOrders. apply filter_In. cbn [tables]. split.
    + rewrite Ho', Ho. apply in_app_iff. right. now left.
    + cbn. apply String.eqb_refl.
Qed.

End RoundTrip.

(** ** Trimming and lower-casing *)

Section Normalising.

Lemma trimStart_clean (s : string) : startsClean (trimStart s).
Proof.
  induction s as [|c s IH]; simpl; [exact I|].
  destruct (isWhite c) eqn:E; [exact IH|exact E].
Qed.

Lemma trimStart_of_clean (s : string) : startsClean s -> trimStart s = s.
Proof. destruct s as [|c s]; simpl; [reflexivity|]. now intros ->. Qed.

Lemma trimEnd_clean (s : string) : startsClean s -> startsClean (trimEnd s).
Proof.
  destruct s as [|c s]; simpl; [auto|]. intros E. rewrite E. simpl. exact E.
Qed.

Lemma trimEnd_idem (s : string) : trimEnd (trimEnd s) = trimEnd s.
Proof.
  induction s as [|c s IH]; simpl; [reflexivity|].
  destruct (isWhite c && String.eqb (trimEnd s) "") eqn:E; [reflexivity|].
  simpl. now rewrite IH, E.
Qed.

Lemma trim_idem (s : string) : trim (trim s) = trim s.
Proof.
  unfold trim.
  rewrite (trimStart_of_clean (trimEnd (trimStart s)))
    by apply trimEnd_clean, trimStart_clean.
  apply trimEnd_idem.
Qed.

Lemma isWhite_lowerChar (c : ascii) : isWhite (lowerChar c) = isWhite c.
Proof. destruct c as [[] [] [] [] [] [] [] []]; reflexivity. Qed.

Lemma lowerChar_idem (c : ascii) : lowerChar (lowerChar c) = lowerChar c.
Proof. destruct c as [[] [] [] [] [] [] [] []]; reflexivity. Qed.

Lemma toLowerCase_idem (s : string) : toLowerCase (toLowerCase s) = toLowerCase s.
Proof.
  induction s as [|c s IH]; simpl; [reflexivity|].
  now rewrite lowerChar_idem, IH.
Qed.

Lemma trimStart_lower (s : string) :
  trimStart (toLowerCase s) = toLowerCase (trimStart s).
Proof.
  induction s as [|c s IH]; simpl; [reflexivity|].
  rewrite isWhite_lowerChar. destruct (isWhite c); [exact IH|reflexivity].
Qed.

Lemma trimEnd_lower (s : string) :
  trimEnd (toLowerCase s) = toLowerCase (trimEnd s).
Proof.
  induction s as [|c s IH]; simpl; [reflexivity|].
  rewrite isWhite_lowerChar, IH.
  change (String.eqb (toLowerCase (trimEnd s)) "")
    with (isEmpty (toLowerCase (trimEnd s))).
  rewrite isEmpty_toLowerCase. unfold isEmpty.
  destruct (isWhite c && String.eqb (trimEnd s) ""); reflexivity.
Qed.

Lemma trim_lower (s : string) : trim (toLowerCase s) = toLowerCase (trim s).
Proof. unfold trim. now rewrite trimStart_lower, trimEnd_lower. Qed.

(** What [reqEmail] produces is a fixed point of itself. *)
Lemma normalised_is_normal (s : string) :
  toLowerCase (trim (toLowerCase (trim s))) = toLowerCase (trim s).
Proof. now rewrite trim_lower, trim_idem, toLowerCase_idem. Qed.

End Normalising.

(** ** Every way a handler can end *)

Section Outcomes.

Lemma respond_isError (code : Z) (msg : string) :
  code = 400 \/ code = 401 \/ code = 409 \/ code = 500 ->
  isError (respond code (BError msg)).
Proof. intros H. repeat split; [exact H|now exists msg]. Qed.

Lemma not_empty (s : string) : isEmpty s = false -> s <> "".
Proof. apply isEmpty_false. Qed.

(** Registration in the JSON-file variant: an error answer and the store as
    it was, or a new user and a session for it. *)
Lemma json_register_cases (env : Env) (req : Request) (db : JsonFile.Db) :
  (exists code msg,
      JsonFile.register env req db = (db, respond code (BError msg))
      /\ (code = 400 \/ code = 409 \/ code = 500))
  \/ (exists n e p,
        reqName req = Some n /\ reqEmail req = Some e /\ reqPassword req = Some p
        /\ n <> "" /\ e <> "" /\ p <> ""
        /\ existsb (fun u => String.eqb (JsonFile.user_email u) e)
             (JsonFile.users db) = false
        /\ JsonFile.register env req db
           = (JsonFile.addSession
                {| JsonFile.users := JsonFile.users db ++ [newJsonUser env n e p];
                   JsonFile.sessions := JsonFile.sessions db;
                   JsonFile.orders := JsonFile.orders db |}
                (randomUUID_2 env) (randomUUID_1 env) (toISOString_2 env),
              setCookie 201 (BUser (JsonFile.sanitizeUser (newJsonUser env n e p)))
                (randomUUID_2 env))).
Proof.
  destruct (reqName req) as [n|] eqn:Hn.
  2:{ left. exists 500, "internal server error". split; [|auto].
      unfold JsonFile.register, JsonFile.register_try. now rewrite Hn. }
  destruct (reqEmail req) as [e|] eqn:He.
  2:{ left. exists 500, "internal server error". split; [|auto].
      unfold JsonFile.register, JsonFile.register_try. now rewrite Hn, He. }
  destruct (reqPassword req) as [p|] eqn:Hp.
  2:{ left. exists 500, "internal server error". split; [|auto].
      unfold JsonFile.register, JsonFile.register_try. now rewrite Hn, He, Hp. }
  rewrite (json_register_steps env req n e p Hn He Hp).
  destruct (isEmpty n) eqn:En; [left; do 2 eexists; split; [reflexivity|auto]|].
  destruct (isEmpty e) eqn:Ee; [left; do 2 eexists; split; [reflexivity|auto]|].
  destruct (isEmpty p) eqn:Ep; [left; do 2 eexists; split; [reflexivity|auto]|].
  cbn [orb].
  destruct (existsb _ _) eqn:Hex; [left; do 2 eexists; split; [reflexivity|auto]|].
  right. exists n, e, p. repeat split; try (now apply not_empty); assumption.
Qed.

(** Registration in the SQLite variant has a third way to end: the user row
    inserted and the session row refused. *)
Lemma sqlite_register_cases (env : Env) (req : Request) (db : Sqlite.Db) :
  (exists code msg,
      Sqlite.register env req db = (db, respond code (BError msg))
      /\ (code = 400 \/ code = 409 \/ code = 500))
  \/ (exists n e p t1,
        reqName req = Some n /\ reqEmail req = Some e /\ reqPassword req = Some p
        /\ n <> "" /\ e <> "" /\ p <> ""
        /\ Sqlite.selectUserByEmail e (Sqlite.tables db) = None
        /\ Sqlite.insertUser (newSqliteUser env n e p) (Sqlite.tables db) = Some t1
        /\ ((Sqlite.insertSession
               {| Sqlite.s_id := randomUUID_2 env;
                  Sqlite.s_user_id := randomUUID_1 env;
                  Sqlite.s_created_at := toISOString_2 env |} t1 = None
             /\ Sqlite.register env req db
                = ({| Sqlite.tables := t1; Sqlite.journal := Sqlite.journal db |},
                   internalError))
            \/ (exists t2,
                  Sqlite.insertSession
                    {| Sqlite.s_id := randomUUID_2 env;
                       Sqlite.s_user_id := randomUUID_1 env;
                       Sqlite.s_created_at := toISOString_2 env |} t1 = Some t2
                  /\ Sqlite.register env req db
                     = ({| Sqlite.tables := t2;
                           Sqlite.journal := Sqlite.journal db |},
                        setCookie 201
                          (BUser (Sqlite.sanitizeUser (newSqliteUser env n e p)))
                          (randomUUID_2 env))))).
Proof.
  destruct (reqName req) as [n|] eqn:Hn.
  2:{ left. exists 500, "internal server error". split; [|auto].
      unfold Sqlite.register, Sqlite.catch500, Sqlite.register_try.
      now rewrite Hn, SqlFacts.bind_eval. }
  destruct (reqEmail req) as [e|] eqn:He.
  2:{ left. exists 500, "internal server error". split; [|auto].
      unfold Sqlite.register, Sqlite.catch500, Sqlite.register_try.
      now rewrite Hn, He, !SqlFacts.bind_eval. }
  destruct (reqPassword req) as [p|] eqn:Hp.
  2:{ left. exists 500, "internal server error". split; [|auto].
      unfold Sqlite.register, Sqlite.catch500, Sqlite.register_try.
      now rewrite Hn, He, Hp, !SqlFacts.bind_eval. }
  rewrite (sqlite_register_steps env req n e p Hn He Hp).
  destruct (isEmpty n) eqn:En; [left; do 2 eexists; split; [reflexivity|auto]|].
  destruct (isEmpty e) eqn:Ee; [left; do 2 eexists; split; [reflexivity|auto]|].
  destruct (isEmpty p) eqn:Ep; [left; do 2 eexists; split; [reflexivity|auto]|].
  cbn [orb].
  destruct (Sqlite.selectUserByEmail e (Sqlite.tables db)) eqn:Hsel;
    [left; do 2 eexists; split; [reflexivity|auto]|].
  cbv zeta. fold (newSqliteUser env n e p).
  destruct (Sqlite.insertUser _ _) as [t1|] eqn:Hu;
    [|left; do 2 eexists; split; [reflexivity|auto]].
  right. exists n, e, p, t1.
  do 8 (split; [first [assumption|now apply not_empty|reflexivity]|]).
  destruct (Sqlite.insertSession _ t1) as [t2|] eqn:Hs.
  - right. exists t2. now split.
  - left. now split.
Qed.

Lemma loginFields_or_400 (req : Request) :
  (exists e p, loginFields req e p)
  \/ reqEmail req = None
  \/ (exists e, reqEmail req = Some e /\ reqPassword req = None)
  \/ (exists e p, reqEmail req = Some e /\ reqPassword req = Some p
                  /\ isEmpty e || isEmpty p = true).
Proof.
  destruct (reqEmail req) as [e|] eqn:He; [|auto].
  destruct (reqPassword req) as [p|] eqn:Hp; [|right; right; left; eauto].
  destruct (isEmpty e || isEmpty p) eqn:E.
  - right. right. right. eauto.
  - left. exists e, p. apply orb_false_iff in E as [E1 E2].
    repeat split; try assumption; now apply not_empty.
Qed.

Lemma json_login_cases (env : Env) (req : Request) (db : JsonFile.Db) :
  (exists code msg,
      JsonFile.login env req db = (db, respond code (BError msg))
      /\ (code = 400 \/ code = 401 \/ code = 500))
  \/ (exists e p user,
        loginFields req e p
        /\ JsonFile.findUserByEmail db e = Some user
        /\ bcrypt_compare env p (JsonFile.user_passwordHash user) = true
        /\ JsonFile.login env req db
           = (JsonFile.addSession db (randomUUID_1 env) (JsonFile.user_id user)
                (toISOString_1 env),
              setCookie 200 (BUser (JsonFile.sanitizeUser user)) (randomUUID_1 env))).
Proof.
  destruct (loginFields_or_400 req)
    as [(e & p & Hf) | [He | [(e & He & Hp) | (e & p & He & Hp & Hempty)]]].
  - rewrite (json_login_steps env req e p Hf).
    destruct (JsonFile.findUserByEmail db e) as [user|] eqn:Hu.
    + destruct (bcrypt_compare env p _) eqn:Hc.
      * right. exists e, p, user. split; [exact Hf|]. repeat split; auto.
      * left. do 2 eexists. split; [reflexivity|auto].
    + left. do 2 eexists. split; [reflexivity|auto].
  - left. exists 500, "internal server error". split; [|auto].
    unfold JsonFile.login, JsonFile.login_try. now rewrite He.
  - left. exists 500, "internal server error". split; [|auto].
    unfold JsonFile.login, JsonFile.login_try. now rewrite He, Hp.
  - left. do 2 eexists. split; [|left; reflexivity].
    unfold JsonFile.login, JsonFile.login_try. rewrite He, Hp.
    cbn [mbind option_bind]. now rewrite Hempty.
Qed.

Lemma sqlite_login_cases (env : Env) (req : Request) (db : Sqlite.Db) :
  (exists code msg,
      Sqlite.login env req db = (db, respond code (BError msg))
      /\ (code = 400 \/ code = 401 \/ code = 500))
  \/ (exists e p user t,
        loginFields req e p
        /\ Sqlite.selectUserByEmail e (Sqlite.tables db) = Some user
        /\ bcrypt_compare env p (Sqlite.u_password_hash user) = true
        /\ Sqlite.insertSession
             {| Sqlite.s_id := randomUUID_1 env;
                Sqlite.s_user_id := Sqlite.u_id user;
                Sqlite.s_created_at := toISOString_1 env |}
             (Sqlite.tables db) = Some t
        /\ Sqlite.login env req db
           = ({| Sqlite.tables := t; Sqlite.journal := Sqlite.journal db |},
              setCookie 200 (BUser (Sqlite.sanitizeUser user)) (randomUUID_1 env))).
Proof.
  destruct (loginFields_or_400 req)
    as [(e & p & Hf) | [He | [(e & He & Hp) | (e & p & He & Hp & Hempty)]]].
  - rewrite (sqlite_login_steps env req e p Hf).
    destruct (Sqlite.selectUserByEmail e (Sqlite.tables db)) as [user|] eqn:Hu.
    + destruct (bcrypt_compare env p _) eqn:Hc.
      * destruct (Sqlite.insertSession _ _) as [t|] eqn:Hs.
        -- right. exists e, p, user, t. split; [exact Hf|]. repeat split; auto.
        -- left. do 2 eexists. split; [reflexivity|auto].
      * left. do 2 eexists. split; [reflexivity|auto].
    + left. do 2 eexists. split; [reflexivity|auto].
  - left. exists 500, "internal server error". split; [|auto].
    unfold Sqlite.login, Sqlite.catch500, Sqlite.login_try.
    now rewrite He, SqlFacts.bind_eval.
  - left. exists 500, "internal server error". split; [|auto].
    unfold Sqlite.login, Sqlite.catch500, Sqlite.login_try.
    now rewrite He, Hp, !SqlFacts.bind_eval.
  - left. do 2 eexists. split; [|left; reflexivity].
    unfold Sqlite.login, Sqlite.catch500, Sqlite.login_try.
    rewrite He, Hp, !SqlFacts.bind_eval. now rewrite Hempty.
Qed.

(** Placing an order: an error answer and the store as it was, or 201. *)
Lemma json_placeOrder_error (env : Env) (req : Request) (db : JsonFile.Db) :
  status (snd (JsonFile.placeOrder env req db)) <> 201 ->
  exists code msg,
    JsonFile.placeOrder env req db = (db, respond code (BError msg))
    /\ (code = 400 \/ code = 401 \/ code = 500).
Proof.
  unfold JsonFile.placeOrder, JsonFile.catch500, JsonFile.placeOrder_try.
  destruct (cookieSid req) as [sid|];
    [|intros _; do 2 eexists; split; [reflexivity|auto]].
  assert (Hno : exists code msg,
             (db, notAuthenticated) = (db, respond code (BError msg))
             /\ (code = 400 \/ code = 401 \/ code = 500))
    by (do 2 eexists; split; [reflexivity|auto]).
  destruct (JsonFile.sessionSlot db sid) as [s| |];
    cbn [JsonFile.slotUserId JsonFile.findUserById]; try (intros _; exact Hno).
  destruct (List.find _ (JsonFile.users db)) as [user|]; [|intros _; exact Hno].
  destruct (customerMissing (reqCustomer req));
    [intros _; do 2 eexists; split; [reflexivity|auto]|].
  destruct (length (reqItems req) =? 0)%nat;
    [intros _; do 2 eexists; split; [reflexivity|auto]|].
  destruct (customerOf (reqCustomer req)) as [c|];
    [|intros _; do 2 eexists; split; [reflexivity|auto]].
  destruct (itemsOf env (reqItems req)) as [its|];
    [|intros _; do 2 eexists; split; [reflexivity|auto]].
  cbn. intros H. now contradiction H.
Qed.

Lemma sqlite_placeOrder_error (env : Env) (req : Request) (db : Sqlite.Db) :
  status (snd (Sqlite.placeOrder env req db)) <> 201 ->
  exists code msg,
    Sqlite.placeOrder env req db = (db, respond code (BError msg))
    /\ (code = 400 \/ code = 401 \/ code = 500).
Proof.
  unfold Sqlite.placeOrder, Sqlite.catch500, Sqlite.placeOrder_try.
  rewrite (SqlFacts.bind_ok _ _ _ _ _ (getUserFromSession_run req db)).
  destruct (Sqlite.sessionUser req (Sqlite.tables db)) as [user|];
    [|intros _; do 2 eexists; split; [reflexivity|auto]].
  destruct (customerMissing (reqCustomer req));
    [intros _; do 2 eexists; split; [reflexivity|auto]|].
  destruct (length (reqItems req) =? 0)%nat;
    [intros _; do 2 eexists; split; [reflexivity|auto]|].
  destruct db as [t j]. destruct j as [t0|];
    [intros _; do 2 eexists; split; [reflexivity|auto]|].
  assert (Hbegin : Sqlite.beginTransaction
                     {| Sqlite.tables := t; Sqlite.journal := None |}
                   = ({| Sqlite.tables := t; Sqlite.journal := Some t |}, Some tt))
    by reflexivity.
  rewrite (SqlFacts.bind_ok _ _ _ _ _ Hbegin).
  destruct (orderStatements_cases env user (reqCustomer req) (reqItems req) t t)
    as [(c & its & t1 & Hc & Hits & _ & _ & Hrun) | (t' & Hrun)].
  - assert (Htry : Sqlite.tryCatch
                     (Sqlite.orderStatements env user (reqCustomer req) (reqItems req))
                     (Sqlite.bind Sqlite.rollback (fun _ => Sqlite.throw))
                     {| Sqlite.tables := t; Sqlite.journal := Some t |}
                   = ({| Sqlite.tables := Sqlite.appendItems (orderIdOf env) its t1;
                         Sqlite.journal := None |}, Some tt)).
    { unfold Sqlite.tryCatch. now rewrite Hrun. }
    rewrite (SqlFacts.bind_ok _ _ _ _ _ Htry).
    rewrite !SqlFacts.bind_eval, Hc, Hits. cbn. intros H. now contradiction H.
  - assert (Htry : Sqlite.tryCatch
                     (Sqlite.orderStatements env user (reqCustomer req) (reqItems req))
                     (Sqlite.bind Sqlite.rollback (fun _ => Sqlite.throw))
                     {| Sqlite.tables := t; Sqlite.journal := Some t |}
                   = ({| Sqlite.tables := t; Sqlite.journal := None |}, None)).
    { unfold Sqlite.tryCatch. now rewrite Hrun. }
    rewrite (SqlFacts.bind_throw _ _ _ _ Htry).
    intros _. do 2 eexists. split; [reflexivity|auto].
Qed.

End Outcomes.

(** ** Logging out *)

Section Logout.

Lemma json_logout_run (req : Request) (db : JsonFile.Db) :
  JsonFile.logout req db
  = (match cookieSid req with
     | None => db
     | Some sid =>
         {| JsonFile.users := JsonFile.users db;
            JsonFile.sessions := delete sid (JsonFile.sessions db);
            JsonFile.orders := JsonFile.orders db |}
     end, loggedOut).
Proof. unfold JsonFile.logout. now destruct (cookieSid req). Qed.

Lemma sqlite_logout_run (req : Request) (db : Sqlite.Db) :
  Sqlite.logout req db
  = ({| Sqlite.tables :=
          match cookieSid req with
          | None => Sqlite.tables db
          | Some sid =>
              {| Sqlite.users := Sqlite.users (Sqlite.tables db);
                 Sqlite.sessions :=
                   List.filter (fun s => negb (String.eqb (Sqlite.s_id s) sid))
                     (Sqlite.sessions (Sqlite.tables db));
                 Sqlite.orders := Sqlite.orders (Sqlite.tables db);
                 Sqlite.order_items := Sqlite.order_items (Sqlite.tables db);
                 Sqlite.order_items_seq := Sqlite.order_items_seq (Sqlite.tables db) |}
          end;
        Sqlite.journal := Sqlite.journal db |}, loggedOut).
Proof.
  unfold Sqlite.logout, Sqlite.catch500, Sqlite.logout_try.
  destruct (cookieSid req); [reflexivity|]. now destruct db.
Qed.

Lemma sqlite_currentUser_run (req : Request) (db : Sqlite.Db) :
  Sqlite.currentUser req db
  = (db, match Sqlite.sessionUser req (Sqlite.tables db) with
         | None => notAuthenticated
         | Some user => respond 200 (BUser (Sqlite.sanitizeUser user))
         end).
Proof.
  unfold Sqlite.currentUser, Sqlite.catch500, Sqlite.currentUser_try.
  rewrite (SqlFacts.bind_ok _ _ _ _ _ (getUserFromSession_run req db)).
  now destruct (Sqlite.sessionUser req (Sqlite.tables db)).
Qed.

Lemma filter_filter_negb {A} (f : A -> bool) (l : list A) :
  List.filter f (List.filter (fun x => negb (f x)) l) = [].
Proof.
  induction l as [|a l IH]; simpl; [reflexivity|].
  destruct (f a) eqn:E; simpl; [exact IH|]. now rewrite E.
Qed.

Lemma filter_filter_other (sid sid' : string) (l : list Sqlite.SessionRow) :
  sid' <> sid ->
  List.filter (fun s => String.eqb (Sqlite.s_id s) sid')
    (List.filter (fun s => negb (String.eqb (Sqlite.s_id s) sid)) l)
  = List.filter (fun s => String.eqb (Sqlite.s_id s) sid') l.
Proof.
  intros Hne. induction l as [|a l IH]; simpl; [reflexivity|].
  destruct (String.eqb (Sqlite.s_id a) sid) eqn:E; simpl.
  - apply String.eqb_eq in E.
    destruct (String.eqb (Sqlite.s_id a) sid') eqn:E'; [|exact IH].
    apply String.eqb_eq in E'. congruence.
  - now rewrite IH.
Qed.

Lemma filter_idem {A} (f : A -> bool) (l : list A) :
  List.filter f (List.filter f l) = List.filter f l.
Proof.
  induction l as [|a l IH]; simpl; [reflexivity|].
  destruct (f a) eqn:E; simpl; rewrite ?E, IH; reflexivity.
Qed.

(** X1: a session that has been logged out opens nothing.  After
    [POST /auth/logout] with a cookie, the three protected handlers answer a
    request with that cookie 401 and leave the store alone, in both variants;
    for [GET /orders/me] of the JSON-file variant this holds when the cookie
    is not the name of a property every object inherits. *)
Theorem logout_revokes_session
    (env : Env) (out req : Request) (sid : string)
    (jdb : JsonFile.Db) (sdb : Sqlite.Db) :
  cookieSid out = Some sid ->
  cookieSid req = Some sid ->
  let jdb' := fst (JsonFile.logout out jdb) in
  let sdb' := fst (Sqlite.logout out sdb) in
  (JsonFile.currentUser req jdb' = (jdb', notAuthenticated)
   /\ JsonFile.placeOrder env req jdb' = (jdb', notAuthenticated)
   /\ (~ In sid JsonFile.objectPrototypeKeys ->
       JsonFile.listMyOrders req jdb' = (jdb', notAuthenticated)))
  /\ (Sqlite.currentUser req sdb' = (sdb', notAuthenticated)
      /\ Sqlite.placeOrder env req sdb' = (sdb', notAuthenticated)
      /\ Sqlite.listMyOrders req sdb' = (sdb', notAuthenticated)).
Proof.
  intros Hout Hreq jdb' sdb'. subst jdb' sdb'.
  rewrite json_logout_run, sqlite_logout_run, Hout. cbn [fst].
  set (jdb' := {| JsonFile.users := _ |}).
  set (sdb' := {| Sqlite.tables := _ |}).
  assert (Hslot : JsonFile.sessionSlot jdb' sid <> JsonFile.Missing ->
                  JsonFile.sessionSlot jdb' sid = JsonFile.Inherited).
  { unfold JsonFile.sessionSlot. cbn [JsonFile.sessions jdb'].
    rewrite lookup_delete_eq. now destruct (existsb _ _). }
  assert (Hnone : JsonFile.getUserFromSession req jdb' = None).
  { unfold JsonFile.getUserFromSession. rewrite Hreq.
    destruct (JsonFile.sessionSlot jdb' sid) eqn:E; [|reflexivity..].
    exfalso. assert (JsonFile.Own s = JsonFile.Inherited) by (apply Hslot; discriminate).
    discriminate. }
  split.
  - destruct (json_unauthenticated env req jdb' Hnone) as [H1 H2].
    split; [exact H1|]. split; [exact H2|].
    intros Hkey. apply json_listMyOrders_401. right. exists sid.
    split; [exact Hreq|].
    unfold JsonFile.sessionSlot. cbn [JsonFile.sessions jdb'].
    rewrite lookup_delete_eq.
    destruct (existsb _ _) eqn:E; [|reflexivity].
    exfalso. apply Hkey. now apply memb_In.
  - apply sqlite_unauthenticated.
    unfold Sqlite.sessionUser, Sqlite.selectSessionUser. rewrite Hreq.
    cbn [Sqlite.tables Sqlite.sessions sdb'].
    now rewrite (filter_filter_negb (fun s => String.eqb (Sqlite.s_id s) sid)).
Qed.

Lemma logout_revokes_session_witness :
  let jdb' := fst (JsonFile.logout (logoutRequest "s-1") jsonTwoOrders) in
  let sdb' := fst (Sqlite.logout (logoutRequest "s-1") sqliteTwoOrders) in
  (JsonFile.currentUser (myOrders "s-1") jdb' = (jdb', notAuthenticated)
   /\ JsonFile.placeOrder envLater (myOrders "s-1") jdb' = (jdb', notAuthenticated)
   /\ (~ In "s-1" JsonFile.objectPrototypeKeys ->
       JsonFile.listMyOrders (myOrders "s-1") jdb' = (jdb', notAuthenticated)))
  /\ (Sqlite.currentUser (myOrders "s-1") sdb' = (sdb', notAuthenticated)
      /\ Sqlite.placeOrder envLater (myOrders "s-1") sdb' = (sdb', notAuthenticated)
      /\ Sqlite.listMyOrders (myOrders "s-1") sdb' = (sdb', notAuthenticated)).
Proof.
  apply (logout_revokes_session envLater (logoutRequest "s-1") (myOrders "s-1")
           "s-1" jsonTwoOrders sqliteTwoOrders); reflexivity.
Defined.

(** What a logout leaves alone. *)
Lemma logout_keeps_the_rest
    (out req : Request) (jdb : JsonFile.Db) (sdb : Sqlite.Db) :
  let jdb' := fst (JsonFile.logout out jdb) in
  let sdb' := fst (Sqlite.logout out sdb) in
  let t := Sqlite.tables sdb in
  let t' := Sqlite.tables sdb' in
  (snd (JsonFile.logout out jdb) = loggedOut
   /\ snd (Sqlite.logout out sdb) = loggedOut)
  /\ (JsonFile.users jdb' = JsonFile.users jdb
      /\ JsonFile.orders jdb' = JsonFile.orders jdb)
  /\ (Sqlite.users t' = Sqlite.users t
      /\ Sqlite.orders t' = Sqlite.orders t
      /\ Sqlite.order_items t' = Sqlite.order_items t)
  /\ (cookieSid req <> cookieSid out ->
      JsonFile.getUserFromSession req jdb' = JsonFile.getUserFromSession req jdb
      /\ Sqlite.sessionUser req t' = Sqlite.sessionUser req t)
  /\ (fst (JsonFile.logout out jdb') = jdb'
      /\ fst (Sqlite.logout out sdb') = sdb').
Proof.
  intros jdb' sdb' t t'. subst jdb' sdb' t t'.
  rewrite json_logout_run, sqlite_logout_run. cbn [fst snd].
  split; [split; reflexivity|].
  destruct (cookieSid out) as [sid|] eqn:Hout.
  - cbn [JsonFile.users JsonFile.orders Sqlite.tables Sqlite.users Sqlite.orders
         Sqlite.order_items].
    split; [split; reflexivity|]. split; [repeat split|]. split.
    + intros Hne. split.
      * unfold JsonFile.getUserFromSession.
        destruct (cookieSid req) as [sid'|]; [|reflexivity].
        assert (Hs : sid' <> sid) by congruence.
        unfold JsonFile.sessionSlot, JsonFile.findUserById.
        cbn [JsonFile.sessions JsonFile.users].
        rewrite lookup_delete_ne by congruence. reflexivity.
      * unfold Sqlite.sessionUser, Sqlite.selectSessionUser.
        destruct (cookieSid req) as [sid'|]; [|reflexivity].
        assert (Hs : sid' <> sid) by congruence.
        cbn [Sqlite.sessions Sqlite.users].
        now rewrite filter_filter_other.
    + rewrite json_logout_run, sqlite_logout_run, Hout. cbn [fst].
      cbn [JsonFile.users JsonFile.orders JsonFile.sessions Sqlite.tables
           Sqlite.users Sqlite.sessions Sqlite.orders Sqlite.order_items
           Sqlite.order_items_seq Sqlite.journal].
      rewrite delete_delete_eq, filter_idem. split; reflexivity.
  - split; [split; reflexivity|]. split; [repeat split|]. split.
    + intros _. split; reflexivity.
    + rewrite json_logout_run, sqlite_logout_run, Hout. cbn [fst].
      split; [reflexivity|]. now destruct sdb.
Qed.


(** X2: logging out always answers 200 and clears the cookie, with or
    without a session.  It removes the session of the cookie and nothing
    else: afterwards no session is stored under the cookie's identifier,
    every other session is stored as before, users and orders stay, every
    other cookie resolves to the user it resolved to before, and logging out
    again changes nothing.  Without a cookie the sessions stay as they
    are. *)
Theorem logout_removes_one_session
    (out req : Request) (jdb : JsonFile.Db) (sdb : Sqlite.Db) :
  let jdb' := fst (JsonFile.logout out jdb) in
  let sdb' := fst (Sqlite.logout out sdb) in
  let t := Sqlite.tables sdb in
  let t' := Sqlite.tables sdb' in
  (snd (JsonFile.logout out jdb) = loggedOut
   /\ snd (Sqlite.logout out sdb) = loggedOut)
  /\ (JsonFile.users jdb' = JsonFile.users jdb
      /\ JsonFile.orders jdb' = JsonFile.orders jdb)
  /\ (Sqlite.users t' = Sqlite.users t
      /\ Sqlite.orders t' = Sqlite.orders t
      /\ Sqlite.order_items t' = Sqlite.order_items t)
  /\ (cookieSid req <> cookieSid out ->
      JsonFile.getUserFromSession req jdb' = JsonFile.getUserFromSession req jdb
      /\ Sqlite.sessionUser req t' = Sqlite.sessionUser req t)
  /\ (fst (JsonFile.logout out jdb') = jdb'
      /\ fst (Sqlite.logout out sdb') = sdb')
  /\ (forall sid,
        cookieSid out = Some sid ->
        JsonFile.sessions jdb' !! sid = None
        /\ (forall other, other <> sid ->
              JsonFile.sessions jdb' !! other = JsonFile.sessions jdb !! other)
        /\ ~ In sid (List.map Sqlite.s_id (Sqlite.sessions t'))
        /\ (forall s, Sqlite.s_id s <> sid ->
              (In s (Sqlite.sessions t') <-> In s (Sqlite.sessions t)))
        /\ JsonFile.getUserFromSession out jdb' = None
        /\ Sqlite.sessionUser out t' = None)
  /\ (cookieSid out = None ->
      JsonFile.sessions jdb' = JsonFile.sessions jdb
      /\ Sqlite.sessions t' = Sqlite.sessions t)
  /\ (status loggedOut = 200 /\ resp_body loggedOut = BOk
      /\ resp_cookie loggedOut = ClearSessionCookie).
Proof.
  intros jdb' sdb' t t'.
  destruct (logout_keeps_the_rest out req jdb sdb) as (H1 & H2 & H3 & H4 & H5).
  split; [exact H1|]. split; [exact H2|]. split; [exact H3|].
  split; [exact H4|]. split; [exact H5|].
  subst jdb' sdb' t t'. rewrite json_logout_run, sqlite_logout_run.
  cbn [fst]. split; [|split; [|now repeat split]].
  - intros sid Hout. rewrite Hout.
    cbn [JsonFile.sessions JsonFile.users Sqlite.tables Sqlite.sessions Sqlite.users].
    assert (Hgone : List.filter (fun s => String.eqb (Sqlite.s_id s) sid)
                      (List.filter (fun s => negb (String.eqb (Sqlite.s_id s) sid))
                         (Sqlite.sessions (Sqlite.tables sdb))) = []).
    { apply (filter_filter_negb (fun s => String.eqb (Sqlite.s_id s) sid)). }
    split; [apply lookup_delete_eq|].
    split.
    { intros other Hne. apply lookup_delete_ne. intros E. apply Hne.
      now symmetry. }
    split.
    { intros Hin. apply in_map_iff in Hin as (s & Hs & Hin).
      apply filter_In in Hin as [_ Hin]. apply negb_true_iff in Hin.
      apply String.eqb_neq in Hin. contradiction. }
    split.
    { intros s Hs. rewrite filter_In, negb_true_iff, String.eqb_neq. tauto. }
    split.
    + unfold JsonFile.getUserFromSession, JsonFile.sessionSlot. rewrite Hout.
      cbn [JsonFile.sessions]. rewrite lookup_delete_eq.
      now destruct (existsb _ JsonFile.objectPrototypeKeys).
    + unfold Sqlite.sessionUser, Sqlite.selectSessionUser. rewrite Hout.
      cbn [Sqlite.sessions]. now rewrite Hgone.
  - intros ->. split; reflexivity.
Qed.

Lemma logout_removes_one_session_witness :
  JsonFile.getUserFromSession (myOrders "s-9")
    (fst (JsonFile.logout (logoutRequest "s-1") jsonTwoSessions))
    = Some jsonUserShiva
  /\ Sqlite.sessionUser (myOrders "s-9")
       (Sqlite.tables (fst (Sqlite.logout (logoutRequest "s-1") sqliteTwoSessions)))
     = Some sqliteUserShiva
  /\ (JsonFile.sessions jsonTwoSessions !! "s-1" <> None
      /\ JsonFile.sessions
           (fst (JsonFile.logout (logoutRequest "s-1") jsonTwoSessions)) !! "s-1"
         = None)
  /\ (In "s-1" (List.map Sqlite.s_id (Sqlite.sessions (Sqlite.tables sqliteTwoSessions)))
      /\ ~ In "s-1"
           (List.map Sqlite.s_id
              (Sqlite.sessions
                 (Sqlite.tables
                    (fst (Sqlite.logout (logoutRequest "s-1") sqliteTwoSessions)))))).
Proof.
  destruct (logout_removes_one_session (logoutRequest "s-1") (myOrders "s-9")
              jsonTwoSessions sqliteTwoSessions)
    as (_ & _ & _ & H & _ & Hgone & _).
  destruct H as [HJ HS]; [vm_compute; discriminate|].
  destruct (Hgone "s-1" eq_refl) as (Hj & _ & Hs & _).
  rewrite HJ, HS.
  split; [vm_compute; reflexivity|]. split; [vm_compute; reflexivity|].
  split; [split; [vm_compute; discriminate|exact Hj]|].
  split; [vm_compute; now left|exact Hs].
Defined.

End Logout.

(** ** Registering, then using the account *)

Section ListFacts.

Lemma find_app_none {A} (f : A -> bool) (l l' : list A) :
  List.find f l = None -> List.find f (l ++ l') = List.find f l'.
Proof.
  induction l as [|a l IH]; simpl; [reflexivity|].
  destruct (f a); [discriminate|exact IH].
Qed.

Lemma find_app_some {A} (f : A -> bool) (l l' : list A) (x : A) :
  List.find f l = Some x -> List.find f (l ++ l') = Some x.
Proof.
  induction l as [|a l IH]; simpl; [discriminate|].
  destruct (f a); [auto|exact IH].
Qed.

Lemma find_none_iff {A} (f : A -> bool) (l : list A) :
  List.find f l = None <-> Forall (fun x => f x = false) l.
Proof.
  induction l as [|a l IH]; simpl.
  - split; [constructor|reflexivity].
  - destruct (f a) eqn:E; split; intros H.
    + discriminate.
    + inversion H; congruence.
    + constructor; [exact E|now apply IH].
    + inversion H; subst. now apply IH.
Qed.

Lemma existsb_false_iff {A} (f : A -> bool) (l : list A) :
  existsb f l = false <-> Forall (fun x => f x = false) l.
Proof.
  induction l as [|a l IH]; simpl.
  - split; [constructor|reflexivity].
  - rewrite orb_false_iff, IH. split.
    + intros [E H]. now constructor.
    + intros H. inversion H; subst. now split.
Qed.

Lemma filter_nil_iff {A} (f : A -> bool) (l : list A) :
  List.filter f l = [] <-> Forall (fun x => f x = false) l.
Proof.
  induction l as [|a l IH]; simpl.
  - split; [constructor|reflexivity].
  - destruct (f a) eqn:E; split; intros H.
    + discriminate.
    + inversion H; congruence.
    + constructor; [exact E|now apply IH].
    + inversion H; subst. now apply IH.
Qed.

Lemma head_none {A} (l : list A) : head l = None <-> l = [].
Proof. destruct l; simpl; split; intros H; first [reflexivity|discriminate H]. Qed.

Lemma Forall_neq_eqb {A} (g : A -> string) (k : string) (l : list A) :
  Forall (fun x => g x <> k) l <->
  Forall (fun x => String.eqb (g x) k = false) l.
Proof.
  split; intros H; (eapply List.Forall_impl; [|exact H]); simpl; intros x Hx;
    now apply String.eqb_neq.
Qed.

End ListFacts.

Section RegisterThenUse.
Variables (env : Env) (req : Request) (n e p : string).
Hypothesis Hname : reqName req = Some n.
Hypothesis Hemail : reqEmail req = Some e.
Hypothesis Hpassword : reqPassword req = Some p.
Hypothesis Hn : n <> "".
Hypothesis He : e <> "".
Hypothesis Hp : p <> "".

Variable jdb : JsonFile.Db.
Hypothesis Hjfree :
  Forall (fun u => JsonFile.user_email u <> e) (JsonFile.users jdb).
Hypothesis Hjfresh :
  Forall (fun u => JsonFile.user_id u <> randomUUID_1 env) (JsonFile.users jdb).

Variable sdb : Sqlite.Db.
Hypothesis Hsfree :
  Forall (fun u => Sqlite.u_email u <> e) (Sqlite.users (Sqlite.tables sdb)).
Hypothesis Hsfresh :
  Forall (fun u => Sqlite.u_id u <> randomUUID_1 env)
    (Sqlite.users (Sqlite.tables sdb)).
Hypothesis Hsession :
  Forall (fun s => Sqlite.s_id s <> randomUUID_2 env)
    (Sqlite.sessions (Sqlite.tables sdb)).

Let fields_ok : isEmpty n || isEmpty e || isEmpty p = false.
Proof.
  apply isEmpty_false in Hn, He, Hp. now rewrite Hn, He, Hp.
Qed.

Lemma json_register_ok :
  JsonFile.register env req jdb
  = (JsonFile.addSession
       {| JsonFile.users := JsonFile.users jdb ++ [newJsonUser env n e p];
          JsonFile.sessions := JsonFile.sessions jdb;
          JsonFile.orders := JsonFile.orders jdb |}
       (randomUUID_2 env) (randomUUID_1 env) (toISOString_2 env),
     setCookie 201 (BUser (registered env n e)) (randomUUID_2 env)).
Proof using Hname Hemail Hpassword Hn He Hp Hjfree.
  rewrite (json_register_steps env req n e p Hname Hemail Hpassword), fields_ok.
  replace (existsb _ (JsonFile.users jdb)) with false; [reflexivity|].
  symmetry. apply existsb_false_iff.
  now apply (Forall_neq_eqb JsonFile.user_email).
Qed.

Lemma sqlite_register_ok :
  exists t2,
    Sqlite.register env req sdb
    = ({| Sqlite.tables := t2; Sqlite.journal := Sqlite.journal sdb |},
       setCookie 201 (BUser (registered env n e)) (randomUUID_2 env))
    /\ Sqlite.users t2
       = (Sqlite.users (Sqlite.tables sdb) ++ [newSqliteUser env n e p])%list
    /\ Sqlite.sessions t2
       = (Sqlite.sessions (Sqlite.tables sdb)
          ++ [{| Sqlite.s_id := randomUUID_2 env;
                 Sqlite.s_user_id := randomUUID_1 env;
                 Sqlite.s_created_at := toISOString_2 env |}])%list
    /\ Sqlite.orders t2 = Sqlite.orders (Sqlite.tables sdb)
    /\ Sqlite.order_items t2 = Sqlite.order_items (Sqlite.tables sdb)
    /\ Sqlite.order_items_seq t2 = Sqlite.order_items_seq (Sqlite.tables sdb).
Proof using Hname Hemail Hpassword Hn He Hp Hsfree Hsfresh Hsession.
  rewrite (sqlite_register_steps env req n e p Hname Hemail Hpassword), fields_ok.
  assert (Hfree : existsb (fun u => String.eqb (Sqlite.u_email u) e)
                    (Sqlite.users (Sqlite.tables sdb)) = false).
  { apply existsb_false_iff. now apply (Forall_neq_eqb Sqlite.u_email). }
  assert (Hfresh : existsb (fun u => String.eqb (Sqlite.u_id u) (randomUUID_1 env))
                     (Sqlite.users (Sqlite.tables sdb)) = false).
  { apply existsb_false_iff. now apply (Forall_neq_eqb Sqlite.u_id). }
  assert (Hsess : existsb (fun s => String.eqb (Sqlite.s_id s) (randomUUID_2 env))
                    (Sqlite.sessions (Sqlite.tables sdb)) = false).
  { apply existsb_false_iff. now apply (Forall_neq_eqb Sqlite.s_id). }
  unfold Sqlite.selectUserByEmail.
  replace (List.filter _ (Sqlite.users (Sqlite.tables sdb))) with (@nil Sqlite.UserRow).
  2:{ symmetry. apply filter_nil_iff. now apply existsb_false_iff. }
  cbn [head]. cbv zeta.
  unfold Sqlite.insertUser. cbn [Sqlite.u_id Sqlite.u_email].
  rewrite Hfresh, Hfree. cbn [orb].
  unfold Sqlite.insertSession.
  cbn [Sqlite.s_id Sqlite.s_user_id Sqlite.sessions Sqlite.users].
  rewrite Hsess, existsb_app. cbn [existsb Sqlite.u_id].
  rewrite String.eqb_refl, !orb_true_r. cbn [negb orb].
  eexists. split; [reflexivity|]. cbn. repeat split.
Qed.

End RegisterThenUse.

Lemma sqlite_new_session_user (t2 : Sqlite.Tables) (me : Request)
    (users0 : list Sqlite.UserRow) (sessions0 : list Sqlite.SessionRow)
    (u : Sqlite.UserRow) (sid created : string) :
  Sqlite.users t2 = (users0 ++ [u])%list ->
  Sqlite.sessions t2
    = (sessions0 ++ [{| Sqlite.s_id := sid; Sqlite.s_user_id := Sqlite.u_id u;
                        Sqlite.s_created_at := created |}])%list ->
  Forall (fun x => Sqlite.u_id x <> Sqlite.u_id u) users0 ->
  Forall (fun s => Sqlite.s_id s <> sid) sessions0 ->
  cookieSid me = Some sid ->
  Sqlite.sessionUser me t2 = Some u.
Proof.
  intros Hu Hs Hfresh Hsess Hme.
  unfold Sqlite.sessionUser, Sqlite.selectSessionUser. rewrite Hme, Hu, Hs.
  rewrite List.filter_app.
  replace (List.filter _ sessions0) with (@nil Sqlite.SessionRow).
  2:{ symmetry. apply filter_nil_iff. now apply (Forall_neq_eqb Sqlite.s_id). }
  cbn [app List.filter Sqlite.s_id]. rewrite String.eqb_refl.
  cbn [flat_map Sqlite.s_user_id]. rewrite app_nil_r, List.filter_app.
  replace (List.filter _ users0) with (@nil Sqlite.UserRow).
  2:{ symmetry. apply filter_nil_iff. now apply (Forall_neq_eqb Sqlite.u_id). }
  cbn [app List.filter]. now rewrite String.eqb_refl.
Qed.

(** X3: registering logs in.  A registration with the three fields present,
    an e-mail nobody has and identifiers not in use is answered 201 with the
    new user (identifier, trimmed name, normalised e-mail, time stamp; never
    the hash) and a session cookie, and [GET /auth/me] with that cookie then
    answers 200 with the same user, in both variants. *)
Theorem register_then_currentUser
    (env : Env) (req me : Request) (n e p : string)
    (jdb : JsonFile.Db) (sdb : Sqlite.Db) :
  reqName req = Some n -> reqEmail req = Some e -> reqPassword req = Some p ->
  n <> "" -> e <> "" -> p <> "" ->
  Forall (fun u => JsonFile.user_email u <> e) (JsonFile.users jdb) ->
  Forall (fun u => JsonFile.user_id u <> randomUUID_1 env) (JsonFile.users jdb) ->
  Forall (fun u => Sqlite.u_email u <> e) (Sqlite.users (Sqlite.tables sdb)) ->
  Forall (fun u => Sqlite.u_id u <> randomUUID_1 env)
    (Sqlite.users (Sqlite.tables sdb)) ->
  Forall (fun s => Sqlite.s_id s <> randomUUID_2 env)
    (Sqlite.sessions (Sqlite.tables sdb)) ->
  cookieSid me = Some (randomUUID_2 env) ->
  let jrun := JsonFile.register env req jdb in
  let srun := Sqlite.register env req sdb in
  (snd jrun = setCookie 201 (BUser (registered env n e)) (randomUUID_2 env)
   /\ status (snd jrun) = 201
   /\ resp_body (snd jrun) = BUser (registered env n e)
   /\ resp_cookie (snd jrun) = SetSessionCookie (randomUUID_2 env)
   /\ JsonFile.currentUser me (fst jrun)
      = (fst jrun, respond 200 (BUser (registered env n e))))
  /\ (snd srun = setCookie 201 (BUser (registered env n e)) (randomUUID_2 env)
      /\ status (snd srun) = 201
      /\ resp_body (snd srun) = BUser (registered env n e)
      /\ resp_cookie (snd srun) = SetSessionCookie (randomUUID_2 env)
      /\ Sqlite.currentUser me (fst srun)
         = (fst srun, respond 200 (BUser (registered env n e)))).
Proof.
  intros Hname Hemail Hpw Hn He Hp Hjfree Hjfresh Hsfree Hsfresh Hsess Hme
    jrun srun.
  subst jrun srun. split.
  - rewrite (json_register_ok env req n e p Hname Hemail Hpw Hn He Hp jdb Hjfree).
    cbn [fst snd]. do 4 (split; [reflexivity|]).
    unfold JsonFile.currentUser, JsonFile.getUserFromSession. rewrite Hme.
    unfold JsonFile.sessionSlot, JsonFile.addSession. cbn [JsonFile.sessions].
    rewrite lookup_insert_eq.
    cbn [JsonFile.slotUserId JsonFile.userId JsonFile.findUserById JsonFile.users].
    rewrite find_app_none.
    + cbn. now rewrite String.eqb_refl.
    + apply find_none_iff. now apply (Forall_neq_eqb JsonFile.user_id).
  - destruct (sqlite_register_ok env req n e p Hname Hemail Hpw Hn He Hp sdb
                Hsfree Hsfresh Hsess) as (t2 & -> & Hu & Hs & _).
    cbn [fst snd]. do 4 (split; [reflexivity|]).
    rewrite sqlite_currentUser_run. cbn [Sqlite.tables].
    now rewrite (sqlite_new_session_user t2 me _ _ (newSqliteUser env n e p)
                   (randomUUID_2 env) (toISOString_2 env) Hu Hs Hsfresh Hsess Hme).
Qed.

Lemma register_then_currentUser_witness :
  let me := myOrders "s-7" in
  let asha := {| su_id := "u-7"; su_name := "Asha";
                 su_email := "asha@example.com";
                 su_createdAt := "2023-11-14T22:13:20.007Z" |} in
  let jrun := JsonFile.register envAsha registerAsha jsonShiva in
  let srun := Sqlite.register envAsha registerAsha sqliteShiva in
  (snd jrun = setCookie 201 (BUser asha) "s-7"
   /\ status (snd jrun) = 201
   /\ resp_body (snd jrun) = BUser asha
   /\ resp_cookie (snd jrun) = SetSessionCookie "s-7"
   /\ JsonFile.currentUser me (fst jrun) = (fst jrun, respond 200 (BUser asha)))
  /\ (snd srun = setCookie 201 (BUser asha) "s-7"
      /\ status (snd srun) = 201
      /\ resp_body (snd srun) = BUser asha
      /\ resp_cookie (snd srun) = SetSessionCookie "s-7"
      /\ Sqlite.currentUser me (fst srun) = (fst srun, respond 200 (BUser asha))).
Proof.
  apply (register_then_currentUser envAsha registerAsha (myOrders "s-7")
           "Asha" "asha@example.com" "pass word" jsonShiva sqliteShiva);
    try reflexivity; try discriminate;
    vm_compute; repeat constructor; discriminate.
Defined.

(** X4: an account can be used as soon as it is registered.  After a
    successful registration, a login whose e-mail normalises to the
    registered one (in any letter case, with surrounding white space) and
    whose password is the registered one, verified by bcrypt against its own
    hash, is answered 200 with the registered user and a fresh session
    cookie, in both variants. *)
Theorem register_then_login
    (env env' : Env) (req req' : Request) (n e p : string)
    (jdb : JsonFile.Db) (sdb : Sqlite.Db) :
  reqName req = Some n -> reqEmail req = Some e -> reqPassword req = Some p ->
  n <> "" -> e <> "" -> p <> "" ->
  Forall (fun u => JsonFile.user_email u <> e) (JsonFile.users jdb) ->
  Forall (fun u => Sqlite.u_email u <> e) (Sqlite.users (Sqlite.tables sdb)) ->
  Forall (fun u => Sqlite.u_id u <> randomUUID_1 env)
    (Sqlite.users (Sqlite.tables sdb)) ->
  Forall (fun s => Sqlite.s_id s <> randomUUID_2 env)
    (Sqlite.sessions (Sqlite.tables sdb)) ->
  reqEmail req' = Some e -> reqPassword req' = Some p ->
  bcrypt_compare env' p (bcrypt_hash env p) = true ->
  randomUUID_1 env' <> randomUUID_2 env ->
  Forall (fun s => Sqlite.s_id s <> randomUUID_1 env')
    (Sqlite.sessions (Sqlite.tables sdb)) ->
  let janswer := snd (JsonFile.login env' req' (fst (JsonFile.register env req jdb))) in
  let sanswer := snd (Sqlite.login env' req' (fst (Sqlite.register env req sdb))) in
  (janswer = setCookie 200 (BUser (registered env n e)) (randomUUID_1 env')
   /\ status janswer = 200
   /\ resp_body janswer = BUser (registered env n e)
   /\ resp_cookie janswer = SetSessionCookie (randomUUID_1 env'))
  /\ (sanswer = setCookie 200 (BUser (registered env n e)) (randomUUID_1 env')
      /\ status sanswer = 200
      /\ resp_body sanswer = BUser (registered env n e)
      /\ resp_cookie sanswer = SetSessionCookie (randomUUID_1 env')).
Proof.
  intros Hname Hemail Hpw Hn He Hp Hjfree Hsfree Hsfresh Hsess
    Hemail' Hpw' Hcmp Hne Hsess' janswer sanswer.
  subst janswer sanswer.
  assert (Hf : loginFields req' e p) by (repeat split; assumption).
  split.
  - rewrite (json_register_ok env req n e p Hname Hemail Hpw Hn He Hp jdb Hjfree).
    cbn [fst]. rewrite (json_login_steps env' req' e p Hf).
    unfold JsonFile.findUserByEmail, JsonFile.addSession. cbn [JsonFile.users].
    rewrite find_app_none.
    + unfold newJsonUser. cbn [List.find JsonFile.user_email].
      rewrite String.eqb_refl. cbn [JsonFile.user_passwordHash JsonFile.user_id].
      rewrite Hcmp. now repeat split.
    + apply find_none_iff. now apply (Forall_neq_eqb JsonFile.user_email).
  - destruct (sqlite_register_ok env req n e p Hname Hemail Hpw Hn He Hp sdb
                Hsfree Hsfresh Hsess) as (t2 & -> & Hu & Hs & _).
    cbn [fst]. rewrite (sqlite_login_steps env' req' e p Hf).
    cbn [Sqlite.tables].
    unfold Sqlite.selectUserByEmail. rewrite Hu, List.filter_app.
    replace (List.filter _ (Sqlite.users (Sqlite.tables sdb)))
      with (@nil Sqlite.UserRow).
    2:{ symmetry. apply filter_nil_iff. now apply (Forall_neq_eqb Sqlite.u_email). }
    unfold newSqliteUser. cbn [app List.filter Sqlite.u_email].
    rewrite String.eqb_refl. cbn [head Sqlite.u_password_hash]. rewrite Hcmp.
    unfold Sqlite.insertSession. cbn [Sqlite.s_id Sqlite.s_user_id Sqlite.u_id].
    rewrite Hs, Hu, !existsb_app.
    replace (existsb _ (Sqlite.sessions (Sqlite.tables sdb))) with false.
    2:{ symmetry. apply existsb_false_iff. now apply (Forall_neq_eqb Sqlite.s_id). }
    cbn [existsb Sqlite.s_id Sqlite.u_id].
    apply not_eq_sym in Hne. apply String.eqb_neq in Hne.
    rewrite Hne, String.eqb_refl, !orb_true_r. now repeat split.
Qed.

Lemma register_then_login_witness :
  let asha := {| su_id := "u-7"; su_name := "Asha";
                 su_email := "asha@example.com";
                 su_createdAt := "2023-11-14T22:13:20.007Z" |} in
  let again := loginRequest "ASHA@example.COM  " "pass word" in
  let janswer := snd (JsonFile.login envAshaLogin again
                        (fst (JsonFile.register envAsha registerAsha jsonShiva))) in
  let sanswer := snd (Sqlite.login envAshaLogin again
                        (fst (Sqlite.register envAsha registerAsha sqliteShiva))) in
  (janswer = setCookie 200 (BUser asha) "s-8"
   /\ status janswer = 200
   /\ resp_body janswer = BUser asha
   /\ resp_cookie janswer = SetSessionCookie "s-8")
  /\ (sanswer = setCookie 200 (BUser asha) "s-8"
      /\ status sanswer = 200
      /\ resp_body sanswer = BUser asha
      /\ resp_cookie sanswer = SetSessionCookie "s-8").
Proof.
  apply (register_then_login envAsha envAshaLogin registerAsha
           (loginRequest "ASHA@example.COM  " "pass word")
           "Asha" "asha@example.com" "pass word" jsonShiva sqliteShiva);
    try reflexivity; try discriminate;
    vm_compute; repeat constructor; discriminate.
Defined.

(** ** Logging in *)

Lemma insertSession_some (r : Sqlite.SessionRow) (t t' : Sqlite.Tables) :
  Sqlite.insertSession r t = Some t' ->
  Sqlite.users t' = Sqlite.users t
  /\ Sqlite.sessions t' = (Sqlite.sessions t ++ [r])%list
  /\ Sqlite.orders t' = Sqlite.orders t
  /\ Sqlite.order_items t' = Sqlite.order_items t
  /\ Sqlite.order_items_seq t' = Sqlite.order_items_seq t
  /\ Forall (fun s => Sqlite.s_id s <> Sqlite.s_id r) (Sqlite.sessions t)
  /\ In (Sqlite.s_user_id r) (List.map Sqlite.u_id (Sqlite.users t)).
Proof.
  unfold Sqlite.insertSession.
  destruct (existsb (fun s => String.eqb (Sqlite.s_id s) (Sqlite.s_id r))
              (Sqlite.sessions t)) eqn:Hs; [discriminate|].
  destruct (existsb (fun u => String.eqb (Sqlite.u_id u) (Sqlite.s_user_id r))
              (Sqlite.users t)) eqn:Hu; [|discriminate].
  cbn [orb negb]. intros H. injection H as <-. cbn. repeat split.
  - apply (Forall_neq_eqb Sqlite.s_id). now apply existsb_false_iff.
  - apply existsb_exists in Hu as (u & Hin & E). apply String.eqb_eq in E.
    rewrite <- E. now apply in_map.
Qed.

Lemma insertUser_some (r : Sqlite.UserRow) (t t' : Sqlite.Tables) :
  Sqlite.insertUser r t = Some t' ->
  Sqlite.users t' = (Sqlite.users t ++ [r])%list
  /\ Sqlite.sessions t' = Sqlite.sessions t
  /\ Sqlite.orders t' = Sqlite.orders t
  /\ Sqlite.order_items t' = Sqlite.order_items t
  /\ Sqlite.order_items_seq t' = Sqlite.order_items_seq t
  /\ Forall (fun u => Sqlite.u_id u <> Sqlite.u_id r) (Sqlite.users t)
  /\ Forall (fun u => Sqlite.u_email u <> Sqlite.u_email r) (Sqlite.users t).
Proof.
  unfold Sqlite.insertUser.
  destruct (existsb (fun u => String.eqb (Sqlite.u_id u) (Sqlite.u_id r))
              (Sqlite.users t)) eqn:Hi; [discriminate|].
  destruct (existsb (fun u => String.eqb (Sqlite.u_email u) (Sqlite.u_email r))
              (Sqlite.users t)) eqn:He; [discriminate|].
  cbn [orb]. intros H. injection H as <-. cbn. repeat split.
  - apply (Forall_neq_eqb Sqlite.u_id). now apply existsb_false_iff.
  - apply (Forall_neq_eqb Sqlite.u_email). now apply existsb_false_iff.
Qed.

(** X5: logins are additive.  Whatever a login is answered, every cookie
    other than the one it may just have issued resolves to the user it
    resolved to before, and users and orders are as they were: a login never
    ends or redirects another session. *)
Theorem login_keeps_other_sessions
    (env : Env) (req other : Request) (jdb : JsonFile.Db) (sdb : Sqlite.Db) :
  cookieSid other <> Some (randomUUID_1 env) ->
  let jdb' := fst (JsonFile.login env req jdb) in
  let t := Sqlite.tables sdb in
  let t' := Sqlite.tables (fst (Sqlite.login env req sdb)) in
  (JsonFile.getUserFromSession other jdb' = JsonFile.getUserFromSession other jdb
   /\ JsonFile.users jdb' = JsonFile.users jdb
   /\ JsonFile.orders jdb' = JsonFile.orders jdb)
  /\ (Sqlite.sessionUser other t' = Sqlite.sessionUser other t
      /\ Sqlite.users t' = Sqlite.users t
      /\ Sqlite.orders t' = Sqlite.orders t).
Proof.
  intros Hother jdb' t t'. subst jdb' t t'. split.
  - destruct (json_login_cases env req jdb)
      as [(code & msg & -> & _) | (e & p & user & _ & _ & _ & ->)];
      cbn [fst]; [auto|].
    split; [|split; reflexivity].
    unfold JsonFile.getUserFromSession.
    destruct (cookieSid other) as [sid|]; [|reflexivity].
    unfold JsonFile.sessionSlot, JsonFile.addSession, JsonFile.findUserById.
    cbn [JsonFile.sessions JsonFile.users].
    rewrite lookup_insert_ne by congruence. reflexivity.
  - destruct (sqlite_login_cases env req sdb)
      as [(code & msg & -> & _) | (e & p & user & t & _ & _ & _ & Hins & ->)];
      cbn [fst]; [auto|].
    destruct (insertSession_some _ _ _ Hins) as (Hu & Hs & Ho & _).
    cbn [Sqlite.tables]. split; [|split; assumption].
    unfold Sqlite.sessionUser, Sqlite.selectSessionUser.
    destruct (cookieSid other) as [sid|]; [|reflexivity].
    rewrite Hu, Hs, List.filter_app. cbn [List.filter Sqlite.s_id].
    destruct (String.eqb (randomUUID_1 env) sid) eqn:E.
    + apply String.eqb_eq in E. congruence.
    + now rewrite app_nil_r.
Qed.

Lemma login_keeps_other_sessions_witness :
  JsonFile.getUserFromSession (myOrders "s-1") jsonTwoSessions = Some jsonUserShiva
  /\ Sqlite.sessionUser (myOrders "s-1") (Sqlite.tables sqliteTwoSessions)
     = Some sqliteUserShiva.
Proof.
  destruct (login_keeps_other_sessions envLogin
              (loginRequest "shiva@example.com" "StrongPassword123")
              (myOrders "s-1") jsonShiva sqliteShiva) as [(HJ & _) (HS & _)].
  - vm_compute. discriminate.
  - unfold jsonTwoSessions, sqliteTwoSessions. rewrite HJ, HS.
    split; vm_compute; reflexivity.
Defined.

Lemma NoDup_map_injective {A B} (f : A -> B) (l : list A) (a b : A) :
  List.NoDup (List.map f l) -> In a l -> In b l -> f a = f b -> a = b.
Proof.
  induction l as [|x l IH]; simpl; intros Hnd Ha Hb E; [contradiction|].
  inversion Hnd as [|? ? Hfresh Hnd']; subst.
  destruct Ha as [->|Ha], Hb as [->|Hb]; auto.
  - exfalso. apply Hfresh. rewrite E. now apply in_map.
  - exfalso. apply Hfresh. rewrite <- E. now apply in_map.
Qed.

Lemma find_unique {A} (g : A -> string) (l : list A) (a : A) :
  List.NoDup (List.map g l) -> In a l ->
  List.find (fun x => String.eqb (g x) (g a)) l = Some a.
Proof.
  intros Hnd Hin.
  destruct (List.find _ l) as [b|] eqn:E.
  - apply find_some in E as [Hb Eb]. apply String.eqb_eq in Eb.
    f_equal. exact (NoDup_map_injective g l b a Hnd Hb Hin Eb).
  - apply find_none_iff in E. rewrite List.Forall_forall in E.
    specialize (E a Hin). simpl in E. rewrite String.eqb_refl in E. discriminate.
Qed.

Lemma head_filter_unique {A} (g : A -> string) (l : list A) (a : A) :
  List.NoDup (List.map g l) -> In a l ->
  head (List.filter (fun x => String.eqb (g x) (g a)) l) = Some a.
Proof.
  intros Hnd Hin.
  destruct (filter_head_some (fun x => String.eqb (g x) (g a)) l a Hin
              (String.eqb_refl _)) as (b & Hb).
  rewrite Hb. apply head_filter_In in Hb as [Hb Eb]. apply String.eqb_eq in Eb.
  f_equal. exact (NoDup_map_injective g l b a Hnd Hb Hin Eb).
Qed.

(** X6: the cookie of a login opens the account that logged in.  When user
    identifiers are pairwise distinct, a login answered 200 sets the session
    cookie to the identifier just drawn, and [GET /auth/me] with that cookie
    answers 200 with the same user, in both variants. *)
Theorem login_then_currentUser
    (env : Env) (req me : Request) (jdb : JsonFile.Db) (sdb : Sqlite.Db) :
  List.NoDup (List.map JsonFile.user_id (JsonFile.users jdb)) ->
  List.NoDup (List.map Sqlite.u_id (Sqlite.users (Sqlite.tables sdb))) ->
  cookieSid me = Some (randomUUID_1 env) ->
  let jrun := JsonFile.login env req jdb in
  let srun := Sqlite.login env req sdb in
  (status (snd jrun) = 200 ->
   resp_cookie (snd jrun) = SetSessionCookie (randomUUID_1 env)
   /\ JsonFile.currentUser me (fst jrun)
      = (fst jrun, respond 200 (resp_body (snd jrun))))
  /\ (status (snd srun) = 200 ->
      resp_cookie (snd srun) = SetSessionCookie (randomUUID_1 env)
      /\ Sqlite.currentUser me (fst srun)
         = (fst srun, respond 200 (resp_body (snd srun)))).
Proof.
  intros Hjnd Hsnd Hme jrun srun. subst jrun srun. split.
  - destruct (json_login_cases env req jdb)
      as [(code & msg & -> & Hcode) | (e & p & user & _ & Hfind & _ & ->)];
      cbn [fst snd].
    { cbn. intros ->. destruct Hcode as [H|[H|H]]; discriminate H. }
    intros _. split; [reflexivity|].
    unfold JsonFile.currentUser, JsonFile.getUserFromSession. rewrite Hme.
    unfold JsonFile.sessionSlot, JsonFile.addSession. cbn [JsonFile.sessions].
    rewrite lookup_insert_eq.
    cbn [JsonFile.slotUserId JsonFile.userId JsonFile.findUserById JsonFile.users].
    apply find_some in Hfind as [Hin _].
    now rewrite (find_unique JsonFile.user_id _ user Hjnd Hin).
  - destruct (sqlite_login_cases env req sdb)
      as [(code & msg & -> & Hcode) | (e & p & user & t & _ & Hsel & _ & Hins & ->)];
      cbn [fst snd].
    { cbn. intros ->. destruct Hcode as [H|[H|H]]; discriminate H. }
    intros _. split; [reflexivity|]. rewrite sqlite_currentUser_run. cbn [Sqlite.tables].
    destruct (insertSession_some _ _ _ Hins) as (Hu & Hs & _ & _ & _ & Hfresh & _).
    cbn [Sqlite.s_id] in Hfresh.
    apply head_filter_In in Hsel as [Hin _].
    assert (Hres : Sqlite.sessionUser me t = Some user).
    { unfold Sqlite.sessionUser, Sqlite.selectSessionUser.
      rewrite Hme, Hu, Hs, List.filter_app.
      replace (List.filter _ (Sqlite.sessions (Sqlite.tables sdb)))
        with (@nil Sqlite.SessionRow).
      2:{ symmetry. apply filter_nil_iff. now apply (Forall_neq_eqb Sqlite.s_id). }
      cbn [app List.filter Sqlite.s_id]. rewrite String.eqb_refl.
      cbn [flat_map Sqlite.s_user_id]. rewrite app_nil_r.
      exact (head_filter_unique Sqlite.u_id _ user Hsnd Hin). }
    now rewrite Hres.
Qed.

Lemma login_then_currentUser_witness :
  JsonFile.currentUser (myOrders "s-9") jsonTwoSessions
    = (jsonTwoSessions, respond 200 (BUser (JsonFile.sanitizeUser jsonUserShiva)))
  /\ Sqlite.currentUser (myOrders "s-9") sqliteTwoSessions
     = (sqliteTwoSessions, respond 200 (BUser (Sqlite.sanitizeUser sqliteUserShiva))).
Proof.
  destruct (login_then_currentUser envLogin
              (loginRequest "shiva@example.com" "StrongPassword123")
              (myOrders "s-9") jsonShiva sqliteShiva) as [HJ HS].
  - vm_compute. repeat constructor. intros [].
  - vm_compute. repeat constructor. intros [].
  - reflexivity.
  - destruct HJ as [_ HJ]; [vm_compute; reflexivity|].
    destruct HS as [_ HS]; [vm_compute; reflexivity|].
    unfold jsonTwoSessions, sqliteTwoSessions. rewrite HJ, HS.
    split; vm_compute; reflexivity.
Defined.

(** ** What every reachable store satisfies *)

Section Soundness.

Lemma reqEmail_normal (req : Request) (e : string) :
  reqEmail req = Some e -> e <> "" -> normalEmail e.
Proof.
  unfold reqEmail. destruct (rawField req "email") as [raw|]; [|discriminate].
  cbn. intros H Hne. injection H as <-. split; [exact Hne|].
  apply normalised_is_normal.
Qed.

Lemma NoDup_snoc {A} (l : list A) (x : A) :
  List.NoDup l -> ~ In x l -> List.NoDup (l ++ [x]).
Proof.
  intros Hnd Hx. apply List.NoDup_app; [exact Hnd| |].
  - constructor; [intros []|constructor].
  - intros a Ha [<-|[]]. contradiction.
Qed.

Lemma fresh_not_in {A} (g : A -> string) (k : string) (l : list A) :
  Forall (fun x => g x <> k) l -> ~ In k (List.map g l).
Proof.
  intros H Hin. apply in_map_iff in Hin as (x & E & Hx).
  rewrite List.Forall_forall in H. exact (H x Hx E).
Qed.

Lemma json_currentUser_fst (req : Request) (db : JsonFile.Db) :
  fst (JsonFile.currentUser req db) = db.
Proof.
  unfold JsonFile.currentUser. now destruct (JsonFile.getUserFromSession req db).
Qed.

Lemma json_listMyOrders_fst (req : Request) (db : JsonFile.Db) :
  fst (JsonFile.listMyOrders req db) = db.
Proof.
  unfold JsonFile.listMyOrders. destruct (cookieSid req); [|reflexivity].
  now destruct (JsonFile.sessionSlot db s).
Qed.

Lemma json_getUser_In (req : Request) (db : JsonFile.Db) (u : JsonFile.User) :
  JsonFile.getUserFromSession req db = Some u -> In u (JsonFile.users db).
Proof.
  unfold JsonFile.getUserFromSession.
  destruct (cookieSid req); [|discriminate].
  destruct (JsonFile.sessionSlot db s); cbn; try discriminate.
  intros H. now apply find_some in H as [H _].
Qed.

Lemma jsonHandle_sound (c : Call) (db : JsonFile.Db) :
  jsonSound db -> jsonSound (fst (jsonHandle c db)).
Proof.
  intros [Hemails Hnormal Hsess Hord]. destruct c as [env req|env req|req|req|env req|req];
    cbn [jsonHandle].
  - (* register *)
    destruct (json_register_cases env req db)
      as [(code & msg & -> & _)
         | (n & e & p & _ & He & _ & _ & Hne & _ & Hfree & ->)];
      cbn [fst]; [now constructor|].
    apply existsb_false_iff in Hfree.
    apply (Forall_neq_eqb JsonFile.user_email) in Hfree.
    constructor; cbn [JsonFile.addSession JsonFile.users JsonFile.sessions JsonFile.orders].
    + rewrite map_app. apply NoDup_snoc; [exact Hemails|].
      now apply fresh_not_in.
    + apply Forall_app. split; [exact Hnormal|].
      constructor; [|constructor]. cbn. exact (reqEmail_normal req e He Hne).
    + intros sid s. rewrite map_app, in_app_iff.
      destruct (decide (randomUUID_2 env = sid)) as [->|Hsid].
      * rewrite lookup_insert_eq. intros H. injection H as <-. cbn.
        right. now left.
      * rewrite lookup_insert_ne by exact Hsid. intros H. left. eapply Hsess, H.
    + eapply List.Forall_impl; [|exact Hord]. simpl. intros o Ho.
      rewrite map_app, in_app_iff. now left.
  - (* login *)
    destruct (json_login_cases env req db)
      as [(code & msg & -> & _) | (e & p & user & _ & Hfind & _ & ->)];
      cbn [fst]; [now constructor|].
    apply find_some in Hfind as [Hin _].
    constructor; cbn [JsonFile.addSession JsonFile.users JsonFile.sessions JsonFile.orders];
      try assumption.
    intros sid s.
    destruct (decide (randomUUID_1 env = sid)) as [->|Hsid].
    + rewrite lookup_insert_eq. intros H. injection H as <-. cbn.
      now apply in_map.
    + rewrite lookup_insert_ne by exact Hsid. apply Hsess.
  - (* logout *)
    rewrite json_logout_run. cbn [fst].
    destruct (cookieSid req) as [sid0|]; [|now constructor].
    constructor; cbn [JsonFile.users JsonFile.sessions JsonFile.orders];
      try assumption.
    intros sid s H. apply lookup_delete_Some in H as [_ H]. eapply Hsess, H.
  - rewrite json_currentUser_fst. now constructor.
  - (* placeOrder *)
    destruct (json_placeOrder_cases env req db)
      as [(r & -> & _) | (user & c & its & Huser & _ & _ & _ & _ & Hrun)];
      cbn [fst]; [now constructor|].
    cbv zeta in Hrun. rewrite Hrun. cbn [fst].
    apply json_getUser_In in Huser.
    constructor; cbn [JsonFile.users JsonFile.sessions JsonFile.orders];
      try assumption.
    apply Forall_app. split; [exact Hord|].
    constructor; [|constructor]. cbn. now apply in_map.
  - rewrite json_listMyOrders_fst. now constructor.
Qed.

(** X7: in every state the JSON-file variant reaches from the empty file, no
    two users share an e-mail, every stored e-mail is non-empty and already
    trimmed and lower-cased, every session belongs to a stored user, and
    every order belongs to a stored user. *)
Theorem json_reachable_sound (calls : list Call) :
  jsonSound (jsonRun calls JsonFile.initial).
Proof.
  unfold jsonRun.
  assert (H : forall db, jsonSound db ->
            jsonSound (fold_left (fun d c => fst (jsonHandle c d)) calls db)).
  { induction calls as [|c calls IH]; intros db Hdb; simpl; [exact Hdb|].
    apply IH. now apply jsonHandle_sound. }
  apply H. constructor; cbn.
  - constructor.
  - constructor.
  - intros sid s H'. rewrite lookup_empty in H'. discriminate.
  - constructor.
Qed.

Lemma sqliteSound_insertUser (r : Sqlite.UserRow) (t t' : Sqlite.Tables) :
  normalEmail (Sqlite.u_email r) ->
  Sqlite.insertUser r t = Some t' -> sqliteSound t -> sqliteSound t'.
Proof.
  intros Hn Hins [Hids Hemails Hnormal Hsid Hsess Hord].
  apply insertUser_some in Hins as (Hu & Hs & Ho & _ & _ & Hfid & Hfem).
  constructor; rewrite ?Hu, ?Hs, ?Ho, ?map_app.
  - apply NoDup_snoc; [exact Hids|]. now apply fresh_not_in.
  - apply NoDup_snoc; [exact Hemails|]. now apply fresh_not_in.
  - apply Forall_app. split; [exact Hnormal|].
    constructor; [exact Hn|constructor].
  - exact Hsid.
  - eapply List.Forall_impl; [|exact Hsess]. simpl. intros a Ha.
    rewrite in_app_iff. now left.
  - eapply List.Forall_impl; [|exact Hord]. simpl. intros a Ha.
    rewrite in_app_iff. now left.
Qed.

Lemma sqliteSound_insertSession (r : Sqlite.SessionRow) (t t' : Sqlite.Tables) :
  Sqlite.insertSession r t = Some t' -> sqliteSound t -> sqliteSound t'.
Proof.
  intros Hins [Hids Hemails Hnormal Hsid Hsess Hord].
  apply insertSession_some in Hins as (Hu & Hs & Ho & _ & _ & Hfid & Hin).
  constructor; rewrite ?Hu, ?Hs, ?Ho, ?map_app; try assumption.
  - apply NoDup_snoc; [exact Hsid|]. now apply fresh_not_in.
  - apply Forall_app. split; [exact Hsess|].
    constructor; [exact Hin|constructor].
Qed.

Lemma sqliteHandle_sound (c : Call) (db : Sqlite.Db) :
  sqliteSound (Sqlite.tables db) ->
  sqliteSound (Sqlite.tables (fst (sqliteHandle c db))).
Proof.
  intros Hdb. destruct c as [env req|env req|req|req|env req|req];
    cbn [sqliteHandle].
  - (* register *)
    destruct (sqlite_register_cases env req db)
      as [(code & msg & -> & _)
         | (n & e & p & t1 & _ & He & _ & _ & Hne & _ & _ & Hins
            & [(_ & ->) | (t2 & Hsess & ->)])];
      cbn [fst Sqlite.tables]; [exact Hdb| |].
    + eapply sqliteSound_insertUser; [|exact Hins|exact Hdb].
      exact (reqEmail_normal req e He Hne).
    + eapply sqliteSound_insertSession; [exact Hsess|].
      eapply sqliteSound_insertUser; [|exact Hins|exact Hdb].
      exact (reqEmail_normal req e He Hne).
  - (* login *)
    destruct (sqlite_login_cases env req db)
      as [(code & msg & -> & _) | (e & p & user & t & _ & _ & _ & Hins & ->)];
      cbn [fst Sqlite.tables]; [exact Hdb|].
    eapply sqliteSound_insertSession; [exact Hins|exact Hdb].
  - (* logout *)
    rewrite sqlite_logout_run. cbn [fst Sqlite.tables].
    destruct (cookieSid req) as [sid|]; [|exact Hdb].
    destruct Hdb as [Hids Hemails Hnormal Hsid Hsess Hord].
    constructor; cbn [Sqlite.users Sqlite.sessions Sqlite.orders]; try assumption.
    + now apply NoDup_map_filter.
    + rewrite List.Forall_forall in *. intros s Hs.
      apply filter_In in Hs as [Hs _]. now apply Hsess.
  - rewrite sqlite_currentUser_run. exact Hdb.
  - (* placeOrder *)
    destruct (sqlite_placeOrder_cases env req db)
      as [(r & -> & _)
         | (user & c & its & t1 & _ & Huser & _ & _ & _ & _ & _ & Hins & ->)];
      cbn [fst Sqlite.tables]; [exact Hdb|].
    apply sessionUser_In in Huser.
    apply insertOrder_exists in Hins as (_ & Hu & Hs & Ho & _ & _).
    destruct (appendItems_frame (orderIdOf env) its t1) as (Hu' & Hs' & Ho').
    destruct Hdb as [Hids Hemails Hnormal Hsid Hsess Hord].
    constructor; rewrite ?Hu', ?Hs', ?Ho', ?Hu, ?Hs, ?Ho; try assumption.
    apply Forall_app. split; [exact Hord|].
    constructor; [|constructor]. cbn. now apply in_map.
  - rewrite sqlite_listMyOrders_run. exact Hdb.
Qed.

(** X8: in every state the SQLite variant reaches from the empty database,
    user ids, user e-mails and session ids are pairwise distinct, every
    stored e-mail is non-empty and already trimmed and lower-cased, and every
    session and every order names a stored user. *)
Theorem sqlite_reachable_sound (calls : list Call) :
  sqliteSound (Sqlite.tables (sqliteRun calls Sqlite.initial)).
Proof.
  unfold sqliteRun.
  assert (H : forall db, sqliteSound (Sqlite.tables db) ->
            sqliteSound (Sqlite.tables
              (fold_left (fun d c => fst (sqliteHandle c d)) calls db))).
  { induction calls as [|c calls IH]; intros db Hdb; simpl; [exact Hdb|].
    apply IH. now apply sqliteHandle_sound. }
  apply H. constructor; cbn; constructor.
Qed.

End Soundness.

(** ** Which answers leave the store as it was *)

Section Writes.

Lemma json_logout_status (req : Request) (db : JsonFile.Db) :
  status (snd (JsonFile.logout req db)) = 200.
Proof. now rewrite json_logout_run. Qed.

(** X9: in the JSON-file variant a request answered with a status of 400 or
    more leaves the store exactly as it was, whatever the request. *)
Theorem json_error_writes_nothing (c : Call) (db : JsonFile.Db) :
  400 <= status (snd (jsonHandle c db)) ->
  fst (jsonHandle c db) = db.
Proof.
  destruct c as [env req|env req|req|req|env req|req]; cbn [jsonHandle].
  - destruct (json_register_cases env req db)
      as [(code & msg & -> & _) | (n & e & p & _ & _ & _ & _ & _ & _ & _ & ->)];
      cbn; [reflexivity|lia].
  - destruct (json_login_cases env req db)
      as [(code & msg & -> & _) | (e & p & user & _ & _ & _ & ->)];
      cbn; [reflexivity|lia].
  - rewrite json_logout_status. lia.
  - intros _. apply json_currentUser_fst.
  - destruct (json_placeOrder_cases env req db)
      as [(r & -> & _) | (user & c & its & _ & _ & _ & _ & _ & Hrun)];
      [reflexivity|].
    cbv zeta in Hrun. rewrite Hrun. cbn. lia.
  - intros _. apply json_listMyOrders_fst.
Qed.

Lemma json_error_writes_nothing_witness :
  400 <= status (snd (jsonHandle (Register envLater registerShivaAgain) jsonShiva))
  /\ fst (jsonHandle (Register envLater registerShivaAgain) jsonShiva) = jsonShiva.
Proof.
  split; [vm_compute; discriminate|].
  apply (json_error_writes_nothing (Register envLater registerShivaAgain) jsonShiva).
  vm_compute. discriminate.
Defined.

(** X10: in the SQLite variant a request answered with 400, 401 or 409 leaves
    the database as it was, and so does one answered with 500 unless it is a
    registration. *)
Theorem sqlite_error_writes_nothing (c : Call) (db : Sqlite.Db) :
  400 <= status (snd (sqliteHandle c db)) ->
  isRegister c = false \/ status (snd (sqliteHandle c db)) <> 500 ->
  fst (sqliteHandle c db) = db.
Proof.
  destruct c as [env req|env req|req|req|env req|req];
    cbn [sqliteHandle isRegister].
  - destruct (sqlite_register_cases env req db)
      as [(code & msg & -> & _)
         | (n & e & p & t1 & _ & _ & _ & _ & _ & _ & _ & _
            & [(_ & ->) | (t2 & _ & ->)])];
      cbn; [reflexivity| |lia].
    intros _ [H|H]; [discriminate H|now contradiction H].
  - destruct (sqlite_login_cases env req db)
      as [(code & msg & -> & _) | (e & p & user & t & _ & _ & _ & _ & ->)];
      cbn; [reflexivity|lia].
  - rewrite sqlite_logout_run. cbn. lia.
  - intros _ _. now rewrite sqlite_currentUser_run.
  - destruct (sqlite_placeOrder_cases env req db)
      as [(r & -> & _)
         | (user & c & its & t1 & _ & _ & _ & _ & _ & _ & _ & _ & ->)];
      cbn; [reflexivity|lia].
  - intros _ _. now rewrite sqlite_listMyOrders_run.
Qed.

Lemma sqlite_error_writes_nothing_witness :
  let c := PlaceOrder envLater (orderRequest "s-1" customerShiva [itemWordQty]) in
  status (snd (sqliteHandle c sqliteShiva)) = 500
  /\ fst (sqliteHandle c sqliteShiva) = sqliteShiva.
Proof.
  intros c. split; [vm_compute; reflexivity|].
  apply (sqlite_error_writes_nothing c sqliteShiva).
  - vm_compute. discriminate.
  - left. reflexivity.
Defined.

Lemma existsb_In_map {A} (g : A -> string) (k : string) (l : list A) :
  In k (List.map g l) -> existsb (fun x => String.eqb (g x) k) l = true.
Proof.
  intros H. apply in_map_iff in H as (x & E & Hx).
  apply existsb_exists. exists x. split; [exact Hx|].
  now apply String.eqb_eq.
Qed.

Lemma existsb_notIn_map {A} (g : A -> string) (k : string) (l : list A) :
  ~ In k (List.map g l) -> existsb (fun x => String.eqb (g x) k) l = false.
Proof.
  intros H. destruct (existsb _ l) eqn:E; [|reflexivity].
  apply existsb_exists in E as (x & Hx & E). apply String.eqb_eq in E.
  exfalso. apply H. rewrite <- E. now apply in_map.
Qed.

(** X11: the SQLite registration is not atomic.  When the fields are present,
    the e-mail and the user id are new, but the session id drawn for it is
    already a session's, the answer is 500, yet the user row has been
    inserted and no session was: the same registration sent again is
    answered 409 "email already registered", although it never succeeded. *)
Theorem sqlite_register_partial_write
    (env env' : Env) (req : Request) (n e p : string) (db : Sqlite.Db) :
  reqName req = Some n -> reqEmail req = Some e -> reqPassword req = Some p ->
  n <> "" -> e <> "" -> p <> "" ->
  ~ In e (List.map Sqlite.u_email (Sqlite.users (Sqlite.tables db))) ->
  ~ In (randomUUID_1 env) (List.map Sqlite.u_id (Sqlite.users (Sqlite.tables db))) ->
  In (randomUUID_2 env) (List.map Sqlite.s_id (Sqlite.sessions (Sqlite.tables db))) ->
  let run := Sqlite.register env req db in
  snd run = internalError
  /\ Sqlite.users (Sqlite.tables (fst run))
     = (Sqlite.users (Sqlite.tables db) ++ [newSqliteUser env n e p])%list
  /\ Sqlite.sessions (Sqlite.tables (fst run)) = Sqlite.sessions (Sqlite.tables db)
  /\ Sqlite.register env' req (fst run)
     = (fst run, respond 409 (BError "email already registered")).
Proof.
  intros Hn He Hp Hnn Hne Hnp Hemail Hid Hsid run. subst run.
  apply isEmpty_false in Hnn, Hne, Hnp.
  apply existsb_notIn_map in Hemail, Hid. apply existsb_In_map in Hsid.
  rewrite (sqlite_register_steps env' req n e p Hn He Hp).
  rewrite (sqlite_register_steps env req n e p Hn He Hp db).
  rewrite Hnn, Hne, Hnp. cbn [orb].
  assert (Hsel : Sqlite.selectUserByEmail e (Sqlite.tables db) = None).
  { unfold Sqlite.selectUserByEmail. apply head_none. apply filter_nil_iff.
    now apply existsb_false_iff. }
  rewrite Hsel. cbv zeta.
  unfold Sqlite.insertUser at 1 2 3 4. cbn [Sqlite.u_id Sqlite.u_email].
  rewrite Hid, Hemail. cbn [orb].
  unfold Sqlite.insertSession. cbn [Sqlite.sessions Sqlite.s_id].
  rewrite Hsid. cbn [orb fst snd Sqlite.tables Sqlite.users Sqlite.sessions].
  repeat split.
  unfold Sqlite.selectUserByEmail. cbn [Sqlite.users].
  destruct (filter_head_some (fun u => String.eqb (Sqlite.u_email u) e)
              (Sqlite.users (Sqlite.tables db) ++ [newSqliteUser env n e p])%list
              (newSqliteUser env n e p)) as [y Hy].
  - apply in_or_app. right. now left.
  - cbn. apply String.eqb_refl.
  - unfold newSqliteUser in Hy. now rewrite Hy.
Qed.

Lemma sqlite_register_partial_write_witness :
  let run := Sqlite.register envAshaClash registerAsha sqliteShiva in
  snd run = internalError
  /\ Sqlite.users (Sqlite.tables (fst run))
     = (Sqlite.users (Sqlite.tables sqliteShiva)
        ++ [newSqliteUser envAshaClash "Asha" "asha@example.com" "pass word"])%list
  /\ Sqlite.sessions (Sqlite.tables (fst run))
     = Sqlite.sessions (Sqlite.tables sqliteShiva)
  /\ Sqlite.register envAsha registerAsha (fst run)
     = (fst run, respond 409 (BError "email already registered")).
Proof.
  apply (sqlite_register_partial_write envAshaClash envAsha registerAsha
           "Asha" "asha@example.com" "pass word" sqliteShiva);
    try reflexivity; try discriminate.
  - vm_compute. intros [H|[]]. discriminate H.
  - vm_compute. intros [H|[]]. discriminate H.
  - vm_compute. now left.
Defined.

End Writes.

(** ** Orders *)

Section Orders.

(** X12: the SQLite order is all or nothing.  For a logged-in customer whose
    request has the required fields and at least one item, if the order id of
    this millisecond is already an order's, or the quantity of some item is
    not a number, the answer is 500 and the database is exactly as before:
    the order row and the item rows inserted before the failure are rolled
    back. *)
Theorem sqlite_placeOrder_rolls_back
    (env : Env) (req : Request) (db : Sqlite.Db) (user : Sqlite.UserRow) :
  Sqlite.journal db = None ->
  Sqlite.sessionUser req (Sqlite.tables db) = Some user ->
  customerMissing (reqCustomer req) = false ->
  reqItems req <> [] ->
  (In (orderIdOf env) (List.map Sqlite.o_id (Sqlite.orders (Sqlite.tables db)))
   \/ exists its, itemsOf env (reqItems req) = Some its
                  /\ Exists (fun it => qty it = NNaN) its) ->
  Sqlite.placeOrder env req db = (db, internalError).
Proof.
  intros Hj Huser Hmiss Hitems Hbad.
  unfold Sqlite.placeOrder, Sqlite.catch500, Sqlite.placeOrder_try.
  rewrite (SqlFacts.bind_ok _ _ _ _ _ (getUserFromSession_run req db)).
  rewrite Huser, Hmiss.
  destruct (length (reqItems req) =? 0)%nat eqn:Hlen.
  { apply Nat.eqb_eq in Hlen. destruct (reqItems req); [now contradiction Hitems|].
    discriminate Hlen. }
  destruct db as [t j]. cbn [Sqlite.tables Sqlite.journal] in *. subst j.
  assert (Hbegin : Sqlite.beginTransaction
                     {| Sqlite.tables := t; Sqlite.journal := None |}
                   = ({| Sqlite.tables := t; Sqlite.journal := Some t |}, Some tt))
    by reflexivity.
  rewrite (SqlFacts.bind_ok _ _ _ _ _ Hbegin).
  destruct (orderStatements_cases env user (reqCustomer req) (reqItems req) t t)
    as [(c & its & t1 & Hc & Hits & Hall & Hins & Hrun) | (t' & Hrun)].
  - exfalso. destruct Hbad as [Hin | (its' & Hits' & Hnan)].
    + apply insertOrder_exists in Hins as (_ & _ & _ & _ & _ & Hfresh).
      cbn [Sqlite.o_id] in Hfresh.
      apply existsb_In_map in Hin. congruence.
    + rewrite Hits in Hits'. injection Hits' as <-.
      apply List.Exists_exists in Hnan as (it & Hit & Hq).
      rewrite List.Forall_forall in Hall. exact (Hall it Hit Hq).
  - assert (Htry : Sqlite.tryCatch
                     (Sqlite.orderStatements env user (reqCustomer req) (reqItems req))
                     (Sqlite.bind Sqlite.rollback (fun _ => Sqlite.throw))
                     {| Sqlite.tables := t; Sqlite.journal := Some t |}
                   = ({| Sqlite.tables := t; Sqlite.journal := None |}, None)).
    { unfold Sqlite.tryCatch. now rewrite Hrun. }
    now rewrite (SqlFacts.bind_throw _ _ _ _ Htry).
Qed.

Lemma sqlite_placeOrder_rolls_back_witness :
  Sqlite.placeOrder envLater
    (orderRequest "s-1" customerShiva [itemPrd1; itemWordQty]) sqliteShiva
  = (sqliteShiva, internalError).
Proof.
  apply (sqlite_placeOrder_rolls_back envLater
           (orderRequest "s-1" customerShiva [itemPrd1; itemWordQty])
           sqliteShiva sqliteUserShiva).
  - reflexivity.
  - vm_compute. reflexivity.
  - reflexivity.
  - discriminate.
  - right. eexists. split; [vm_compute; reflexivity|].
    apply Exists_cons_tl. apply Exists_cons_hd. reflexivity.
Defined.

Lemma to_int_nonnil (z : Z) :
  Z.to_int z <> Decimal.Pos Decimal.Nil /\ Z.to_int z <> Decimal.Neg Decimal.Nil.
Proof.
  destruct z as [|q|q]; cbn; split; try discriminate; intros H; injection H as H;
    exact (DecimalPos.Unsigned.to_uint_nonnil q H).
Qed.

(** X13: the order id is the clock reading in decimal behind "DDD-", so two
    orders get the same id exactly when [Date.now()] gave the same
    millisecond for both. *)
Theorem orderIdOf_same_iff (env env' : Env) :
  orderIdOf env = orderIdOf env' <-> Date_now env = Date_now env'.
Proof.
  split; [|unfold orderIdOf; now intros ->].
  unfold orderIdOf, decimal. cbn [append]. intros H. injection H as H.
  change ("" +:+ ?x) with x in H.
  apply (f_equal NilZero.int_of_string) in H.
  rewrite !NilZero.isi in H by apply to_int_nonnil. injection H as H.
  apply (f_equal Z.of_int) in H. now rewrite !DecimalZ.of_to in H.
Qed.

(** X14: in every state the SQLite variant reaches from the empty database,
    order ids are pairwise distinct, the ids of the item rows increase in
    insertion order and none exceeds the AUTOINCREMENT counter, every item
    row belongs to a stored order, and no transaction is left open. *)
Theorem sqlite_reachable_orders (calls : list Call) :
  let db := sqliteRun calls Sqlite.initial in
  let t := Sqlite.tables db in
  List.NoDup (List.map Sqlite.o_id (Sqlite.orders t))
  /\ StronglySorted Z.lt (List.map Sqlite.oi_id (Sqlite.order_items t))
  /\ Forall (fun i => Sqlite.oi_id i <= Sqlite.order_items_seq t)
       (Sqlite.order_items t)
  /\ Forall (fun i => In (Sqlite.oi_order_id i)
                        (List.map Sqlite.o_id (Sqlite.orders t)))
       (Sqlite.order_items t)
  /\ Sqlite.journal db = None.
Proof.
  intros db t. subst db t.
  destruct (sqlite_reachable_wellFormed calls) as [[H1 H2 H3 H4] Hj].
  repeat split; assumption.
Qed.

(** X15: an order placed is an order listed.  In the JSON-file variant the
    order of a 201 answer is, as answered, among the orders the same cookie
    lists right afterwards.  In the SQLite variant, in any reachable state
    whose item rows all have a product id, the same holds when every item of
    the new order has a non-empty id. *)
Theorem placed_order_is_listed
    (env : Env) (req : Request) (jdb : JsonFile.Db) (calls : list Call) :
  let sdb := sqliteRun calls Sqlite.initial in
  let jrun := JsonFile.placeOrder env req jdb in
  let srun := Sqlite.placeOrder env req sdb in
  (status (snd jrun) = 201 ->
   exists v views,
     snd jrun = respond 201 (BOrder v)
     /\ JsonFile.listMyOrders req (fst jrun)
        = (fst jrun, respond 200 (BOrders views))
     /\ In v views)
  /\ (status (snd srun) = 201 ->
      Forall (fun i => Sqlite.oi_product_id i <> "")
        (Sqlite.order_items (Sqlite.tables sdb)) ->
      exists v,
        snd srun = respond 201 (BOrder v)
        /\ (Forall (fun it => item_id it <> "") (ov_items v) ->
            exists views,
              Sqlite.listMyOrders req (fst srun)
                = (fst srun, respond 200 (BOrders views))
              /\ In v views)).
Proof.
  intros sdb jrun srun. subst jrun srun. split.
  - apply json_placed_is_listed.
  - intros Hst Hpid. destruct (sqlite_reachable_wellFormed calls) as [Hwf _].
    now apply sqlite_placed_is_listed.
Qed.

Lemma placed_order_is_listed_witness :
  let req := orderRequest "s-1" customerShiva [itemPrd1; itemNegative] in
  (exists v views,
     snd (JsonFile.placeOrder envLater req jsonShiva) = respond 201 (BOrder v)
     /\ JsonFile.listMyOrders req (fst (JsonFile.placeOrder envLater req jsonShiva))
        = (fst (JsonFile.placeOrder envLater req jsonShiva),
           respond 200 (BOrders views))
     /\ In v views)
  /\ (exists v views,
        snd (Sqlite.placeOrder envLater req sqliteShiva) = respond 201 (BOrder v)
        /\ Sqlite.listMyOrders req (fst (Sqlite.placeOrder envLater req sqliteShiva))
           = (fst (Sqlite.placeOrder envLater req sqliteShiva),
              respond 200 (BOrders views))
        /\ In v views).
Proof.
  intros req.
  destruct (placed_order_is_listed envLater req jsonShiva
              [Register envRegister registerShiva]) as [Hj Hs].
  split.
  - apply Hj. vm_compute. reflexivity.
  - destruct Hs as (v & Hv & Hlist).
    + vm_compute. reflexivity.
    + vm_compute. constructor.
    + exists v.
      assert (Hids : Forall (fun it => item_id it <> "") (ov_items v)).
      { assert (E : BOrder v
                    = resp_body (snd (Sqlite.placeOrder envLater req
                        (sqliteRun [Register envRegister registerShiva]
                           Sqlite.initial))))
          by (rewrite Hv; reflexivity).
        vm_compute in E. injection E as ->.
        repeat constructor; discriminate. }
      destruct (Hlist Hids) as (views & Hviews & Hin).
      exists views. repeat split; assumption.
Defined.

End Orders.

(** ** The shape of every answer *)

Section Answers.

Lemma error_of_three (code a : Z) (msg : string) :
  a = 401 \/ a = 409 ->
  code = 400 \/ code = a \/ code = 500 ->
  isError (respond code (BError msg)).
Proof.
  intros Ha H. apply respond_isError.
  destruct Ha as [-> | ->]; destruct H as [-> | [-> | ->]]; auto.
Qed.

Lemma json_answer_shape (c : Call) (db : JsonFile.Db) :
  isError (snd (jsonHandle c db)) \/ isSuccess c (snd (jsonHandle c db)).
Proof.
  destruct c as [env req|env req|req|req|env req|req];
    cbn [jsonHandle isSuccess].
  - destruct (json_register_cases env req db)
      as [(code & msg & -> & Hc) | (n & e & p & _ & _ & _ & _ & _ & _ & _ & ->)].
    + left. apply (error_of_three code 409); auto.
    + right. cbn. split; [reflexivity|]. eexists _, _. now split.
  - destruct (json_login_cases env req db)
      as [(code & msg & -> & Hc) | (e & p & user & _ & _ & _ & ->)].
    + left. apply (error_of_three code 401); auto.
    + right. cbn. split; [reflexivity|]. eexists _, _. now split.
  - right. now rewrite json_logout_run.
  - unfold JsonFile.currentUser.
    destruct (JsonFile.getUserFromSession req db); cbn.
    + right. repeat split. now eexists.
    + left. apply respond_isError. auto.
  - destruct (json_placeOrder_cases env req db)
      as [(r & Hrun & Hr) | (user & c & its & _ & _ & _ & _ & _ & Hrun)].
    + left. destruct (json_placeOrder_error env req db) as (code & msg & -> & Hc).
      * now rewrite Hrun.
      * apply (error_of_three code 401); auto.
    + right. cbv zeta in Hrun. rewrite Hrun. cbn. repeat split. now eexists.
  - unfold JsonFile.listMyOrders. destruct (cookieSid req) as [sid|].
    + destruct (JsonFile.sessionSlot db sid); cbn.
      * right. repeat split. now eexists.
      * right. repeat split. now eexists.
      * left. apply respond_isError. auto.
    + left. apply respond_isError. auto.
Qed.

Lemma sqlite_answer_shape (c : Call) (db : Sqlite.Db) :
  isError (snd (sqliteHandle c db)) \/ isSuccess c (snd (sqliteHandle c db)).
Proof.
  destruct c as [env req|env req|req|req|env req|req];
    cbn [sqliteHandle isSuccess].
  - destruct (sqlite_register_cases env req db)
      as [(code & msg & -> & Hc)
         | (n & e & p & t1 & _ & _ & _ & _ & _ & _ & _ & _
            & [(_ & ->) | (t2 & _ & ->)])].
    + left. apply (error_of_three code 409); auto.
    + left. apply respond_isError. auto.
    + right. cbn. split; [reflexivity|]. eexists _, _. now split.
  - destruct (sqlite_login_cases env req db)
      as [(code & msg & -> & Hc) | (e & p & user & t & _ & _ & _ & _ & ->)].
    + left. apply (error_of_three code 401); auto.
    + right. cbn. split; [reflexivity|]. eexists _, _. now split.
  - right. now rewrite sqlite_logout_run.
  - rewrite sqlite_currentUser_run. cbn [snd].
    destruct (Sqlite.sessionUser req (Sqlite.tables db)).
    + right. repeat split. now eexists.
    + left. apply respond_isError. auto.
  - destruct (sqlite_placeOrder_cases env req db)
      as [(r & Hrun & Hr)
         | (user & c & its & t1 & _ & _ & _ & _ & _ & _ & _ & _ & ->)].
    + left. destruct (sqlite_placeOrder_error env req db) as (code & msg & -> & Hc).
      * now rewrite Hrun.
      * apply (error_of_three code 401); auto.
    + right. cbn. repeat split. now eexists.
  - rewrite sqlite_listMyOrders_run. cbn [snd].
    destruct (Sqlite.sessionUser req (Sqlite.tables db)).
    + right. repeat split. now eexists.
    + left. apply respond_isError. auto.
Qed.

(** X16: whatever the request and the store, each of the six handlers of
    either variant answers in one of two shapes: an error with status 400,
    401, 409 or 500, a message and the cookie left alone; or the success of
    that route (201 with the user and a new session cookie for a
    registration, 200 with the user and a new session cookie for a login,
    200 with the cookie cleared for a logout, 200 with the user, 201 with the
    order, 200 with the orders, the cookie left alone in the last three). *)
Theorem answers_have_a_shape (c : Call) (jdb : JsonFile.Db) (sdb : Sqlite.Db) :
  (isError (snd (jsonHandle c jdb)) \/ isSuccess c (snd (jsonHandle c jdb)))
  /\ (isError (snd (sqliteHandle c sdb)) \/ isSuccess c (snd (sqliteHandle c sdb))).
Proof. split; [apply json_answer_shape|apply sqlite_answer_shape]. Qed.

End Answers.

(** ** Nothing is ever deleted but sessions *)

Section Growth.

Lemma app_nil_end {A} (l : list A) : l = (l ++ [])%list.
Proof. now rewrite app_nil_r. Qed.

Lemma json_step_grows (c : Call) (db : JsonFile.Db) :
  exists us os,
    JsonFile.users (fst (jsonHandle c db)) = (JsonFile.users db ++ us)%list
    /\ JsonFile.orders (fst (jsonHandle c db)) = (JsonFile.orders db ++ os)%list.
Proof.
  destruct c as [env req|env req|req|req|env req|req]; cbn [jsonHandle].
  - destruct (json_register_cases env req db)
      as [(code & msg & -> & _) | (n & e & p & _ & _ & _ & _ & _ & _ & _ & ->)].
    + exists [], []. split; apply app_nil_end.
    + eexists _, []. cbn. split; [reflexivity|apply app_nil_end].
  - destruct (json_login_cases env req db)
      as [(code & msg & -> & _) | (e & p & user & _ & _ & _ & ->)];
      exists [], []; split; apply app_nil_end.
  - rewrite json_logout_run. exists [], [].
    destruct (cookieSid req); split; apply app_nil_end.
  - rewrite json_currentUser_fst. exists [], []. split; apply app_nil_end.
  - destruct (json_placeOrder_cases env req db)
      as [(r & -> & _) | (user & c & its & _ & _ & _ & _ & _ & Hrun)].
    + exists [], []. split; apply app_nil_end.
    + cbv zeta in Hrun. rewrite Hrun. eexists [], _. cbn.
      split; [apply app_nil_end|reflexivity].
  - rewrite json_listMyOrders_fst. exists [], []. split; apply app_nil_end.
Qed.

Lemma sqlite_step_grows (c : Call) (db : Sqlite.Db) :
  exists us os its,
    Sqlite.users (Sqlite.tables (fst (sqliteHandle c db)))
      = (Sqlite.users (Sqlite.tables db) ++ us)%list
    /\ Sqlite.orders (Sqlite.tables (fst (sqliteHandle c db)))
       = (Sqlite.orders (Sqlite.tables db) ++ os)%list
    /\ Sqlite.order_items (Sqlite.tables (fst (sqliteHandle c db)))
       = (Sqlite.order_items (Sqlite.tables db) ++ its)%list.
Proof.
  destruct c as [env req|env req|req|req|env req|req]; cbn [sqliteHandle].
  - destruct (sqlite_register_cases env req db)
      as [(code & msg & -> & _)
         | (n & e & p & t1 & _ & _ & _ & _ & _ & _ & _ & Hins
            & [(_ & ->) | (t2 & Hsess & ->)])]; cbn [fst Sqlite.tables].
    + exists [], [], []. repeat split; apply app_nil_end.
    + apply insertUser_some in Hins as (Hu & _ & Ho & Hi & _).
      eexists _, [], []. rewrite Hu, Ho, Hi.
      repeat split; try apply app_nil_end.
    + apply insertUser_some in Hins as (Hu & _ & Ho & Hi & _).
      apply insertSession_some in Hsess as (Hu' & _ & Ho' & Hi' & _).
      eexists _, [], []. rewrite Hu', Ho', Hi', Hu, Ho, Hi.
      repeat split; try apply app_nil_end.
  - destruct (sqlite_login_cases env req db)
      as [(code & msg & -> & _) | (e & p & user & t & _ & _ & _ & Hins & ->)];
      cbn [fst Sqlite.tables].
    + exists [], [], []. repeat split; apply app_nil_end.
    + apply insertSession_some in Hins as (Hu' & _ & Ho' & Hi' & _).
      exists [], [], []. rewrite Hu', Ho', Hi'. repeat split; apply app_nil_end.
  - rewrite sqlite_logout_run. cbn [fst Sqlite.tables]. exists [], [], [].
    destruct (cookieSid req); repeat split; apply app_nil_end.
  - rewrite sqlite_currentUser_run. exists [], [], [].
    repeat split; apply app_nil_end.
  - destruct (sqlite_placeOrder_cases env req db)
      as [(r & -> & _)
         | (user & c & its & t1 & _ & _ & _ & _ & _ & _ & _ & Hins & ->)];
      cbn [fst Sqlite.tables].
    + exists [], [], []. repeat split; apply app_nil_end.
    + apply insertOrder_exists in Hins as (_ & Hu & _ & Ho & Hi & _).
      destruct (appendItems_frame (orderIdOf env) its t1) as (Hu' & _ & Ho').
      destruct (appendItems_rows (orderIdOf env) its t1) as (rows & Hrows & _).
      eexists [], _, rows. rewrite Hu', Ho', Hrows, Hu, Ho, Hi.
      repeat split. apply app_nil_end.
  - rewrite sqlite_listMyOrders_run. exists [], [], [].
    repeat split; apply app_nil_end.
Qed.

(** X17: no sequence of requests ever removes or alters a stored user, order
    or order item: in both variants the users and the orders after the
    sequence are those before it followed by new ones, and so are the item
    rows of the SQLite variant.  Only sessions can disappear. *)
Theorem stores_only_grow
    (calls : list Call) (jdb : JsonFile.Db) (sdb : Sqlite.Db) :
  (exists us os,
      JsonFile.users (jsonRun calls jdb) = (JsonFile.users jdb ++ us)%list
      /\ JsonFile.orders (jsonRun calls jdb) = (JsonFile.orders jdb ++ os)%list)
  /\ (exists us os its,
        Sqlite.users (Sqlite.tables (sqliteRun calls sdb))
          = (Sqlite.users (Sqlite.tables sdb) ++ us)%list
        /\ Sqlite.orders (Sqlite.tables (sqliteRun calls sdb))
           = (Sqlite.orders (Sqlite.tables sdb) ++ os)%list
        /\ Sqlite.order_items (Sqlite.tables (sqliteRun calls sdb))
           = (Sqlite.order_items (Sqlite.tables sdb) ++ its)%list).
Proof.
  unfold jsonRun, sqliteRun. split.
  - revert jdb. induction calls as [|c calls IH]; intros jdb; simpl.
    + exists [], []. split; apply app_nil_end.
    + destruct (IH (fst (jsonHandle c jdb))) as (us & os & Hu & Ho).
      destruct (json_step_grows c jdb) as (us0 & os0 & Hu0 & Ho0).
      exists (us0 ++ us)%list, (os0 ++ os)%list.
      rewrite Hu, Ho, Hu0, Ho0, <- !app_assoc. now split.
  - revert sdb. induction calls as [|c calls IH]; intros sdb; simpl.
    + exists [], [], []. repeat split; apply app_nil_end.
    + destruct (IH (fst (sqliteHandle c sdb))) as (us & os & its & Hu & Ho & Hi).
      destruct (sqlite_step_grows c sdb) as (us0 & os0 & its0 & Hu0 & Ho0 & Hi0).
      exists (us0 ++ us)%list, (os0 ++ os)%list, (its0 ++ its)%list.
      rewrite Hu, Ho, Hi, Hu0, Ho0, Hi0, <- !app_assoc. now repeat split.
Qed.

End Growth.

(** ** What an order keeps of the request *)

Section Snapshot.

Lemma trimmedField_trimmed (v : json) (k x : string) :
  trimmedField v k = Some x -> trim x = x.
Proof.
  unfold trimmedField. destruct (strField v k) as [raw|]; [|discriminate].
  cbn. intros H. injection H as <-. apply trim_idem.
Qed.

Lemma customerOf_trimmed (customer : json) (c : Customer) :
  customerOf customer = Some c -> trimmedCustomer c.
Proof.
  unfold customerOf.
  destruct (trimmedField customer "name") as [n|] eqn:Hn; [|discriminate].
  destruct (trimmedField customer "phone") as [p|] eqn:Hp; [|discriminate].
  destruct (trimmedField customer "email") as [e|] eqn:He; [|discriminate].
  destruct (trimmedField customer "address") as [a|] eqn:Ha; [|discriminate].
  destruct (trimmedField customer "city") as [ci|] eqn:Hci; [|discriminate].
  destruct (trimmedField customer "state") as [s|] eqn:Hs; [|discriminate].
  destruct (trimmedField customer "pinCode") as [z|] eqn:Hz; [|discriminate].
  destruct (trimmedField customer "note") as [t|] eqn:Ht; [|discriminate].
  cbn. intros H. injection H as <-. unfold trimmedCustomer. cbn.
  repeat split; eapply trimmedField_trimmed; eassumption.
Qed.

(** X18: an order answered 201 is stored as answered, for the account of the
    session: in both variants the store gains exactly one order, owned by the
    user the cookie's session belongs to, whose id, timestamp, customer and
    items are those of the answer, and whose eight customer fields are
    trimmed (trimming them again changes nothing). *)
Theorem placed_order_is_stored_as_answered
    (env : Env) (req : Request) (jdb : JsonFile.Db) (sdb : Sqlite.Db) :
  let jrun := JsonFile.placeOrder env req jdb in
  let srun := Sqlite.placeOrder env req sdb in
  (status (snd jrun) = 201 ->
   exists user o,
     JsonFile.getUserFromSession req jdb = Some user
     /\ JsonFile.orders (fst jrun) = (JsonFile.orders jdb ++ [o])%list
     /\ JsonFile.order_userId o = JsonFile.user_id user
     /\ trimmedCustomer (JsonFile.order_customer o)
     /\ snd jrun = respond 201 (BOrder (JsonFile.sanitizeOrder o)))
  /\ (status (snd srun) = 201 ->
      exists user o rows,
        Sqlite.sessionUser req (Sqlite.tables sdb) = Some user
        /\ Sqlite.orders (Sqlite.tables (fst srun))
           = (Sqlite.orders (Sqlite.tables sdb) ++ [o])%list
        /\ Sqlite.order_items (Sqlite.tables (fst srun))
           = (Sqlite.order_items (Sqlite.tables sdb) ++ rows)%list
        /\ Forall (fun r => Sqlite.oi_order_id r = Sqlite.o_id o) rows
        /\ Sqlite.o_user_id o = Sqlite.u_id user
        /\ trimmedCustomer (Sqlite.o_customer o)
        /\ snd srun
           = respond 201
               (BOrder {| ov_id := Sqlite.o_id o;
                          ov_createdAt := Sqlite.o_created_at o;
                          ov_customer := Sqlite.o_customer o;
                          ov_items := List.map Sqlite.itemOfRow rows |})).
Proof.
  intros jrun srun. subst jrun srun. split; intros Hst.
  - destruct (json_placeOrder_cases env req jdb)
      as [(r & Hrun & Hr) | (user & c & its & Huser & _ & Hc & _ & _ & Hrun)].
    { rewrite Hrun in Hst. contradiction. }
    cbv zeta in Hrun. rewrite Hrun. cbn [fst snd JsonFile.orders].
    eexists user, _. split; [exact Huser|]. split; [reflexivity|].
    cbn. split; [reflexivity|]. split; [|reflexivity].
    now apply (customerOf_trimmed (reqCustomer req)).
  - destruct (sqlite_placeOrder_cases env req sdb)
      as [(r & Hrun & Hr)
         | (user & c & its & t1 & _ & Huser & _ & Hc & _ & _ & _ & Hins & Hrun)].
    { rewrite Hrun in Hst. contradiction. }
    rewrite Hrun. cbn [fst snd Sqlite.tables].
    apply insertOrder_exists in Hins as (_ & _ & _ & Ho & Hi & _).
    destruct (appendItems_frame (orderIdOf env) its t1) as (_ & _ & Ho').
    destruct (appendItems_rows (orderIdOf env) its t1) as (rows & Hrows & Hmap & Hall).
    eexists user, _, rows. rewrite Ho', Ho, Hrows, Hi, Hmap.
    split; [exact Huser|]. split; [reflexivity|]. split; [reflexivity|].
    cbn. split; [exact Hall|]. split; [reflexivity|]. split; [|reflexivity].
    now apply (customerOf_trimmed (reqCustomer req)).
Qed.

Lemma placed_order_is_stored_as_answered_witness :
  let req := orderRequest "s-1" customerBlankName [itemPrd1] in
  (exists o,
     JsonFile.orders (fst (JsonFile.placeOrder envLater req jsonShiva))
       = (JsonFile.orders jsonShiva ++ [o])%list
     /\ trimmedCustomer (JsonFile.order_customer o))
  /\ (exists o,
        Sqlite.orders (Sqlite.tables (fst (Sqlite.placeOrder envLater req sqliteShiva)))
          = (Sqlite.orders (Sqlite.tables sqliteShiva) ++ [o])%list
        /\ trimmedCustomer (Sqlite.o_customer o)).
Proof.
  intros req.
  destruct (placed_order_is_stored_as_answered envLater req jsonShiva sqliteShiva)
    as [Hj Hs].
  split.
  - destruct Hj as (user & o & _ & Ho & _ & Ht & _); [vm_compute; reflexivity|].
    exists o. now split.
  - destruct Hs as (user & o & rows & _ & Ho & _ & _ & _ & Ht & _);
      [vm_compute; reflexivity|].
    exists o. now split.
Defined.

End Snapshot.

(** ** The two variants answer alike on the account routes *)

Section Variants.

Lemma head_filter_map {A B} (f : B -> bool) (g : A -> B) (l : list A) :
  head (List.filter f (List.map g l))
  = option_map g (List.find (fun x => f (g x)) l).
Proof.
  induction l as [|a l IH]; simpl; [reflexivity|].
  destruct (f (g a)); [reflexivity|exact IH].
Qed.

Lemma filter_unique {A} (g : A -> string) (k : string) (l : list A) (a : A) :
  List.NoDup (List.map g l) -> In a l -> g a = k ->
  List.filter (fun x => String.eqb (g x) k) l = [a].
Proof.
  intros Hnd Hin <-. induction l as [|b l IH]; [contradiction|].
  simpl in Hnd. inversion Hnd as [|? ? Hfresh Hnd']; subst. simpl.
  destruct Hin as [-> | Hin].
  - rewrite String.eqb_refl. f_equal. apply filter_nil_iff.
    apply Forall_neq_eqb. apply List.Forall_forall. intros x Hx E.
    apply Hfresh. rewrite <- E. now apply in_map.
  - destruct (String.eqb (g b) (g a)) eqn:E; [|now apply IH].
    apply String.eqb_eq in E. exfalso. apply Hfresh. rewrite E. now apply in_map.
Qed.

Lemma sessionRow_eta (r : Sqlite.SessionRow) :
  r = sessionRow (Sqlite.s_id r)
        {| JsonFile.userId := Sqlite.s_user_id r;
           JsonFile.session_createdAt := Sqlite.s_created_at r |}.
Proof. now destruct r. Qed.

Lemma session_free (jdb : JsonFile.Db) (t : Sqlite.Tables) (sid : string) :
  sameAccounts jdb t -> JsonFile.sessions jdb !! sid = None ->
  Forall (fun r => Sqlite.s_id r <> sid) (Sqlite.sessions t).
Proof.
  intros [_ Hs _] Hnone. apply List.Forall_forall. intros r Hr E.
  rewrite (sessionRow_eta r), E in Hr. apply Hs in Hr. congruence.
Qed.

Lemma same_session_user (req : Request) (jdb : JsonFile.Db) (t : Sqlite.Tables) :
  sameAccounts jdb t ->
  Sqlite.sessionUser req t
  = option_map userRow (JsonFile.getUserFromSession req jdb).
Proof.
  intros Hsame. destruct Hsame as [Hu Hs Hnd].
  unfold Sqlite.sessionUser, JsonFile.getUserFromSession.
  destruct (cookieSid req) as [sid|]; [|reflexivity].
  unfold Sqlite.selectSessionUser, JsonFile.sessionSlot.
  destruct (JsonFile.sessions jdb !! sid) as [s|] eqn:Hsid.
  - apply Hs in Hsid.
    rewrite (filter_unique Sqlite.s_id sid _ _ Hnd Hsid eq_refl).
    cbn [flat_map JsonFile.slotUserId JsonFile.findUserById sessionRow
         Sqlite.s_user_id].
    rewrite app_nil_r, Hu. apply head_filter_map.
  - assert (Hnil : List.filter (fun s => String.eqb (Sqlite.s_id s) sid)
                     (Sqlite.sessions t) = []).
    { apply filter_nil_iff, Forall_neq_eqb.
      apply (session_free jdb); [now constructor|exact Hsid]. }
    rewrite Hnil. cbn [flat_map head].
    now destruct (existsb _ JsonFile.objectPrototypeKeys).
Qed.

Lemma same_email_user (e : string) (jdb : JsonFile.Db) (t : Sqlite.Tables) :
  sameAccounts jdb t ->
  Sqlite.selectUserByEmail e t
  = option_map userRow (JsonFile.findUserByEmail jdb e).
Proof.
  intros [Hu _ _]. unfold Sqlite.selectUserByEmail, JsonFile.findUserByEmail.
  rewrite Hu. apply head_filter_map.
Qed.

Lemma same_email_taken (e : string) (jdb : JsonFile.Db) :
  existsb (fun u => String.eqb (JsonFile.user_email u) e) (JsonFile.users jdb)
  = match JsonFile.findUserByEmail jdb e with Some _ => true | None => false end.
Proof.
  unfold JsonFile.findUserByEmail.
  induction (JsonFile.users jdb) as [|u l IH]; simpl; [reflexivity|].
  now destruct (String.eqb (JsonFile.user_email u) e).
Qed.

Lemma sameAccounts_new_session
    (jdb jdb' : JsonFile.Db) (t t' : Sqlite.Tables) (sid uid created : string) :
  sameAccounts jdb t ->
  JsonFile.sessions jdb !! sid = None ->
  Sqlite.users t' = List.map userRow (JsonFile.users jdb') ->
  JsonFile.sessions jdb'
    = <[sid := {| JsonFile.userId := uid; JsonFile.session_createdAt := created |}]>
        (JsonFile.sessions jdb) ->
  Sqlite.sessions t'
    = (Sqlite.sessions t
       ++ [{| Sqlite.s_id := sid; Sqlite.s_user_id := uid;
              Sqlite.s_created_at := created |}])%list ->
  sameAccounts jdb' t'.
Proof.
  intros Hsame Hnone Hu' Hs' Ht'.
  pose proof (session_free jdb t sid Hsame Hnone) as Hfree.
  destruct Hsame as [Hu Hs Hnd].
  constructor; [exact Hu'| |].
  - intros sid' s. rewrite Hs', Ht', in_app_iff.
    destruct (decide (sid = sid')) as [<-|Hne].
    + rewrite lookup_insert_eq. split.
      * intros H. injection H as <-. right. now left.
      * intros [H|[H|[]]].
        -- exfalso. rewrite List.Forall_forall in Hfree.
           exact (Hfree _ H eq_refl).
        -- unfold sessionRow in H. destruct s. cbn in H.
           injection H as -> ->. reflexivity.
    + rewrite lookup_insert_ne by exact Hne. rewrite Hs. split.
      * intros H. now left.
      * intros [H|[H|[]]]; [exact H|].
        unfold sessionRow in H. injection H as H _ _. contradiction.
  - rewrite Ht', map_app. apply NoDup_snoc; [exact Hnd|].
    now apply fresh_not_in.
Qed.

Lemma register_variants_agree
    (env : Env) (req : Request) (jdb : JsonFile.Db) (sdb : Sqlite.Db) :
  sameAccounts jdb (Sqlite.tables sdb) ->
  freshIds (Register env req) jdb ->
  snd (JsonFile.register env req jdb) = snd (Sqlite.register env req sdb)
  /\ sameAccounts (fst (JsonFile.register env req jdb))
       (Sqlite.tables (fst (Sqlite.register env req sdb))).
Proof.
  intros Hsame [Hid Hsid].
  destruct (reqName req) as [n|] eqn:Hn.
  2:{ unfold JsonFile.register, JsonFile.register_try,
        Sqlite.register, Sqlite.catch500, Sqlite.register_try.
      rewrite Hn, SqlFacts.bind_eval. now split. }
  destruct (reqEmail req) as [e|] eqn:He.
  2:{ unfold JsonFile.register, JsonFile.register_try,
        Sqlite.register, Sqlite.catch500, Sqlite.register_try.
      rewrite Hn, He, !SqlFacts.bind_eval. now split. }
  destruct (reqPassword req) as [p|] eqn:Hp.
  2:{ unfold JsonFile.register, JsonFile.register_try,
        Sqlite.register, Sqlite.catch500, Sqlite.register_try.
      rewrite Hn, He, Hp, !SqlFacts.bind_eval. now split. }
  rewrite (json_register_steps env req n e p Hn He Hp).
  rewrite (sqlite_register_steps env req n e p Hn He Hp).
  destruct (isEmpty n || isEmpty e || isEmpty p); [now split|].
  rewrite same_email_taken, (same_email_user e jdb _ Hsame).
  destruct (JsonFile.findUserByEmail jdb e) as [u|] eqn:Hfind; cbn [option_map];
    [now split|].
  cbv zeta.
  pose proof (sa_users _ _ Hsame) as Hu.
  assert (Hins : Sqlite.insertUser (newSqliteUser env n e p) (Sqlite.tables sdb)
                 = Some {| Sqlite.users :=
                             (Sqlite.users (Sqlite.tables sdb)
                              ++ [newSqliteUser env n e p])%list;
                           Sqlite.sessions := Sqlite.sessions (Sqlite.tables sdb);
                           Sqlite.orders := Sqlite.orders (Sqlite.tables sdb);
                           Sqlite.order_items := Sqlite.order_items (Sqlite.tables sdb);
                           Sqlite.order_items_seq :=
                             Sqlite.order_items_seq (Sqlite.tables sdb) |}).
  { unfold Sqlite.insertUser. cbn [newSqliteUser Sqlite.u_id Sqlite.u_email].
    rewrite (existsb_notIn_map Sqlite.u_id).
    2:{ rewrite Hu, map_map. exact Hid. }
    rewrite (existsb_notIn_map Sqlite.u_email); [reflexivity|].
    rewrite Hu, map_map. apply fresh_not_in, Forall_neq_eqb.
    now apply find_none_iff in Hfind. }
  unfold newSqliteUser in Hins. rewrite Hins.
  unfold Sqlite.insertSession.
  cbn [Sqlite.sessions Sqlite.users Sqlite.s_id Sqlite.s_user_id].
  rewrite (existsb_notIn_map Sqlite.s_id).
  2:{ apply fresh_not_in. exact (session_free jdb _ _ Hsame Hsid). }
  rewrite existsb_app. cbn [existsb Sqlite.u_id].
  rewrite String.eqb_refl, orb_true_r. cbn [orb negb fst snd Sqlite.tables].
  split; [reflexivity|].
  eapply (sameAccounts_new_session jdb _ (Sqlite.tables sdb) _
            (randomUUID_2 env) (randomUUID_1 env) (toISOString_2 env) Hsame Hsid).
  - cbn. rewrite Hu, map_app. reflexivity.
  - reflexivity.
  - reflexivity.
Qed.

Lemma login_variants_agree
    (env : Env) (req : Request) (jdb : JsonFile.Db) (sdb : Sqlite.Db) :
  sameAccounts jdb (Sqlite.tables sdb) ->
  freshIds (Login env req) jdb ->
  snd (JsonFile.login env req jdb) = snd (Sqlite.login env req sdb)
  /\ sameAccounts (fst (JsonFile.login env req jdb))
       (Sqlite.tables (fst (Sqlite.login env req sdb))).
Proof.
  intros Hsame Hsid. cbn [freshIds] in Hsid.
  destruct (loginFields_or_400 req)
    as [(e & p & Hf) | [He | [(e & He & Hp) | (e & p & He & Hp & Hempty)]]].
  - rewrite (json_login_steps env req e p Hf), (sqlite_login_steps env req e p Hf).
    rewrite (same_email_user e jdb _ Hsame).
    destruct (JsonFile.findUserByEmail jdb e) as [u|] eqn:Hfind; cbn [option_map];
      [|now split].
    cbn [userRow Sqlite.u_password_hash Sqlite.u_id].
    destruct (bcrypt_compare env p (JsonFile.user_passwordHash u)); [|now split].
    unfold Sqlite.insertSession.
    cbn [Sqlite.sessions Sqlite.users Sqlite.s_id Sqlite.s_user_id].
    rewrite (existsb_notIn_map Sqlite.s_id).
    2:{ apply fresh_not_in. exact (session_free jdb _ _ Hsame Hsid). }
    rewrite (existsb_In_map Sqlite.u_id).
    2:{ rewrite (sa_users _ _ Hsame), map_map. cbn.
        apply find_some in Hfind as [Hin _].
        now apply (in_map JsonFile.user_id). }
    cbn [orb negb fst snd Sqlite.tables]. split; [reflexivity|].
    eapply (sameAccounts_new_session jdb _ (Sqlite.tables sdb) _
              (randomUUID_1 env) (JsonFile.user_id u) (toISOString_1 env)
              Hsame Hsid).
    + cbn. exact (sa_users _ _ Hsame).
    + reflexivity.
    + reflexivity.
  - unfold JsonFile.login, JsonFile.login_try,
      Sqlite.login, Sqlite.catch500, Sqlite.login_try.
    rewrite He, SqlFacts.bind_eval. now split.
  - unfold JsonFile.login, JsonFile.login_try,
      Sqlite.login, Sqlite.catch500, Sqlite.login_try.
    rewrite He, Hp, !SqlFacts.bind_eval. now split.
  - unfold JsonFile.login, JsonFile.login_try,
      Sqlite.login, Sqlite.catch500, Sqlite.login_try.
    rewrite He, Hp, !SqlFacts.bind_eval. cbn [mbind option_bind].
    rewrite Hempty. now split.
Qed.

Lemma logout_variants_agree
    (req : Request) (jdb : JsonFile.Db) (sdb : Sqlite.Db) :
  sameAccounts jdb (Sqlite.tables sdb) ->
  snd (JsonFile.logout req jdb) = snd (Sqlite.logout req sdb)
  /\ sameAccounts (fst (JsonFile.logout req jdb))
       (Sqlite.tables (fst (Sqlite.logout req sdb))).
Proof.
  intros Hsame. rewrite json_logout_run, sqlite_logout_run.
  split; [reflexivity|]. cbn [fst Sqlite.tables].
  destruct (cookieSid req) as [sid|]; [|exact Hsame].
  destruct Hsame as [Hu Hs Hnd].
  constructor; cbn [JsonFile.users JsonFile.sessions Sqlite.users Sqlite.sessions].
  - exact Hu.
  - intros sid' s. rewrite lookup_delete_Some, filter_In, Hs.
    cbn [sessionRow Sqlite.s_id]. rewrite negb_true_iff, String.eqb_neq.
    split; intros [H1 H2]; split; auto.
  - now apply NoDup_map_filter.
Qed.

Lemma currentUser_variants_agree
    (req : Request) (jdb : JsonFile.Db) (sdb : Sqlite.Db) :
  sameAccounts jdb (Sqlite.tables sdb) ->
  snd (JsonFile.currentUser req jdb) = snd (Sqlite.currentUser req sdb)
  /\ sameAccounts (fst (JsonFile.currentUser req jdb))
       (Sqlite.tables (fst (Sqlite.currentUser req sdb))).
Proof.
  intros Hsame. rewrite sqlite_currentUser_run, json_currentUser_fst.
  split; [|exact Hsame]. cbn [snd].
  rewrite (same_session_user req jdb _ Hsame). unfold JsonFile.currentUser.
  now destruct (JsonFile.getUserFromSession req jdb).
Qed.

(** X19: on the four account routes the two variants are interchangeable.
    When the JSON file and the SQLite tables hold the same users and the same
    sessions, and the identifiers drawn for the request are not in use, a
    registration, login, logout or [/auth/me] request gets the same answer
    (status, body and cookie) from both, and both stores again hold the same
    users and sessions. *)
Theorem auth_variants_agree (c : Call) (jdb : JsonFile.Db) (sdb : Sqlite.Db) :
  isAuth c = true ->
  sameAccounts jdb (Sqlite.tables sdb) ->
  freshIds c jdb ->
  snd (jsonHandle c jdb) = snd (sqliteHandle c sdb)
  /\ sameAccounts (fst (jsonHandle c jdb)) (Sqlite.tables (fst (sqliteHandle c sdb))).
Proof.
  intros Hauth Hsame Hfresh.
  destruct c as [env req|env req|req|req|env req|req];
    cbn [jsonHandle sqliteHandle]; try discriminate Hauth.
  - now apply register_variants_agree.
  - now apply login_variants_agree.
  - now apply logout_variants_agree.
  - now apply currentUser_variants_agree.
Qed.

Lemma sameAccounts_initial :
  sameAccounts JsonFile.initial (Sqlite.tables Sqlite.initial).
Proof.
  constructor; cbn.
  - reflexivity.
  - intros sid s. rewrite lookup_empty. split; [discriminate|intros []].
  - constructor.
Qed.

Lemma auth_variants_agree_witness :
  snd (jsonHandle (Register envRegister registerShiva) JsonFile.initial)
  = snd (sqliteHandle (Register envRegister registerShiva) Sqlite.initial)
  /\ sameAccounts jsonShiva (Sqlite.tables sqliteShiva).
Proof.
  apply (auth_variants_agree (Register envRegister registerShiva)
           JsonFile.initial Sqlite.initial).
  - reflexivity.
  - exact sameAccounts_initial.
  - split; [intros []|apply lookup_empty].
Defined.

End Variants.

(** ** When the two variants answer an order alike *)

Section OrderVariants.

Lemma json_placeOrder_steps (env : Env) (req : Request) (db : JsonFile.Db) :
  snd (JsonFile.placeOrder env req db) =
    match JsonFile.getUserFromSession req db with
    | None => notAuthenticated
    | Some user =>
        if customerMissing (reqCustomer req) then
          respond 400 (BError "customer name, phone, and address are required")
        else if (length (reqItems req) =? 0)%nat then
          respond 400 (BError "at least one order item is required")
        else match customerOf (reqCustomer req), itemsOf env (reqItems req) with
             | Some c, Some its =>
                 respond 201
                   (BOrder {| ov_id := orderIdOf env;
                              ov_createdAt := toISOString_1 env;
                              ov_customer := c; ov_items := its |})
             | _, _ => internalError
             end
    end.
Proof.
  unfold JsonFile.placeOrder, JsonFile.placeOrder_try, JsonFile.getUserFromSession.
  destruct (cookieSid req) as [sid|]; [|reflexivity].
  destruct (JsonFile.sessionSlot db sid) as [s| |];
    cbn [JsonFile.slotUserId JsonFile.findUserById]; try reflexivity.
  destruct (List.find _ (JsonFile.users db)) as [user|]; [|reflexivity].
  destruct (customerMissing (reqCustomer req)); [reflexivity|].
  destruct (length (reqItems req) =? 0)%nat; [reflexivity|].
  destruct (customerOf (reqCustomer req)) as [c|]; [|reflexivity].
  destruct (itemsOf env (reqItems req)) as [its|]; reflexivity.
Qed.

Lemma forEach_insertItem_ok (env : Env) (orderId : string) (items : list json) :
  forall its db,
    existsb (fun o => String.eqb (Sqlite.o_id o) orderId)
      (Sqlite.orders (Sqlite.tables db)) = true ->
    itemsOf env items = Some its ->
    Forall (fun it => qty it <> NNaN) its ->
    snd (Sqlite.forEach (Sqlite.insertItem env orderId) items db) = Some tt.
Proof.
  induction items as [|x rest IH]; intros its db Hex Hits Hall; [reflexivity|].
  cbn [Sqlite.forEach itemsOf] in *.
  pose proof (insertItem_run env orderId x db Hex) as Hx.
  destruct (itemOf env x) as [it|]; [|discriminate Hits].
  cbn [mbind option_bind] in Hits.
  destruct (itemsOf env rest) as [its'|] eqn:Hrest; [|discriminate Hits].
  cbn in Hits. injection Hits as <-.
  inversion Hall as [|? ? Hq Hall']; subst.
  apply jsnum_not_nan in Hq. rewrite Hq in Hx.
  rewrite (SqlFacts.bind_ok _ _ _ _ _ Hx).
  apply (IH its'); [exact Hex|reflexivity|exact Hall'].
Qed.

Lemma orderStatements_ok (env : Env) (user : Sqlite.UserRow) (customer : json)
    (items : list json) (t t0 : Sqlite.Tables) (c : Customer) (its : list Item) :
  customerOf customer = Some c ->
  itemsOf env items = Some its ->
  Forall (fun it => qty it <> NNaN) its ->
  ~ In (orderIdOf env) (List.map Sqlite.o_id (Sqlite.orders t)) ->
  In user (Sqlite.users t) ->
  snd (Sqlite.orderStatements env user customer items
         {| Sqlite.tables := t; Sqlite.journal := Some t0 |}) = Some tt.
Proof.
  intros Hc Hits Hall Hfresh Huser.
  destruct (orderStatements_cases env user customer items t t0)
    as [(c' & its' & t1 & _ & _ & _ & _ & ->) | (t' & Hrun)]; [reflexivity|].
  exfalso. revert Hrun.
  unfold Sqlite.orderStatements. rewrite SqlFacts.bind_eval, Hc.
  set (row := {| Sqlite.o_id := orderIdOf env; Sqlite.o_user_id := Sqlite.u_id user;
                 Sqlite.o_created_at := toISOString_1 env;
                 Sqlite.o_customer := c |}).
  assert (Hins : exists t1, Sqlite.insertOrder row t = Some t1).
  { unfold Sqlite.insertOrder. cbn [row Sqlite.o_id Sqlite.o_user_id].
    rewrite (existsb_notIn_map Sqlite.o_id _ _ Hfresh).
    rewrite (existsb_In_map Sqlite.u_id); [|now apply in_map].
    cbn [orb negb]. now eexists. }
  destruct Hins as [t1 Hins].
  assert (Hrow : Sqlite.runAsync (Sqlite.insertOrder row)
                   {| Sqlite.tables := t; Sqlite.journal := Some t0 |}
                 = ({| Sqlite.tables := t1; Sqlite.journal := Some t0 |}, Some tt)).
  { unfold Sqlite.runAsync. cbn [Sqlite.tables]. now rewrite Hins. }
  rewrite (SqlFacts.bind_ok _ _ _ _ _ Hrow).
  destruct (insertOrder_exists _ _ _ Hins) as (Hex & _).
  cbn [Sqlite.o_id row] in Hex.
  pose proof (forEach_insertItem_ok env (orderIdOf env) items its
                {| Sqlite.tables := t1; Sqlite.journal := Some t0 |}
                Hex Hits Hall) as Hloop.
  destruct (forEach_insertItem env (orderIdOf env) items
              {| Sqlite.tables := t1; Sqlite.journal := Some t0 |} Hex)
    as [(its' & _ & _ & Hrun) | (db' & Hrun & _)].
  - rewrite (SqlFacts.bind_ok _ _ _ _ _ Hrun). discriminate.
  - rewrite Hrun in Hloop. discriminate Hloop.
Qed.

Lemma sqlite_placeOrder_steps (env : Env) (req : Request) (db : Sqlite.Db) :
  Sqlite.journal db = None ->
  ~ In (orderIdOf env) (List.map Sqlite.o_id (Sqlite.orders (Sqlite.tables db))) ->
  (forall its, itemsOf env (reqItems req) = Some its ->
               Forall (fun it => qty it <> NNaN) its) ->
  snd (Sqlite.placeOrder env req db) =
    match Sqlite.sessionUser req (Sqlite.tables db) with
    | None => notAuthenticated
    | Some user =>
        if customerMissing (reqCustomer req) then
          respond 400 (BError "customer name, phone, and address are required")
        else if (length (reqItems req) =? 0)%nat then
          respond 400 (BError "at least one order item is required")
        else match customerOf (reqCustomer req), itemsOf env (reqItems req) with
             | Some c, Some its =>
                 respond 201
                   (BOrder {| ov_id := orderIdOf env;
                              ov_createdAt := toISOString_1 env;
                              ov_customer := c; ov_items := its |})
             | _, _ => internalError
             end
    end.
Proof.
  intros Hj Hfresh Hnum.
  unfold Sqlite.placeOrder, Sqlite.catch500, Sqlite.placeOrder_try.
  rewrite (SqlFacts.bind_ok _ _ _ _ _ (getUserFromSession_run req db)).
  destruct (Sqlite.sessionUser req (Sqlite.tables db)) as [user|] eqn:Huser;
    [|reflexivity].
  destruct (customerMissing (reqCustomer req)); [reflexivity|].
  destruct (length (reqItems req) =? 0)%nat; [reflexivity|].
  apply sessionUser_In in Huser.
  destruct db as [t j]. cbn [Sqlite.tables Sqlite.journal] in *. subst j.
  assert (Hbegin : Sqlite.beginTransaction
                     {| Sqlite.tables := t; Sqlite.journal := None |}
                   = ({| Sqlite.tables := t; Sqlite.journal := Some t |}, Some tt))
    by reflexivity.
  rewrite (SqlFacts.bind_ok _ _ _ _ _ Hbegin).
  destruct (orderStatements_cases env user (reqCustomer req) (reqItems req) t t)
    as [(c & its & t1 & Hc & Hits & Hall & Hins & Hrun) | (t' & Hrun)].
  - assert (Htry : Sqlite.tryCatch
                     (Sqlite.orderStatements env user (reqCustomer req) (reqItems req))
                     (Sqlite.bind Sqlite.rollback (fun _ => Sqlite.throw))
                     {| Sqlite.tables := t; Sqlite.journal := Some t |}
                   = ({| Sqlite.tables := Sqlite.appendItems (orderIdOf env) its t1;
                         Sqlite.journal := None |}, Some tt)).
    { unfold Sqlite.tryCatch. now rewrite Hrun. }
    rewrite (SqlFacts.bind_ok _ _ _ _ _ Htry).
    now rewrite !SqlFacts.bind_eval, Hc, Hits.
  - assert (Htry : Sqlite.tryCatch
                     (Sqlite.orderStatements env user (reqCustomer req) (reqItems req))
                     (Sqlite.bind Sqlite.rollback (fun _ => Sqlite.throw))
                     {| Sqlite.tables := t; Sqlite.journal := Some t |}
                   = ({| Sqlite.tables := t; Sqlite.journal := None |}, None)).
    { unfold Sqlite.tryCatch. now rewrite Hrun. }
    rewrite (SqlFacts.bind_throw _ _ _ _ Htry). cbn [snd].
    destruct (customerOf (reqCustomer req)) as [c|] eqn:Hc; [|reflexivity].
    destruct (itemsOf env (reqItems req)) as [its|] eqn:Hits; [|reflexivity].
    pose proof (orderStatements_ok env user (reqCustomer req) (reqItems req)
                  t t c its Hc Hits (Hnum its eq_refl) Hfresh Huser) as Hok.
    rewrite Hrun in Hok. discriminate Hok.
Qed.

(** X20: the two variants answer an order alike, whatever the request, when
    they hold the same users and sessions, no SQLite transaction is open, the
    order id of this millisecond is not yet an order's, and no quantity of
    the request converts to NaN.  (An id already in use or a NaN quantity is
    where they part: the SQLite variant answers 500.) *)
Theorem placeOrder_variants_agree
    (env : Env) (req : Request) (jdb : JsonFile.Db) (sdb : Sqlite.Db) :
  sameAccounts jdb (Sqlite.tables sdb) ->
  Sqlite.journal sdb = None ->
  ~ In (orderIdOf env) (List.map Sqlite.o_id (Sqlite.orders (Sqlite.tables sdb))) ->
  (forall its, itemsOf env (reqItems req) = Some its ->
               Forall (fun it => qty it <> NNaN) its) ->
  snd (JsonFile.placeOrder env req jdb) = snd (Sqlite.placeOrder env req sdb).
Proof.
  intros Hsame Hj Hfresh Hnum.
  rewrite json_placeOrder_steps, (sqlite_placeOrder_steps env req sdb Hj Hfresh Hnum).
  rewrite (same_session_user req jdb _ Hsame).
  now destruct (JsonFile.getUserFromSession req jdb).
Qed.

Lemma sameAccounts_shiva : sameAccounts jsonShiva (Sqlite.tables sqliteShiva).
Proof.
  apply (register_variants_agree envRegister registerShiva
           JsonFile.initial Sqlite.initial).
  - exact sameAccounts_initial.
  - split; [intros []|apply lookup_empty].
Qed.

Lemma placeOrder_variants_agree_witness :
  let req := orderRequest "s-1" customerShiva [itemPrd1; itemNegative] in
  snd (JsonFile.placeOrder envLater req jsonShiva)
  = snd (Sqlite.placeOrder envLater req sqliteShiva).
Proof.
  intros req.
  apply (placeOrder_variants_agree envLater req jsonShiva sqliteShiva).
  - exact sameAccounts_shiva.
  - reflexivity.
  - intros [].
  - intros its Hits. vm_compute in Hits. injection Hits as <-.
    repeat constructor; discriminate.
Defined.

End OrderVariants.

(** ** A listing shows nothing of another account *)

Section Isolation.
Import Sqlite Listing.

Lemma rowsOfOrder_item (t : Tables) (o : OrderRow) (x : JoinedRow) (i : ItemRow) :
  In x (rowsOfOrder t o) -> jr_item x = Some i ->
  In i (order_items t) /\ oi_order_id i = o_id o.
Proof.
  unfold rowsOfOrder, itemsOfOrder.
  destruct (List.filter _ (order_items t)) as [|j its] eqn:E.
  - intros [<-|[]]. discriminate.
  - intros H Hi. apply in_map_iff in H as (k & <- & Hk). cbn in Hi.
    injection Hi as ->. rewrite <- E in Hk. apply filter_In in Hk as [Hin Hk].
    split; [exact Hin|]. now apply String.eqb_eq.
Qed.

Lemma listing_own (uid : string) (t : Tables) (v : OrderView) :
  In v (listing (selectOrders uid t)) ->
  exists o,
    In o (orders t) /\ o_user_id o = uid
    /\ ov_id v = o_id o /\ ov_createdAt v = o_created_at o
    /\ ov_customer v = o_customer o
    /\ Forall (fun it => exists i, In i (order_items t)
                                   /\ oi_order_id i = o_id o
                                   /\ oi_product_id i <> ""
                                   /\ it = itemOfRow i) (ov_items v).
Proof.
  unfold listing. intros H. apply in_map_iff in H as (r & <- & Hr).
  apply firsts_In in Hr. apply selectOrders_In in Hr as (o & Ho & Hr).
  pose proof (rowsOfOrder_order t o r Hr) as Hro.
  apply filter_In in Ho as [Ho Huid]. apply String.eqb_eq in Huid.
  exists o. unfold mkView, key. cbn. rewrite Hro.
  repeat split; try assumption.
  apply List.Forall_forall. intros it Hit. unfold itemsFor in Hit.
  apply in_flat_map in Hit as (r' & Hr' & Hit).
  destruct (String.eqb (key r') (o_id o)) eqn:Hk; [|contradiction].
  apply String.eqb_eq in Hk.
  apply selectOrders_In in Hr' as (o' & _ & Hr').
  pose proof (rowsOfOrder_order t o' r' Hr') as Hro'.
  unfold keepItem in Hit. destruct (jr_item r') as [i|] eqn:Hi; [|contradiction].
  destruct (String.eqb (oi_product_id i) "") eqn:Hp; [contradiction|].
  destruct Hit as [<-|[]].
  destruct (rowsOfOrder_item t o' r' i Hr' Hi) as [Hin Hoid].
  exists i. repeat split; try assumption.
  - rewrite Hoid, <- Hk. unfold key. now rewrite Hro'.
  - now apply String.eqb_neq.
Qed.

(** X21: a listing shows nothing of another account.  Every order in the
    answer of [/orders/me] is a stored order whose owner is the user of the
    cookie's session: in the JSON-file variant it is that order without its
    owner; in the SQLite variant it has the id, time stamp and customer of
    that row, and each of its items is an item row of that very order. *)
Theorem listing_shows_only_own_orders
    (req : Request) (jdb : JsonFile.Db) (sdb : Sqlite.Db)
    (views : list OrderView) (v : OrderView) :
  In v views ->
  (snd (JsonFile.listMyOrders req jdb) = respond 200 (BOrders views) ->
   exists sid s o,
     cookieSid req = Some sid
     /\ JsonFile.sessions jdb !! sid = Some s
     /\ In o (JsonFile.orders jdb)
     /\ JsonFile.order_userId o = JsonFile.userId s
     /\ v = JsonFile.sanitizeOrder o)
  /\ (snd (Sqlite.listMyOrders req sdb) = respond 200 (BOrders views) ->
      exists user o,
        sessionUser req (tables sdb) = Some user
        /\ In o (orders (tables sdb))
        /\ o_user_id o = u_id user
        /\ ov_id v = o_id o /\ ov_createdAt v = o_created_at o
        /\ ov_customer v = o_customer o
        /\ Forall (fun it => exists i, In i (order_items (tables sdb))
                                       /\ oi_order_id i = o_id o
                                       /\ oi_product_id i <> ""
                                       /\ it = itemOfRow i) (ov_items v)).
Proof.
  intros Hv. split.
  - unfold JsonFile.listMyOrders, JsonFile.sessionSlot.
    destruct (cookieSid req) as [sid|]; [|discriminate].
    destruct (JsonFile.sessions jdb !! sid) as [s|] eqn:Hs.
    + cbn. intros H. injection H as <-.
      apply in_map_iff in Hv as (o & <- & Ho).
      apply filter_In in Ho as [Ho Hown]. cbn in Hown.
      apply String.eqb_eq in Hown. now exists sid, s, o.
    + destruct (existsb _ JsonFile.objectPrototypeKeys); [|discriminate].
      cbn. intros H. injection H as <-.
      apply in_map_iff in Hv as (o & _ & Ho).
      apply filter_In in Ho as [_ Hown]. discriminate Hown.
  - rewrite sqlite_listMyOrders_run. cbn [snd].
    destruct (sessionUser req (tables sdb)) as [user|]; [|discriminate].
    intros H. injection H as <-. rewrite reassemble_listing in Hv.
    destruct (listing_own _ _ _ Hv) as (o & Ho).
    now exists user, o.
Qed.

Lemma listing_shows_only_own_orders_witness :
  exists v,
    head jsonTwoOrdersViews = Some v
    /\ exists sid s o,
         cookieSid (myOrders "s-1") = Some sid
         /\ JsonFile.sessions jsonTwoOrders !! sid = Some s
         /\ In o (JsonFile.orders jsonTwoOrders)
         /\ JsonFile.order_userId o = JsonFile.userId s
         /\ v = JsonFile.sanitizeOrder o.
Proof.
  eexists. split; [vm_compute; reflexivity|].
  apply (proj1 (listing_shows_only_own_orders (myOrders "s-1") jsonTwoOrders
                  sqliteTwoOrders jsonTwoOrdersViews _ (or_introl eq_refl))).
  vm_compute. reflexivity.
Defined.

End Isolation.

(** ** Requests without a session *)

Section NoSession.

(** X22: a request whose cookie is absent, empty or names no session is
    answered 401 "not authenticated" by [/auth/me], [POST /orders] and
    [/orders/me], and 200 by the logout, and none of the four changes the
    store, in either variant. *)
Theorem no_session_is_401
    (env : Env) (req : Request) (jdb : JsonFile.Db) (sdb : Sqlite.Db) :
  noJsonSession req jdb ->
  noSqliteSession req (Sqlite.tables sdb) ->
  (JsonFile.currentUser req jdb = (jdb, notAuthenticated)
   /\ JsonFile.placeOrder env req jdb = (jdb, notAuthenticated)
   /\ JsonFile.listMyOrders req jdb = (jdb, notAuthenticated)
   /\ JsonFile.logout req jdb = (jdb, loggedOut))
  /\ (Sqlite.currentUser req sdb = (sdb, notAuthenticated)
      /\ Sqlite.placeOrder env req sdb = (sdb, notAuthenticated)
      /\ Sqlite.listMyOrders req sdb = (sdb, notAuthenticated)
      /\ Sqlite.logout req sdb = (sdb, loggedOut)).
Proof.
  unfold noJsonSession, noSqliteSession. intros Hj Hs. split.
  - assert (Hslot : cookieSid req = None
                    \/ exists sid, cookieSid req = Some sid
                                   /\ JsonFile.sessionSlot jdb sid = JsonFile.Missing).
    { destruct (cookieSid req) as [sid|]; [|now left].
      right. exists sid. split; [reflexivity|].
      destruct Hj as [Hnone Hkey]. unfold JsonFile.sessionSlot. rewrite Hnone.
      destruct (existsb _ JsonFile.objectPrototypeKeys) eqn:E; [|reflexivity].
      exfalso. apply Hkey. apply existsb_exists in E as (k & Hk & E).
      apply String.eqb_eq in E. now subst. }
    assert (Hnone : JsonFile.getUserFromSession req jdb = None).
    { unfold JsonFile.getUserFromSession.
      destruct Hslot as [-> | (sid & -> & ->)]; reflexivity. }
    destruct (json_unauthenticated env req jdb Hnone) as [H1 H2].
    split; [exact H1|]. split; [exact H2|]. split.
    + now apply json_listMyOrders_401.
    + rewrite json_logout_run. destruct (cookieSid req) as [sid|]; [|reflexivity].
      destruct Hj as [Hj _]. rewrite (delete_id _ _ Hj). now destruct jdb.
  - assert (Hnone : Sqlite.sessionUser req (Sqlite.tables sdb) = None).
    { unfold Sqlite.sessionUser, Sqlite.selectSessionUser.
      destruct (cookieSid req) as [sid|]; [|reflexivity].
      apply existsb_notIn_map, existsb_false_iff, filter_nil_iff in Hs.
      now rewrite Hs. }
    destruct (sqlite_unauthenticated env req sdb Hnone) as (H1 & H2 & H3).
    split; [exact H1|]. split; [exact H2|]. split; [exact H3|].
    rewrite sqlite_logout_run. destruct (cookieSid req) as [sid|].
    + apply existsb_notIn_map, existsb_false_iff in Hs.
      rewrite filter_all.
      * now destruct sdb as [[] ?].
      * intros x Hx. rewrite List.Forall_forall in Hs. now rewrite (Hs x Hx).
    + now destruct sdb.
Qed.

Lemma no_session_is_401_witness :
  JsonFile.placeOrder envLater (orderRequest "s-0" customerShiva [itemPrd1]) jsonShiva
  = (jsonShiva, notAuthenticated)
  /\ Sqlite.placeOrder envLater (orderRequest "s-0" customerShiva [itemPrd1]) sqliteShiva
     = (sqliteShiva, notAuthenticated).
Proof.
  destruct (no_session_is_401 envLater
              (orderRequest "s-0" customerShiva [itemPrd1]) jsonShiva sqliteShiva)
    as [(_ & Hj & _) (_ & Hs & _)].
  - split; [vm_compute; reflexivity|].
    vm_compute. intros H. repeat (destruct H as [H|H]; [discriminate H|]).
    exact H.
  - vm_compute. intros [H|[]]. discriminate H.
  - now split.
Defined.

End NoSession.

(** ** The SQLite listing in full *)

Section Listed.
Import Sqlite Listing.

Lemma keepItem_shown (o : OrderRow) (l : list ItemRow) :
  flat_map keepItem
    (List.map (fun i => {| jr_order := o; jr_item := Some i |}) l)
  = List.map itemOfRow
      (List.filter (fun i => negb (String.eqb (oi_product_id i) "")) l).
Proof.
  induction l as [|i l IH]; [reflexivity|].
  cbn [List.map flat_map List.filter]. rewrite IH.
  unfold keepItem at 1. cbn [jr_item].
  now destruct (negb (String.eqb (oi_product_id i) "")).
Qed.

Lemma keepItem_rows_shown (t : Tables) (o : OrderRow) :
  flat_map keepItem (rowsOfOrder t o) = shownItems t (o_id o).
Proof.
  unfold rowsOfOrder, shownItems.
  destruct (itemsOfOrder t (o_id o)) as [|i its]; [reflexivity|].
  apply keepItem_shown.
Qed.

Lemma items_shown (uid : string) (t : Tables) (o : OrderRow) :
  wellFormed t -> In o (userOrders uid t) ->
  itemsFor (o_id o) (selectOrders uid t) = shownItems t (o_id o).
Proof.
  intros [Hnd Hids _ _] Hin.
  unfold selectOrders. rewrite itemsFor_filter, filter_orderBy, leftJoin_rows.
  rewrite filter_key_join; [|now apply NoDup_map_filter|exact Hin].
  rewrite orderBy_of_sorted by now apply rowsOfOrder_sorted.
  apply keepItem_rows_shown.
Qed.

Lemma listing_shown (uid : string) (t : Tables) :
  wellFormed t ->
  listing (selectOrders uid t)
  = List.map (shownOrder t)
      (List.map jr_order (firsts [] (selectOrders uid t))).
Proof.
  intros Hwf. unfold listing. rewrite map_map.
  apply map_ext_in. intros x Hx. apply firsts_In in Hx.
  apply selectOrders_In in Hx as (o & Ho & Hx).
  apply rowsOfOrder_order in Hx. unfold mkView, shownOrder, key.
  rewrite Hx. f_equal. now apply items_shown.
Qed.

(** X23: what [GET /orders/me] of the SQLite variant answers.  In every state
    reached from the empty database, a request whose cookie resolves to a
    user is answered 200, the database untouched, with each order of that
    user exactly once and no other order; each order carries its id, time
    stamp and customer and those of its item rows that have a non-empty
    product id, in the order they were inserted; the orders are arranged
    newest first by creation time stamp. *)
Theorem sqlite_listing_of_reachable
    (calls : list Call) (req : Request) (su : UserRow) :
  let sdb := sqliteRun calls Sqlite.initial in
  sessionUser req (tables sdb) = Some su ->
  exists views,
    listMyOrders req sdb = (sdb, respond 200 (BOrders views))
    /\ status (snd (listMyOrders req sdb)) = 200
    /\ resp_cookie (snd (listMyOrders req sdb)) = CookieUntouched
    /\ Permutation views
         (List.map (shownOrder (tables sdb)) (userOrders (u_id su) (tables sdb)))
    /\ StronglySorted newestFirst views.
Proof.
  intros sdb Hsu.
  destruct (sqlite_reachable_wellFormed calls) as [Hwf _]. fold sdb in Hwf.
  exists (reassemble (selectOrders (u_id su) (tables sdb))).
  rewrite sqlite_listMyOrders_run, Hsu, reassemble_listing.
  split; [reflexivity|]. split; [reflexivity|]. split; [reflexivity|]. split.
  - rewrite listing_shown by exact Hwf.
    apply Permutation_map. now apply listed_orders_perm.
  - apply listing_sorted. apply orderBy_sorted.
Qed.

Lemma sqlite_listing_of_reachable_witness :
  let sdb := sqliteRun sqliteOrderCalls Sqlite.initial in
  exists views,
    listMyOrders (myOrders "s-1") sdb = (sdb, respond 200 (BOrders views))
    /\ List.map ov_id views = ["DDD-1700000000002"; "DDD-1700000000001"]
    /\ List.map (fun v => List.map item_id (ov_items v)) views
       = [["prd-2"]; ["prd-1"]]
    /\ Permutation views
         (List.map (shownOrder (tables sdb)) (userOrders "u-1" (tables sdb)))
    /\ StronglySorted newestFirst views.
Proof.
  intros sdb.
  destruct (sqlite_listing_of_reachable sqliteOrderCalls (myOrders "s-1")
              sqliteUserShiva) as (views & Hrun & _ & _ & Hperm & Hsorted).
  - vm_compute. reflexivity.
  - exists views. fold sdb in Hrun, Hperm.
    split; [exact Hrun|].
    assert (E : BOrders views = resp_body (snd (listMyOrders (myOrders "s-1") sdb)))
      by (rewrite Hrun; reflexivity).
    vm_compute in E. injection E as E.
    split; [rewrite E; reflexivity|]. split; [rewrite E; reflexivity|].
    split; [exact Hperm|exact Hsorted].
Defined.

End Listed.
